(** * betatips-backend: account policy of the two server stacks

    The repository holds two Express applications over the same kind of
    document store:

    - [Server]: the single-file application of [server.js], with its own
      [User], [Game] and [Post] schemas;
    - [Routes]: the modular application ([routes/auth], [routes/admin],
      [routes/games], [routes/community], [middleware/isAdmin] and the entry
      file that mounts them and creates the default admin).

    Each handler is a function from the store to an HTTP answer and the next
    store.  The libraries ([bcryptjs], [jsonwebtoken]) appear as the
    interface [Crypto]; the clock and [Math.random()] are arguments.  Where
    a handler's answer depends on the JavaScript type of a body field, the
    field is a [JsValue]. *)

From Stdlib Require Import ZArith QArith Qround List String Ascii Bool.
From Stdlib Require Import Lia Lqa.
From Stdlib Require Import Permutation Sorted.
Import ListNotations.
Local Open Scope string_scope.
Local Open Scope nat_scope.

Set Implicit Arguments.

(** ** Values shared by both stacks *)

(** A Mongo [ObjectId]; only identity matters. *)
Definition ObjectId := nat.

(** A JavaScript [Date], in milliseconds since the epoch. *)
Definition Date := Z.

(** The object given to [jwt.sign]: [server.js] signs
    [{ userId, username }], [routes/auth] signs [{ userId, isAdmin }]. *)
Record JwtPayload := {
  userId : ObjectId;
  jwt_username : option string;
  jwt_isAdmin : option bool
}.

(** [bcryptjs] and [jsonwebtoken].  The salt that [bcrypt.hash] draws is not
    modelled: no statement below compares two hashes of one password.
    [jwtVerify] is [None] whenever [jwt.verify] reports an error. *)
Class Crypto := {
  bcryptHash : string -> string;
  bcryptCompare : string -> string -> bool;
  jwtSign : JwtPayload -> string -> string;
  jwtVerify : string -> option JwtPayload
}.

(** What [res.status(c).json(b)] sends. *)
Record Response (B : Type) := respond { statusCode : nat; json : B }.

(** The exception whose [message] a handler's [catch] sends back. *)
Inductive JsError :=
| TypeErrorOfNull                  (* property read on [null] *)
| NotAFunction (callee : string)   (* call of a method the value lacks *)
| IllegalArguments                 (* [bcrypt.compare] on a non-string *)
| CastError (path : string).       (* Mongoose cannot cast the value *)

(** A value of a JSON body, as far as the handlers look at it:
    [JUndefined] is a key that is not sent, [JObject] an array or an object,
    which no modelled read looks into. *)
Inductive JsValue :=
| JUndefined
| JNull
| JBool (b : bool)
| JNum (q : Q)
| JStr (s : string)
| JObject.

(** JavaScript truthiness, as [if (v)], [!v] and [v ? a : b] read it. *)
Definition jsTruthy (v : JsValue) : bool :=
  match v with
  | JUndefined | JNull => false
  | JBool b => b
  | JNum q => negb (Qeq_bool q 0)
  | JStr EmptyString => false
  | JStr _ => true
  | JObject => true
  end.

(** The value when it is a string: what has the methods of a string and
    what [bcrypt.compare] takes. *)
Definition asString (v : JsValue) : option string :=
  match v with
  | JStr s => Some s
  | _ => None
  end.

(** Mongoose's cast of a value written to a [Boolean] path by an update:
    [Some (Some b)] stores [b], [Some None] has nothing to cast ([null] or a
    key that is not sent), [None] is a [CastError]. *)
Definition castBoolean (v : JsValue) : option (option bool) :=
  match v with
  | JUndefined | JNull => Some None
  | JBool b => Some (Some b)
  | JNum q =>
      if Qeq_bool q 1 then Some (Some true)
      else if Qeq_bool q 0 then Some (Some false)
      else None
  | JStr s =>
      if (s =? "true")%string || (s =? "1")%string || (s =? "yes")%string
      then Some (Some true)
      else if (s =? "false")%string || (s =? "0")%string || (s =? "no")%string
      then Some (Some false)
      else None
  | JObject => None
  end.

(** The part of an account the VIP invariant speaks about. *)
Record VipState := {
  vs_hasPaid : bool;
  vs_vipStartDate : option Date;
  vs_vipExpiryDate : option Date
}.

Definition vipInvariant (v : VipState) : Prop :=
  (vs_hasPaid v = true -> vs_vipExpiryDate v <> None) /\
  (vs_hasPaid v = false ->
     vs_vipStartDate v = None /\ vs_vipExpiryDate v = None).

Definition vipInvariantb (v : VipState) : bool :=
  if vs_hasPaid v
  then match vs_vipExpiryDate v with Some _ => true | None => false end
  else match vs_vipStartDate v, vs_vipExpiryDate v with
       | None, None => true
       | _, _ => false
       end.

(** ** Collections *)

Section Collections.
Variable A : Type.

(** [Model.findByIdAndUpdate]: the first document that matches is
    replaced. *)
Fixpoint updateFirst (p : A -> bool) (f : A -> A) (l : list A) : list A :=
  match l with
  | [] => []
  | x :: r => if p x then f x :: r else x :: updateFirst p f r
  end.

(** [Model.findByIdAndDelete] and [Model.deleteOne]. *)
Fixpoint removeFirst (p : A -> bool) (l : list A) : list A :=
  match l with
  | [] => []
  | x :: r => if p x then r else x :: removeFirst p r
  end.

(** [.sort({ key: -1 })]: largest key first.  MongoDB leaves the order of
    documents with equal keys open; here the later document of the
    collection comes first among them. *)
Fixpoint insertDesc (key : A -> Z) (x : A) (l : list A) : list A :=
  match l with
  | [] => [x]
  | y :: r => if (key y <? key x)%Z then x :: y :: r
              else y :: insertDesc key x r
  end.

Definition sortDesc (key : A -> Z) (l : list A) : list A :=
  fold_right (insertDesc key) [] l.
End Collections.

(** ** Strings *)

(** [s.split(sep)] for a one-character separator. *)
Fixpoint split (sep : ascii) (s : string) : list string :=
  match s with
  | EmptyString => [EmptyString]
  | String c r =>
      if Ascii.eqb c sep then EmptyString :: split sep r
      else match split sep r with
           | [] => [String c EmptyString]
           | h :: t => String c h :: t
           end
  end.

(** [authHeader && authHeader.split(' ')[1]], with every falsy outcome
    ([undefined], the empty string) as [None]. *)
Definition bearerToken (authHeader : option string) : option string :=
  match authHeader with
  | None => None
  | Some h =>
      match nth_error (split " "%char h) 1 with
      | Some EmptyString => None
      | other => other
      end
  end.

Definition digitChar (d : Z) : ascii :=
  ascii_of_nat (48 + Z.to_nat d).

Fixpoint digitsOf (fuel : nat) (n : Z) (acc : string) : string :=
  match fuel with
  | O => acc
  | S fuel' =>
      if (n <? 10)%Z then String (digitChar n) acc
      else digitsOf fuel' (n / 10)%Z (String (digitChar (n mod 10)%Z) acc)
  end.

(** [Number.prototype.toString] on a non-negative integer below [1e21]
    (plain decimal notation, at most 21 digits). *)
Definition toString (n : Z) : string := digitsOf 21 n EmptyString.

Definition isDigit (c : ascii) : bool :=
  (48 <=? nat_of_ascii c) && (nat_of_ascii c <=? 57).

Fixpoint allDigits (s : string) : bool :=
  match s with
  | EmptyString => true
  | String c r => isDigit c && allDigits r
  end.

(** [Math.floor(100000 + Math.random() * 900000)], with the value of
    [Math.random()] as the rational [r]. *)
Definition tempCode (r : Q) : Z := Qfloor (100000 + r * 900000)%Q.

(** White space of [s.trim()] among the ASCII characters: tab, line feed,
    vertical tab, form feed, carriage return and space. *)
Definition isSpace (c : ascii) : bool :=
  let n := nat_of_ascii c in
  ((9 <=? n) && (n <=? 13)) || (n =? 32).

(** [s.trim()]. *)
Fixpoint trimLeft (s : string) : string :=
  match s with
  | String c r => if isSpace c then trimLeft r else s
  | EmptyString => EmptyString
  end.

Fixpoint trimRight (s : string) : string :=
  match s with
  | EmptyString => EmptyString
  | String c r =>
      match trimRight r with
      | EmptyString => if isSpace c then EmptyString else String c EmptyString
      | r' => String c r'
      end
  end.

Definition trim (s : string) : string := trimRight (trimLeft s).

(** JavaScript truthiness of an optional string field: [undefined] and the
    empty string are falsy. *)
Definition truthy (s : option string) : bool :=
  match s with
  | None | Some EmptyString => false
  | Some _ => true
  end.

(** ** The single-file application ([server.js]) *)

Module Server.

(** [mongoose.model('User', ...)]. *)
Record User := {
  _id : ObjectId;
  username : string;
  email : string;
  password : string;
  hasPaid : bool;
  isAdmin : bool;
  isBlocked : bool;
  needsPasswordChange : bool;
  paymentDate : option Date;
  createdAt : Date
}.

(** A user document after [.select('-password')]. *)
Record UserDoc := {
  doc_id : ObjectId;
  doc_username : string;
  doc_email : string;
  doc_hasPaid : bool;
  doc_isAdmin : bool;
  doc_isBlocked : bool;
  doc_needsPasswordChange : bool;
  doc_paymentDate : option Date;
  doc_createdAt : Date
}.

Definition selectNoPassword (u : User) : UserDoc :=
  {| doc_id := _id u; doc_username := username u; doc_email := email u;
     doc_hasPaid := hasPaid u; doc_isAdmin := isAdmin u;
     doc_isBlocked := isBlocked u;
     doc_needsPasswordChange := needsPasswordChange u;
     doc_paymentDate := paymentDate u; doc_createdAt := createdAt u |}.

(** The [user] object of the register and login answers. *)
Record UserSummary := {
  sum_id : ObjectId;
  sum_username : string;
  sum_email : string;
  sum_hasPaid : bool;
  sum_isAdmin : bool
}.

Definition summary (u : User) : UserSummary :=
  {| sum_id := _id u; sum_username := username u; sum_email := email u;
     sum_hasPaid := hasPaid u; sum_isAdmin := isAdmin u |}.

(** The schema declares neither [vipStartDate] nor [vipExpiryDate]: both
    read as [undefined] on every document of this model. *)
Definition vipState (u : User) : VipState :=
  {| vs_hasPaid := hasPaid u; vs_vipStartDate := None;
     vs_vipExpiryDate := None |}.

(** [mongoose.model('Game', ...)]. *)
Record Game := {
  game_id : ObjectId;
  homeTeam : string;
  awayTeam : string;
  league : string;
  prediction : string;
  odds : string;
  gameTime : Date;
  status : string;
  isVip : bool;
  game_createdAt : Date
}.

Record Comment := {
  comment_content : option string;
  comment_author : ObjectId;
  comment_createdAt : Date
}.

(** [mongoose.model('Post', ...)]. *)
Record Post := {
  post_id : ObjectId;
  title : string;
  content : string;
  author : ObjectId;
  post_createdAt : Date;
  likes : list ObjectId;
  comments : list Comment
}.

(** A post after [.populate('author', 'username')] and
    [.populate('comments.author', 'username')]: each reference becomes the
    referenced user's [username], or [null] when the user is gone. *)
Record PostOut := {
  out_post : Post;
  out_author : option string;
  out_commentAuthors : list (option string)
}.

Record Store := {
  users : list User;
  games : list Game;
  posts : list Post;
  nextId : ObjectId      (* the next [ObjectId] a [new Model()] receives *)
}.

(** The JSON bodies the handlers send. *)
Inductive Body :=
| Msg (message : string)
| MsgError (message : string) (error : JsError)
| AuthOk (message : string) (token : string) (user : UserSummary)
| OneUser (user : UserDoc)
| Users (list_ : list UserDoc)
| MsgUser (message : string) (user : UserDoc)
| TempPassword (message : string) (tempPassword : string) (user : UserDoc)
| Games (list_ : list Game)
| OneGame (game : Game)
| Posts (list_ : list PostOut)
| OnePostOut (post : PostOut)
| OnePost (post : Post).

Definition Handler := Store -> Response Body * Store.

Definition send (c : nat) (b : Body) : Handler :=
  fun st => (respond c b, st).

(** The body of [POST /api/games]: any field may be missing. *)
Record GameBody := {
  b_homeTeam : option string;
  b_awayTeam : option string;
  b_league : option string;
  b_prediction : option string;
  b_odds : option string;
  b_gameTime : option Date;
  b_status : option string;
  b_isVip : option bool
}.

Inductive Request :=
| Register (uname mail pass : string)
| Login (uname : string) (pass : JsValue)
| Me (authorization : option string)
| ChangePassword (authorization : option string)
    (currentPassword newPassword : string)
| GetGames (authorization : option string)
| CreateGame (authorization : option string) (body : GameBody)
| GetPosts (authorization : option string)
| CreatePost (authorization : option string) (btitle bcontent : option string)
| Payment (authorization : option string)
| DeleteGame (authorization : option string) (id : ObjectId)
| UpdateGameResult (authorization : option string) (id : ObjectId)
    (result : option string)
| AddComment (authorization : option string) (id : ObjectId)
    (bcontent : option string)
| DeletePost (authorization : option string) (id : ObjectId)
| AdminUsers (authorization : option string)
| Block (authorization : option string) (id : ObjectId) (blocked : bool)
| Vip (authorization : option string) (id : ObjectId) (bhasPaid : bool)
| GenerateTempPassword (authorization : option string) (id : ObjectId).

Definition findById (id : ObjectId) (st : Store) : option User :=
  find (fun u => _id u =? id) (users st).

Definition findOneByUsername (uname : string) (st : Store) : option User :=
  find (fun u => (username u =? uname)%string) (users st).

Definition withUsers (st : Store) (l : list User) : Store :=
  {| users := l; games := games st; posts := posts st;
     nextId := nextId st |}.

Definition withGames (st : Store) (l : list Game) : Store :=
  {| users := users st; games := l; posts := posts st;
     nextId := nextId st |}.

Definition withPosts (st : Store) (l : list Post) : Store :=
  {| users := users st; games := games st; posts := l;
     nextId := nextId st |}.

Definition bumpId (st : Store) : Store :=
  {| users := users st; games := games st; posts := posts st;
     nextId := S (nextId st) |}.

(** [User.findByIdAndUpdate(id, update, { new: true })]. *)
Definition updateUser (id : ObjectId) (f : User -> User) (st : Store) : Store :=
  withUsers st (updateFirst (fun u => _id u =? id) f (users st)).

Definition populate (st : Store) (id : ObjectId) : option string :=
  option_map username (findById id st).

Definition populatePost (st : Store) (p : Post) : PostOut :=
  {| out_post := p; out_author := populate st (author p);
     out_commentAuthors :=
       map (fun c => populate st (comment_author c)) (comments p) |}.

Section Handlers.
Context {crypto : Crypto}.

(** [authenticateToken]. *)
Definition authenticateToken (authorization : option string)
    (next : JwtPayload -> Handler) : Handler :=
  match bearerToken authorization with
  | None => send 401 (Msg "Access token required")
  | Some token =>
      match jwtVerify token with
      | None => send 403 (Msg "Invalid or expired token")
      | Some user => next user
      end
  end.

(** [POST /api/auth/register]; [save()] rejects an empty [username] or
    [email] (both [required]). *)
Definition register (uname mail pass : string) (now : Date) : Handler :=
  fun st =>
    match find (fun u => (email u =? mail)%string
                         || (username u =? uname)%string) (users st) with
    | Some _ => send 400 (Msg "User already exists") st
    | None =>
        let user := {| _id := nextId st; username := uname; email := mail;
                       password := bcryptHash pass; hasPaid := false;
                       isAdmin := false; isBlocked := false;
                       needsPasswordChange := false; paymentDate := None;
                       createdAt := now |} in
        if truthy (Some uname) && truthy (Some mail)
        then
          let token := jwtSign {| userId := _id user;
                                  jwt_username := Some (username user);
                                  jwt_isAdmin := None |} "7d" in
          (respond 201 (AuthOk "User created successfully" token
                          (summary user)),
           bumpId (withUsers st (users st ++ [user])))
        else send 500 (Msg "Server error during registration") st
    end.

(** [POST /api/auth/login].  The password is whatever the body holds:
    [bcrypt.compare] rejects one that is not a string, and the handler's
    [catch] answers that with 500. *)
Definition login (uname : string) (pass : JsValue) : Handler :=
  fun st =>
    match findOneByUsername uname st with
    | None => send 400 (Msg "Invalid credentials") st
    | Some user =>
        match asString pass with
        | None => send 500 (Msg "Server error during login") st
        | Some p =>
            if negb (bcryptCompare p (password user))
            then send 400 (Msg "Invalid credentials") st
            else
              let token := jwtSign {| userId := _id user;
                                      jwt_username := Some (username user);
                                      jwt_isAdmin := None |} "7d" in
              send 200 (AuthOk "Login successful" token (summary user)) st
        end
    end.

(** [GET /api/auth/me]. *)
Definition me (authorization : option string) : Handler :=
  authenticateToken authorization (fun tok st =>
    match findById (userId tok) st with
    | None => send 404 (Msg "User not found") st
    | Some user => send 200 (OneUser (selectNoPassword user)) st
    end).

Definition setPassword (h : string) (u : User) : User :=
  {| _id := _id u; username := username u; email := email u;
     password := h; hasPaid := hasPaid u; isAdmin := isAdmin u;
     isBlocked := isBlocked u;
     needsPasswordChange := needsPasswordChange u;
     paymentDate := paymentDate u; createdAt := createdAt u |}.

(** [PATCH /api/auth/change-password]. *)
Definition changePassword (authorization : option string)
    (currentPassword newPassword : string) : Handler :=
  authenticateToken authorization (fun tok st =>
    match findById (userId tok) st with
    | None => send 404 (Msg "User not found") st
    | Some user =>
        if negb (bcryptCompare currentPassword (password user))
        then send 400 (Msg "Current password is incorrect") st
        else
          let hashedPassword := bcryptHash newPassword in
          send 200 (Msg "Password changed successfully")
            (updateUser (_id user) (setPassword hashedPassword) st)
    end).

(** [GET /api/games]. *)
Definition getGames (authorization : option string) : Handler :=
  authenticateToken authorization (fun tok st =>
    match findById (userId tok) st with
    | None => send 500 (Msg "Server error") st
    | Some user =>
        let found :=
          if hasPaid user || isAdmin user then games st
          else filter (fun g => Bool.eqb (isVip g) false) (games st) in
        send 200 (Games (sortDesc game_createdAt found)) st
    end).

(** What [new Game(req.body)] followed by [save()] accepts: the five
    required strings present and non-empty, [gameTime] present, and
    [status], when given, in the schema's enum.  A [createdAt] sent in
    the body is not modelled. *)
Definition newGame (b : GameBody) (id : ObjectId) (now : Date)
    : option Game :=
  match b_homeTeam b, b_awayTeam b, b_league b, b_prediction b,
        b_odds b, b_gameTime b with
  | Some h, Some a, Some l, Some p, Some o, Some t =>
      let s := match b_status b with Some s => s | None => "pending" end in
      if truthy (Some h) && truthy (Some a) && truthy (Some l)
         && truthy (Some p) && truthy (Some o)
         && ((s =? "pending") || (s =? "won") || (s =? "lost"))%string
      then Some {| game_id := id; homeTeam := h; awayTeam := a;
                   league := l; prediction := p; odds := o;
                   gameTime := t; status := s;
                   isVip := match b_isVip b with
                            | Some v => v | None => false end;
                   game_createdAt := now |}
      else None
  | _, _, _, _, _, _ => None
  end.

(** [POST /api/games]. *)
Definition createGame (authorization : option string) (body : GameBody)
    (now : Date) : Handler :=
  authenticateToken authorization (fun tok st =>
    match findById (userId tok) st with
    | None => send 500 (Msg "Server error") st
    | Some user =>
        if negb (isAdmin user)
        then send 403 (Msg "Admin access required") st
        else match newGame body (nextId st) now with
             | None => send 500 (Msg "Server error") st
             | Some game =>
                 (respond 201 (OneGame game),
                  bumpId (withGames st (games st ++ [game])))
             end
    end).

(** [GET /api/posts]. *)
Definition getPosts (authorization : option string) : Handler :=
  authenticateToken authorization (fun tok st =>
    send 200 (Posts (map (populatePost st)
                       (sortDesc post_createdAt (posts st)))) st).

(** [POST /api/posts]: of the body, [title] and [content] (both
    [required]) are kept. *)
Definition createPost (authorization : option string)
    (btitle bcontent : option string) (now : Date) : Handler :=
  authenticateToken authorization (fun tok st =>
    match btitle, bcontent with
    | Some t, Some c =>
        if truthy (Some t) && truthy (Some c) then
          let post := {| post_id := nextId st; title := t; content := c;
                         author := userId tok; post_createdAt := now;
                         likes := []; comments := [] |} in
          let st' := bumpId (withPosts st (posts st ++ [post])) in
          (respond 201 (OnePostOut (populatePost st' post)), st')
        else send 500 (Msg "Server error") st
    | _, _ => send 500 (Msg "Server error") st
    end).

Definition markPaid (now : Date) (u : User) : User :=
  {| _id := _id u; username := username u; email := email u;
     password := password u; hasPaid := true; isAdmin := isAdmin u;
     isBlocked := isBlocked u;
     needsPasswordChange := needsPasswordChange u;
     paymentDate := Some now; createdAt := createdAt u |}.

(** [PATCH /api/user/payment]. *)
Definition payment (authorization : option string) (now : Date) : Handler :=
  authenticateToken authorization (fun tok st =>
    match findById (userId tok) st with
    | None => send 500 (Msg "Server error") st
    | Some user =>
        send 200 (Msg "Payment status updated successfully")
          (updateUser (_id user) (markPaid now) st)
    end).

(** [DELETE /api/games/:id]. *)
Definition deleteGame (authorization : option string) (id : ObjectId)
    : Handler :=
  authenticateToken authorization (fun tok st =>
    match findById (userId tok) st with
    | None => send 500 (Msg "Server error") st
    | Some user =>
        if negb (isAdmin user)
        then send 403 (Msg "Admin access required") st
        else send 200 (Msg "Game deleted successfully")
               (withGames st
                  (removeFirst (fun g => game_id g =? id) (games st)))
    end).

(** [PATCH /api/games/:id/result].  Past the admin check the handler
    logs [result] above its [const { result } = req.body], which throws
    a [ReferenceError] into the [catch]. *)
Definition updateGameResult (authorization : option string)
    (id : ObjectId) (result : option string) : Handler :=
  authenticateToken authorization (fun tok st =>
    match findById (userId tok) st with
    | None => send 500 (Msg "Server error") st
    | Some user =>
        if negb (isAdmin user)
        then send 403 (Msg "Admin access required") st
        else send 500 (Msg "Server error") st
    end).

Definition pushComment (c : Comment) (p : Post) : Post :=
  {| post_id := post_id p; title := title p; content := content p;
     author := author p; post_createdAt := post_createdAt p;
     likes := likes p; comments := comments p ++ [c] |}.

(** [POST /api/posts/:id/comments]. *)
Definition addComment (authorization : option string) (id : ObjectId)
    (bcontent : option string) (now : Date) : Handler :=
  authenticateToken authorization (fun tok st =>
    match find (fun p => post_id p =? id) (posts st) with
    | None => send 404 (Msg "Post not found") st
    | Some post =>
        let post' := pushComment {| comment_content := bcontent;
                                    comment_author := userId tok;
                                    comment_createdAt := now |} post in
        (respond 201 (OnePost post'),
         withPosts st
           (updateFirst (fun p => post_id p =? id) (fun _ => post')
              (posts st)))
    end).

(** [DELETE /api/posts/:id]. *)
Definition deletePost (authorization : option string) (id : ObjectId)
    : Handler :=
  authenticateToken authorization (fun tok st =>
    match find (fun p => post_id p =? id) (posts st) with
    | None => send 404 (Msg "Post not found") st
    | Some post =>
        let removed :=
          withPosts st
            (removeFirst (fun p => post_id p =? id) (posts st)) in
        if author post =? userId tok
        then send 200 (Msg "Post deleted successfully") removed
        else match findById (userId tok) st with
             | None => send 500 (Msg "Server error") st
             | Some user =>
                 if negb (isAdmin user)
                 then send 403 (Msg "Not authorized") st
                 else send 200 (Msg "Post deleted successfully") removed
             end
    end).

(** [GET /api/admin/users]. *)
Definition adminUsers (authorization : option string) : Handler :=
  authenticateToken authorization (fun tok st =>
    match findById (userId tok) st with
    | None => send 500 (Msg "Server error fetching users") st
    | Some user =>
        if negb (isAdmin user)
        then send 403 (Msg "Admin access required") st
        else send 200 (Users (map selectNoPassword
                                (sortDesc createdAt (users st)))) st
    end).

Definition setBlocked (b : bool) (u : User) : User :=
  {| _id := _id u; username := username u; email := email u;
     password := password u; hasPaid := hasPaid u; isAdmin := isAdmin u;
     isBlocked := b; needsPasswordChange := needsPasswordChange u;
     paymentDate := paymentDate u; createdAt := createdAt u |}.

(** [PATCH /api/admin/users/:id/block] (the first of the two
    registrations answers every request). *)
Definition block (authorization : option string) (id : ObjectId)
    (blocked : bool) : Handler :=
  authenticateToken authorization (fun tok st =>
    match findById (userId tok) st with
    | None => send 500 (Msg "Server error") st
    | Some admin =>
        if negb (isAdmin admin)
        then send 403 (Msg "Admin access required") st
        else
          let st' := updateUser id (setBlocked blocked) st in
          match findById id st' with
          | None => send 404 (Msg "User not found") st'
          | Some user =>
              send 200 (MsgUser
                          ("User " ++ (if blocked then "blocked"
                                       else "unblocked")
                                   ++ " successfully")
                          (selectNoPassword user)) st'
          end
    end).

Definition setVip (paid : bool) (now : Date) (u : User) : User :=
  {| _id := _id u; username := username u; email := email u;
     password := password u; hasPaid := paid; isAdmin := isAdmin u;
     isBlocked := isBlocked u;
     needsPasswordChange := needsPasswordChange u;
     paymentDate := if paid then Some now else None;
     createdAt := createdAt u |}.

(** [PATCH /api/admin/users/:id/vip]. *)
Definition vip (authorization : option string) (id : ObjectId)
    (bhasPaid : bool) (now : Date) : Handler :=
  authenticateToken authorization (fun tok st =>
    match findById (userId tok) st with
    | None => send 500 (Msg "Server error") st
    | Some admin =>
        if negb (isAdmin admin)
        then send 403 (Msg "Admin access required") st
        else
          let st' := updateUser id (setVip bhasPaid now) st in
          match findById id st' with
          | None => send 404 (Msg "User not found") st'
          | Some user =>
              send 200 (MsgUser
                          ("VIP access " ++ (if bhasPaid then "granted"
                                             else "removed")
                                         ++ " successfully")
                          (selectNoPassword user)) st'
          end
    end).

Definition setTempPassword (h : string) (u : User) : User :=
  {| _id := _id u; username := username u; email := email u;
     password := h; hasPaid := hasPaid u; isAdmin := isAdmin u;
     isBlocked := isBlocked u; needsPasswordChange := true;
     paymentDate := paymentDate u; createdAt := createdAt u |}.

(** [PATCH /api/admin/users/:id/generate-temp-password]; [random] is
    the value [Math.random()] returns. *)
Definition generateTempPassword (authorization : option string)
    (id : ObjectId) (random : Q) : Handler :=
  authenticateToken authorization (fun tok st =>
    match findById (userId tok) st with
    | None => send 500 (MsgError "Server error: " TypeErrorOfNull) st
    | Some admin =>
        if negb (isAdmin admin)
        then send 403 (Msg "Admin access required") st
        else
          let tempPassword := toString (tempCode random) in
          let hashedPassword := bcryptHash tempPassword in
          let st' := updateUser id (setTempPassword hashedPassword) st in
          match findById id st' with
          | None => send 404 (Msg "User not found") st'
          | Some user =>
              send 200 (TempPassword
                          "Temporary password generated successfully"
                          tempPassword (selectNoPassword user)) st'
          end
    end).

(** The router: one request, with the clock and the random draw the
    handler may consult. *)
Definition handle (now : Date) (random : Q) (req : Request) : Handler :=
  match req with
  | Register u m p => register u m p now
  | Login u p => login u p
  | Me a => me a
  | ChangePassword a c n => changePassword a c n
  | GetGames a => getGames a
  | CreateGame a b => createGame a b now
  | GetPosts a => getPosts a
  | CreatePost a t c => createPost a t c now
  | Payment a => payment a now
  | DeleteGame a i => deleteGame a i
  | UpdateGameResult a i r => updateGameResult a i r
  | AddComment a i c => addComment a i c now
  | DeletePost a i => deletePost a i
  | AdminUsers a => adminUsers a
  | Block a i b => block a i b
  | Vip a i b => vip a i b now
  | GenerateTempPassword a i => generateTempPassword a i random
  end.
End Handlers.

(** The routes the source reserves to admins ([if (!user.isAdmin)]
    before anything else).  [DeletePost] is open to the post's author and
    is not one of them. *)
Definition adminOnly (req : Request) : bool :=
  match req with
  | CreateGame _ _ | DeleteGame _ _ | UpdateGameResult _ _ _
  | AdminUsers _ | Block _ _ _ | Vip _ _ _
  | GenerateTempPassword _ _ => true
  | _ => false
  end.

(** The [Authorization] header a request carries, if its route sits
    behind [authenticateToken]. *)
Definition authorizationOf (req : Request) : option (option string) :=
  match req with
  | Register _ _ _ | Login _ _ => None
  | Me a | ChangePassword a _ _ | GetGames a | CreateGame a _
  | GetPosts a | CreatePost a _ _ | Payment a | DeleteGame a _
  | UpdateGameResult a _ _ | AddComment a _ _ | DeletePost a _
  | AdminUsers a | Block a _ _ | Vip a _ _
  | GenerateTempPassword a _ => Some a
  end.

End Server.

(** ** The modular application ([routes/], [middleware/], entry file) *)

Module Routes.

(** Modelled from the spec: [models/User.js] is not among the sources.
    The fields are those of the spec's Account Record (section 3), with the
    defaults it gives ([isActive] true, the other flags false, the dates
    null), plus the [transactionId] that [routes/admin] writes.  [save()]
    stores [bcryptHash] of a new [password] (the pre-save hook the route
    comments refer to) and adds the document to the collection; username
    and email uniqueness is what [register] checks beforehand. *)
Record User := {
  _id : ObjectId;
  username : string;
  email : string;
  password : string;
  isAdmin : bool;
  hasPaid : bool;
  vipStartDate : option Date;
  vipExpiryDate : option Date;
  transactionId : option string;
  isActive : bool;
  isBlocked : bool;
  needsPasswordChange : bool;
  createdAt : Date
}.

(** A user document after [.select('-password')]. *)
Record UserDoc := {
  doc_id : ObjectId;
  doc_username : string;
  doc_email : string;
  doc_isAdmin : bool;
  doc_hasPaid : bool;
  doc_vipStartDate : option Date;
  doc_vipExpiryDate : option Date;
  doc_transactionId : option string;
  doc_isActive : bool;
  doc_isBlocked : bool;
  doc_needsPasswordChange : bool;
  doc_createdAt : Date
}.

Definition selectNoPassword (u : User) : UserDoc :=
  {| doc_id := _id u; doc_username := username u; doc_email := email u;
     doc_isAdmin := isAdmin u; doc_hasPaid := hasPaid u;
     doc_vipStartDate := vipStartDate u;
     doc_vipExpiryDate := vipExpiryDate u;
     doc_transactionId := transactionId u; doc_isActive := isActive u;
     doc_isBlocked := isBlocked u;
     doc_needsPasswordChange := needsPasswordChange u;
     doc_createdAt := createdAt u |}.

(** The [user] object of the register and login answers. *)
Record UserSummary := {
  sum_id : ObjectId;
  sum_username : string;
  sum_email : string;
  sum_isAdmin : bool;
  sum_hasPaid : bool;
  sum_vipExpiryDate : option Date;
  sum_isActive : bool
}.

Definition summary (u : User) : UserSummary :=
  {| sum_id := _id u; sum_username := username u; sum_email := email u;
     sum_isAdmin := isAdmin u; sum_hasPaid := hasPaid u;
     sum_vipExpiryDate := vipExpiryDate u; sum_isActive := isActive u |}.

Definition vipState (u : User) : VipState :=
  {| vs_hasPaid := hasPaid u; vs_vipStartDate := vipStartDate u;
     vs_vipExpiryDate := vipExpiryDate u |}.

(** [gameSchema] (the schema exported as the [Game] model), with the
    [createdAt] of its [timestamps] option. *)
Record Game := {
  game_id : ObjectId;
  homeTeam : string;
  awayTeam : string;
  prediction : string;
  odds : Q;
  category : string;
  matchTime : Date;
  result : option string;
  postedBy : ObjectId;
  game_createdAt : Date
}.

Record Reply := {
  reply_content : string;
  reply_author : ObjectId;
  reply_createdAt : Date
}.

(** [postSchema] of [routes/community.js]. *)
Record Post := {
  post_id : ObjectId;
  content : string;
  author : ObjectId;
  replies : list Reply;
  post_createdAt : Date
}.

(** A referenced user after [.populate(path, 'username hasPaid')]. *)
Definition Populated := option (string * bool).

Record PostOut := {
  out_post : Post;
  out_author : Populated;
  out_replyAuthors : list Populated
}.

(** The collections, the [ObjectId] source, and whether the router has
    the [PATCH /change-password] layer: [routes/auth] registers it from
    inside the [GET /me] handler, so it exists once that handler has run
    past its account check. *)
Record App := {
  users : list User;
  games : list Game;
  posts : list Post;
  nextId : ObjectId;
  changePasswordMounted : bool
}.

Record CategoryStats := {
  cs_category : string;
  cs_count : nat;
  cs_won : nat;
  cs_lost : nat
}.

(** The document [POST /] of [routes/games] builds and [save()] rejects.
    The answer's [errors] are the messages of the validators that reject
    it, the one on [postedBy] among them; the body carries the document
    they are computed from. *)
Record GameDraft := {
  d_homeTeam : string;
  d_awayTeam : string;
  d_prediction : string;
  d_odds : Q;
  d_category : string;
  d_matchTime : Date
}.

Inductive Body :=
| Msg (message : string)
| AuthOk (token : string) (user : UserSummary)
| MeOk (user : UserSummary) (ucreatedAt : Date)
| Users (list_ : list UserDoc)
| MsgUser (message : string) (user : UserDoc)
| Stats (totalUsers vipUsers freeUsers : nat) (conversionRate : Q)
| Games (list_ : list Game)
| MsgRequired (message : string) (required : list string)
| MsgCategories (message : string) (validCategories : list string)
| MsgErrors (message : string) (rejected : GameDraft)
| MsgError (message : string) (error : JsError)
| MsgGame (message : string) (game : Game)
| DeletedGame (message : string) (id : ObjectId) (match_ : string)
    (dcategory : string)
| GameStats (totalGames completedGames pendingGames wonGames lostGames : nat)
    (winRate : Q) (categoriesStats : list CategoryStats)
| Posts (list_ : list PostOut)
| MsgPost (message : string) (post : PostOut)
| CannotRoute.   (* Express's own 404 for a path no layer matches *)

Definition Handler := App -> Response Body * App.

Definition send (c : nat) (b : Body) : Handler :=
  fun app => (respond c b, app).

(** The body of [POST /api/games]; the three names are whatever the body
    holds, [b_odds] is what [parseFloat(odds)] reads from a numeric
    field. *)
Record GameBody := {
  b_homeTeam : JsValue;
  b_awayTeam : JsValue;
  b_prediction : JsValue;
  b_odds : option Q;
  b_category : option string;
  b_matchTime : option Date
}.

(** A request as the handlers see it once [middleware/auth] (not among
    the sources) has stored the token's account id in [req.userId].  The
    password of a login, the [hasPaid] of the VIP route and the names of a
    new game are whatever JSON value the body holds; the other fields are
    the strings, numbers and dates a well-formed body holds, [None] when
    the key is not sent. *)
Inductive Request :=
| Register (uname mail pass : string)
| Login (uname : string) (pass : JsValue)
| GetMe (reqUserId : ObjectId)
| ChangePassword (reqUserId : ObjectId)
    (currentPassword newPassword : option string)
| GetAllGames (reqUserId : ObjectId)
| CreateGame (reqUserId : ObjectId) (body : GameBody)
| UpdateResult (reqUserId : ObjectId) (id : ObjectId)
    (bresult : option string)
| DeleteGame (reqUserId : ObjectId) (id : ObjectId)
| StatsSummary (reqUserId : ObjectId)
| GetUsers (reqUserId : ObjectId)
| PatchVip (reqUserId : ObjectId) (target : ObjectId)
    (bhasPaid : JsValue)
| GetStats (reqUserId : ObjectId)
| GetPosts (reqUserId : ObjectId)
| CreatePost (reqUserId : ObjectId) (bcontent : option string)
| AddReply (reqUserId : ObjectId) (postId : ObjectId)
    (bcontent : option string)
| DeletePost (reqUserId : ObjectId) (postId : ObjectId).

Definition findById (id : ObjectId) (app : App) : option User :=
  find (fun u => _id u =? id) (users app).

Definition findOneByUsername (uname : string) (app : App) : option User :=
  find (fun u => (username u =? uname)%string) (users app).

Definition withUsers (app : App) (l : list User) : App :=
  {| users := l; games := games app; posts := posts app;
     nextId := nextId app;
     changePasswordMounted := changePasswordMounted app |}.

Definition withGames (app : App) (l : list Game) : App :=
  {| users := users app; games := l; posts := posts app;
     nextId := nextId app;
     changePasswordMounted := changePasswordMounted app |}.

Definition withPosts (app : App) (l : list Post) : App :=
  {| users := users app; games := games app; posts := l;
     nextId := nextId app;
     changePasswordMounted := changePasswordMounted app |}.

Definition bumpId (app : App) : App :=
  {| users := users app; games := games app; posts := posts app;
     nextId := S (nextId app);
     changePasswordMounted := changePasswordMounted app |}.

Definition mountChangePassword (app : App) : App :=
  {| users := users app; games := games app; posts := posts app;
     nextId := nextId app; changePasswordMounted := true |}.

Definition updateUser (id : ObjectId) (f : User -> User) (app : App) : App :=
  withUsers app (updateFirst (fun u => _id u =? id) f (users app)).

Definition populate (app : App) (id : ObjectId) : Populated :=
  option_map (fun u => (username u, hasPaid u)) (findById id app).

Definition populatePost (app : App) (p : Post) : PostOut :=
  {| out_post := p; out_author := populate app (author p);
     out_replyAuthors :=
       map (fun r => populate app (reply_author r)) (replies p) |}.

Definition quote : string := String (ascii_of_nat 34) EmptyString.

(** The message of a rejected [result], which quotes both values. *)
Definition invalidResult : string :=
  "Invalid result. Must be " ++ quote ++ "win" ++ quote ++ " or "
    ++ quote ++ "loss" ++ quote.

Definition validCategories : list string :=
  ["All Tips"; "Sure Tips"; "Over/Under Tips"; "Bonus"; "VIP Tips"].

Definition includes (l : list string) (s : string) : bool :=
  existsb (String.eqb s) l.

Definition count {A} (p : A -> bool) (l : list A) : nat :=
  List.length (filter p l).

Definition resultIs (r : string) (g : Game) : bool :=
  match result g with
  | Some r' => (r' =? r)%string
  | None => false
  end.

Definition hasResult (g : Game) : bool :=
  match result g with Some _ => true | None => false end.

(** [(part / whole) * 100], or [0] when [whole] is zero; the rounding of
    [toFixed(1)] for display is left out. *)
Definition percentage (part whole : nat) : Q :=
  if 0 <? whole
  then (inject_Z (Z.of_nat part) / inject_Z (Z.of_nat whole) * 100)%Q
  else 0%Q.

Section Handlers.
Context {crypto : Crypto}.

(** The document [new User(fields)] builds, with the schema defaults. *)
Definition newUser (id : ObjectId) (uname mail pass : string)
    (admin paid : bool) (now : Date) : User :=
  {| _id := id; username := uname; email := mail;
     password := bcryptHash pass; isAdmin := admin; hasPaid := paid;
     vipStartDate := None; vipExpiryDate := None; transactionId := None;
     isActive := true; isBlocked := false; needsPasswordChange := false;
     createdAt := now |}.

(** [middleware/isAdmin]. *)
Definition isAdminMw (reqUserId : ObjectId) (next : Handler) : Handler :=
  fun app =>
    match findById reqUserId app with
    | None => send 403 (Msg "Access denied. Admin only.") app
    | Some user =>
        if negb (isAdmin user)
        then send 403 (Msg "Access denied. Admin only.") app
        else next app
    end.

(** [POST /register]; [save()] rejects an empty required field. *)
Definition register (uname mail pass : string) (now : Date) : Handler :=
  fun app =>
    match find (fun u => (email u =? mail)%string
                         || (username u =? uname)%string) (users app) with
    | Some _ => send 400 (Msg "User already exists") app
    | None =>
        if truthy (Some uname) && truthy (Some mail) && truthy (Some pass)
        then
          let user := newUser (nextId app) uname mail pass false false
                        now in
          let token := jwtSign {| userId := _id user;
                                  jwt_username := None;
                                  jwt_isAdmin := Some (isAdmin user) |}
                         "24h" in
          (respond 201 (AuthOk token (summary user)),
           bumpId (withUsers app (users app ++ [user])))
        else send 500 (Msg "Server error") app
    end.

(** [POST /login].  Modelled from the spec: [user.comparePassword] is the
    credential check of the missing [models/User.js], taken to be
    [bcrypt.compare] against the stored hash as in [server.js], so that a
    password that is not a string ends in the handler's [catch]. *)
Definition login (uname : string) (pass : JsValue) : Handler :=
  fun app =>
    match findOneByUsername uname app with
    | None => send 400 (Msg "Invalid credentials") app
    | Some user =>
        if negb (isActive user)
        then send 403
               (Msg "Account has been deactivated. Contact support.") app
        else
          match asString pass with
          | None => send 500 (Msg "Server error") app
          | Some p =>
              if negb (bcryptCompare p (password user))
              then send 400 (Msg "Invalid credentials") app
              else
                let token := jwtSign {| userId := _id user;
                                        jwt_username := None;
                                        jwt_isAdmin := Some (isAdmin user) |}
                               "24h" in
                send 200 (AuthOk token (summary user)) app
          end
    end.

(** [GET /me]: past the account check the handler first runs
    [router.patch('/change-password', ...)], then answers. *)
Definition getMe (reqUserId : ObjectId) : Handler :=
  fun app =>
    match findById reqUserId app with
    | None => send 403 (Msg "Account deactivated") app
    | Some user =>
        if negb (isActive user)
        then send 403 (Msg "Account deactivated") app
        else send 200 (MeOk (summary user) (createdAt user))
               (mountChangePassword app)
    end.

Definition setPassword (h : string) (u : User) : User :=
  {| _id := _id u; username := username u; email := email u;
     password := h; isAdmin := isAdmin u; hasPaid := hasPaid u;
     vipStartDate := vipStartDate u; vipExpiryDate := vipExpiryDate u;
     transactionId := transactionId u; isActive := isActive u;
     isBlocked := isBlocked u;
     needsPasswordChange := needsPasswordChange u;
     createdAt := createdAt u |}.

(** The handler given to [router.patch('/change-password', auth, ...)]. *)
Definition changePasswordHandler (reqUserId : ObjectId)
    (currentPassword newPassword : option string) : Handler :=
  fun app =>
    match currentPassword, newPassword with
    | Some cur, Some new =>
        if negb (truthy currentPassword) || negb (truthy newPassword)
        then send 400
               (Msg "Current password and new password are required") app
        else if String.length new <? 6
        then send 400
               (Msg "New password must be at least 6 characters") app
        else match findById reqUserId app with
             | None => send 404 (Msg "User not found") app
             | Some user =>
                 if negb (bcryptCompare cur (password user))
                 then send 400 (Msg "Current password is incorrect") app
                 else send 200 (Msg "Password changed successfully")
                        (updateUser (_id user)
                           (setPassword (bcryptHash new)) app)
             end
    | _, _ =>
        send 400
          (Msg "Current password and new password are required") app
    end.

(** [PATCH /change-password] as the router serves it. *)
Definition changePassword (reqUserId : ObjectId)
    (currentPassword newPassword : option string) : Handler :=
  fun app =>
    if changePasswordMounted app
    then changePasswordHandler reqUserId currentPassword newPassword app
    else send 404 CannotRoute app.

(** [GET /all] of [routes/games]: behind [auth] alone. *)
Definition getAllGames (reqUserId : ObjectId) : Handler :=
  fun app => send 200 (Games (sortDesc matchTime (games app))) app.

(** [POST /] of [routes/games].  A name that is truthy and not a string
    has no [trim], and the [TypeError] ends in the handler's [catch] with
    500.  The document built from a body that passes the checks has no
    [postedBy], which the schema requires, so [save()] rejects it and the
    [catch] answers 400. *)
Definition createGame (reqUserId : ObjectId) (body : GameBody) : Handler :=
  isAdminMw reqUserId (fun app =>
    let required :=
      MsgRequired "All fields are required"
        ["homeTeam"; "awayTeam"; "prediction"; "odds"; "category";
         "matchTime"] in
    let notAFunction callee :=
      send 500 (MsgError "Server error" (NotAFunction callee)) app in
    match b_odds body, b_category body, b_matchTime body with
    | Some o, Some c, Some t =>
        if negb (jsTruthy (b_homeTeam body))
           || negb (jsTruthy (b_awayTeam body))
           || negb (jsTruthy (b_prediction body))
           || Qeq_bool o 0
           || negb (truthy (Some c))
        then send 400 required app
        else if Qle_bool o 1
        then send 400 (Msg "Odds must be greater than 1.0") app
        else if negb (includes validCategories c)
        then send 400 (MsgCategories "Invalid category" validCategories)
               app
        else
          match asString (b_homeTeam body) with
          | None => notAFunction "homeTeam.trim"
          | Some h =>
              match asString (b_awayTeam body) with
              | None => notAFunction "awayTeam.trim"
              | Some a =>
                  match asString (b_prediction body) with
                  | None => notAFunction "prediction.trim"
                  | Some p =>
                      send 400
                        (MsgErrors "Validation error"
                           {| d_homeTeam := trim h; d_awayTeam := trim a;
                              d_prediction := trim p; d_odds := o;
                              d_category := c; d_matchTime := t |}) app
                  end
              end
          end
    | _, _, _ => send 400 required app
    end).

Definition setResult (r : string) (g : Game) : Game :=
  {| game_id := game_id g; homeTeam := homeTeam g;
     awayTeam := awayTeam g; prediction := prediction g; odds := odds g;
     category := category g; matchTime := matchTime g;
     result := Some r; postedBy := postedBy g;
     game_createdAt := game_createdAt g |}.

(** [PATCH /:id/result] of [routes/games]. *)
Definition updateResult (reqUserId id : ObjectId)
    (bresult : option string) : Handler :=
  isAdminMw reqUserId (fun app =>
    match bresult with
    | Some r =>
        if negb (includes ["win"; "loss"] r)
        then send 400 (Msg invalidResult) app
        else
          let app' :=
            withGames app
              (updateFirst (fun g => game_id g =? id) (setResult r)
                 (games app)) in
          match find (fun g => game_id g =? id) (games app') with
          | None => send 404 (Msg "Game not found") app'
          | Some game =>
              send 200 (MsgGame ("Game result updated to " ++ r) game)
                app'
          end
    | None =>
        send 400 (Msg invalidResult) app
    end).

(** [DELETE /:id] of [routes/games]. *)
Definition deleteGame (reqUserId id : ObjectId) : Handler :=
  isAdminMw reqUserId (fun app =>
    match find (fun g => game_id g =? id) (games app) with
    | None => send 404 (Msg "Game not found") app
    | Some game =>
        send 200 (DeletedGame "Game deleted successfully" (game_id game)
                    (homeTeam game ++ " vs " ++ awayTeam game)
                    (category game))
          (withGames app
             (removeFirst (fun g => game_id g =? id) (games app)))
    end).

Definition categoryStats (l : list Game) (c : string) : CategoryStats :=
  let here := filter (fun g => (category g =? c)%string) l in
  {| cs_category := c; cs_count := List.length here;
     cs_won := count (resultIs "win") here;
     cs_lost := count (resultIs "loss") here |}.

(** [GET /stats/summary] of [routes/games]; the groups of the
    aggregation are listed in order of first appearance. *)
Definition statsSummary (reqUserId : ObjectId) : Handler :=
  isAdminMw reqUserId (fun app =>
    let totalGames := List.length (games app) in
    let completedGames := count hasResult (games app) in
    let wonGames := count (resultIs "win") (games app) in
    let lostGames := count (resultIs "loss") (games app) in
    send 200
      (GameStats totalGames completedGames (totalGames - completedGames)
         wonGames lostGames (percentage wonGames completedGames)
         (map (categoryStats (games app))
            (nodup string_dec (map category (games app))))) app).

(** [GET /users] of [routes/admin]. *)
Definition getUsers (reqUserId : ObjectId) : Handler :=
  isAdminMw reqUserId (fun app =>
    send 200 (Users (map selectNoPassword
                       (sortDesc createdAt (users app)))) app).

(** The [updateData] of [PATCH /users/:userId/vip]; the three clock
    reads of one request are taken as one instant [now]. *)
(** The flag that [{ hasPaid }] leaves in the account, [hasPaid] being a
    [Boolean] path of the schema: the cast of the value sent; a key that
    is not sent is dropped from the update and the flag stays; [null] is
    stored as it is and reads as [false] wherever the flag is read. *)
Definition writtenFlag (v : JsValue) (old : bool) : bool :=
  match v with
  | JUndefined => old
  | _ => match castBoolean v with
         | Some (Some b) => b
         | Some None => false
         | None => old
         end
  end.

(** [updateData] of the VIP route: the dates follow the truthiness of
    [req.body.hasPaid], the flag is what Mongoose casts that value to. *)
Definition applyVip (v : JsValue) (now : Date) (u : User) : User :=
  {| _id := _id u; username := username u; email := email u;
     password := password u; isAdmin := isAdmin u;
     hasPaid := writtenFlag v (hasPaid u);
     vipStartDate := if jsTruthy v then Some now else None;
     vipExpiryDate :=
       if jsTruthy v then Some (now + 30 * 24 * 60 * 60 * 1000)%Z
       else None;
     transactionId :=
       if jsTruthy v then Some ("ADMIN_GRANTED_" ++ toString now)
       else None;
     isActive := isActive u; isBlocked := isBlocked u;
     needsPasswordChange := needsPasswordChange u;
     createdAt := createdAt u |}.

(** [PATCH /users/:userId/vip] of [routes/admin].  A value that has no
    cast to a boolean makes [findByIdAndUpdate] reject, which the
    handler's [catch] answers with 500. *)
Definition patchVip (reqUserId target : ObjectId) (bhasPaid : JsValue)
    (now : Date) : Handler :=
  isAdminMw reqUserId (fun app =>
    match castBoolean bhasPaid with
    | None => send 500 (MsgError "Server error" (CastError "hasPaid")) app
    | Some _ =>
        let app' := updateUser target (applyVip bhasPaid now) app in
        match findById target app' with
        | None => send 404 (Msg "User not found") app'
        | Some updatedUser =>
            send 200 (MsgUser
                        ("VIP status " ++ (if jsTruthy bhasPaid
                                           then "granted" else "removed")
                                       ++ " successfully")
                        (selectNoPassword updatedUser)) app'
        end
    end).

(** [GET /stats] of [routes/admin]. *)
Definition getStats (reqUserId : ObjectId) : Handler :=
  isAdminMw reqUserId (fun app =>
    let totalUsers := List.length (users app) in
    let vipUsers := count hasPaid (users app) in
    send 200 (Stats totalUsers vipUsers (totalUsers - vipUsers)
                (percentage vipUsers totalUsers)) app).

(** [GET /posts] of [routes/community]. *)
Definition getPosts (reqUserId : ObjectId) : Handler :=
  fun app =>
    send 200 (Posts (map (populatePost app)
                       (firstn 20 (sortDesc post_createdAt (posts app)))))
      app.

(** [POST /posts] of [routes/community]; a [content] over the schema's
    [maxlength] fails in [save()]. *)
Definition createPost (reqUserId : ObjectId) (bcontent : option string)
    (now : Date) : Handler :=
  fun app =>
    match bcontent with
    | Some c =>
        if negb (truthy bcontent) || (String.length (trim c) =? 0)
        then send 400 (Msg "Content is required") app
        else if 500 <? String.length (trim c)
        then send 500 (Msg "Error creating post") app
        else
          let post := {| post_id := nextId app; content := trim c;
                         author := reqUserId; replies := [];
                         post_createdAt := now |} in
          let app' := bumpId (withPosts app (posts app ++ [post])) in
          (respond 201 (MsgPost "Post created successfully"
                          (populatePost app' post)), app')
    | None => send 400 (Msg "Content is required") app
    end.

Definition pushReply (r : Reply) (p : Post) : Post :=
  {| post_id := post_id p; content := content p; author := author p;
     replies := replies p ++ [r]; post_createdAt := post_createdAt p |}.

(** [POST /posts/:postId/reply] of [routes/community]. *)
Definition addReply (reqUserId postId : ObjectId)
    (bcontent : option string) (now : Date) : Handler :=
  fun app =>
    match bcontent with
    | Some c =>
        if negb (truthy bcontent) || (String.length (trim c) =? 0)
        then send 400 (Msg "Reply content is required") app
        else
          match find (fun p => post_id p =? postId) (posts app) with
          | None => send 404 (Msg "Post not found") app
          | Some post =>
              if 300 <? String.length (trim c)
              then send 500 (Msg "Error adding reply") app
              else
                let post' :=
                  pushReply {| reply_content := trim c;
                               reply_author := reqUserId;
                               reply_createdAt := now |} post in
                let app' :=
                  withPosts app
                    (updateFirst (fun p => post_id p =? postId)
                       (fun _ => post') (posts app)) in
                (respond 201 (MsgPost "Reply added successfully"
                                (populatePost app' post')), app')
          end
    | None => send 400 (Msg "Reply content is required") app
    end.

(** [DELETE /posts/:postId] of [routes/community]: the admin check is
    written in the handler, and reading [isAdmin] of a missing account
    throws into the [catch]. *)
Definition deletePost (reqUserId postId : ObjectId) : Handler :=
  fun app =>
    match findById reqUserId app with
    | None => send 500 (Msg "Error deleting post") app
    | Some user =>
        if negb (isAdmin user)
        then send 403 (Msg "Access denied. Admin only.") app
        else
          match find (fun p => post_id p =? postId) (posts app) with
          | None => send 404 (Msg "Post not found") app
          | Some _ =>
              send 200 (Msg "Post deleted successfully")
                (withPosts app
                   (removeFirst (fun p => post_id p =? postId)
                      (posts app)))
          end
    end.

(** The mounted routers. *)
Definition handle (now : Date) (req : Request) : Handler :=
  match req with
  | Register u m p => register u m p now
  | Login u p => login u p
  | GetMe a => getMe a
  | ChangePassword a c n => changePassword a c n
  | GetAllGames a => getAllGames a
  | CreateGame a b => createGame a b
  | UpdateResult a i r => updateResult a i r
  | DeleteGame a i => deleteGame a i
  | StatsSummary a => statsSummary a
  | GetUsers a => getUsers a
  | PatchVip a t b => patchVip a t b now
  | GetStats a => getStats a
  | GetPosts a => getPosts a
  | CreatePost a c => createPost a c now
  | AddReply a i c => addReply a i c now
  | DeletePost a i => deletePost a i
  end.

Fixpoint run (reqs : list (Date * Request)) (app : App) : App :=
  match reqs with
  | [] => app
  | (now, req) :: rest => run rest (snd (handle now req app))
  end.

(** [createDefaultAdmin] of the entry file, called once the database
    connection opens. *)
Definition createDefaultAdmin (now : Date) (app : App) : App :=
  match findOneByUsername "admin" app with
  | None =>
      let admin := newUser (nextId app) "admin" "admin@betatips.com.ng"
                     "admin123" true true now in
      bumpId (withUsers app (users app ++ [admin]))
  | Some _ => app
  end.

(** [createAdmin] of [createAdmin.js], a script run by hand: an
    existing [admin] is deleted and a new one is written. *)
Definition createAdmin (now : Date) (app : App) : App :=
  let app1 :=
    match findOneByUsername "admin" app with
    | Some _ =>
        withUsers app
          (removeFirst (fun u => (username u =? "admin")%string)
             (users app))
    | None => app
    end in
  let admin := newUser (nextId app1) "admin" "admin@example.com"
                 "admin123" true true now in
  bumpId (withUsers app1 (users app1 ++ [admin])).
End Handlers.

(** The routes behind [isAdmin], and the community delete with its own
    admin check. *)
Definition adminOnly (req : Request) : bool :=
  match req with
  | CreateGame _ _ | UpdateResult _ _ _ | DeleteGame _ _ | StatsSummary _
  | GetUsers _ | PatchVip _ _ _ | GetStats _ | DeletePost _ _ => true
  | _ => false
  end.

Definition actorOf (req : Request) : option ObjectId :=
  match req with
  | Register _ _ _ | Login _ _ => None
  | GetMe a | ChangePassword a _ _ | GetAllGames a | CreateGame a _
  | UpdateResult a _ _ | DeleteGame a _ | StatsSummary a | GetUsers a
  | PatchVip a _ _ | GetStats a | GetPosts a | CreatePost a _
  | AddReply a _ _ | DeletePost a _ => Some a
  end.

End Routes.

(** ** A concrete [Crypto] and sample states for closed examples

    Hashing puts a fixed prefix before the password; a token for account
    [n] is the letter [t] followed by [n] letters [x]. *)

Fixpoint replicate (n : nat) (c : ascii) : string :=
  match n with
  | O => EmptyString
  | S k => String c (replicate k c)
  end.

Definition sampleHash (p : string) : string := "$2a$12$" ++ p.

Definition sampleVerify (t : string) : option JwtPayload :=
  match t with
  | EmptyString => None
  | String _ r => Some {| userId := String.length r; jwt_username := None;
                          jwt_isAdmin := None |}
  end.

Definition sampleCrypto : Crypto :=
  {| bcryptHash := sampleHash;
     bcryptCompare := fun p h => (sampleHash p =? h)%string;
     jwtSign := fun p _ => String "t"%char (replicate (userId p) "x"%char);
     jwtVerify := sampleVerify |}.

Definition header (n : ObjectId) : option string :=
  Some ("Bearer " ++ jwtSign (Crypto := sampleCrypto)
                       {| userId := n; jwt_username := None;
                          jwt_isAdmin := None |} "7d").

Definition serverUser (id : ObjectId) (name pass : string)
    (paid admin blocked : bool) : Server.User :=
  {| Server._id := id; Server.username := name;
     Server.email := name ++ "@x.com";
     Server.password := sampleHash pass; Server.hasPaid := paid;
     Server.isAdmin := admin; Server.isBlocked := blocked;
     Server.needsPasswordChange := false; Server.paymentDate := None;
     Server.createdAt := 0%Z |}.

Definition serverGame (id : ObjectId) (vip : bool) (at_ : Date)
    : Server.Game :=
  {| Server.game_id := id; Server.homeTeam := "Home";
     Server.awayTeam := "Away"; Server.league := "League";
     Server.prediction := "1"; Server.odds := "1.5";
     Server.gameTime := at_; Server.status := "pending";
     Server.isVip := vip; Server.game_createdAt := at_ |}.

Definition serverStore (us : list Server.User) (gs : list Server.Game)
    : Server.Store :=
  {| Server.users := us; Server.games := gs; Server.posts := [];
     Server.nextId := 100 |}.

Definition routesUser (id : ObjectId) (name pass : string)
    (admin active : bool) : Routes.User :=
  {| Routes._id := id; Routes.username := name;
     Routes.email := name ++ "@x.com";
     Routes.password := sampleHash pass; Routes.isAdmin := admin;
     Routes.hasPaid := false; Routes.vipStartDate := None;
     Routes.vipExpiryDate := None; Routes.transactionId := None;
     Routes.isActive := active; Routes.isBlocked := false;
     Routes.needsPasswordChange := false; Routes.createdAt := 0%Z |}.

Definition routesGame (id : ObjectId) (cat : string) (at_ : Date)
    : Routes.Game :=
  {| Routes.game_id := id; Routes.homeTeam := "Home";
     Routes.awayTeam := "Away"; Routes.prediction := "1";
     Routes.odds := 3 # 2; Routes.category := cat; Routes.matchTime := at_;
     Routes.result := None; Routes.postedBy := 0;
     Routes.game_createdAt := at_ |}.

Definition routesApp (us : list Routes.User) (gs : list Routes.Game)
    : Routes.App :=
  {| Routes.users := us; Routes.games := gs; Routes.posts := [];
     Routes.nextId := 100; Routes.changePasswordMounted := false |}.


Definition bob : Server.User :=
  serverUser 1 "bob" "oldpass1" false false false.

Definition carol : Routes.User := routesUser 2 "carol" "secret12" false true.

Definition vipTip : Routes.Game := routesGame 11 "VIP Tips" 20%Z.

Definition freeTip : Routes.Game := routesGame 10 "All Tips" 10%Z.

(** Every account of the modular application satisfies the invariant. *)
Definition accountsOk (app : Routes.App) : Prop :=
  Forall (fun u => vipInvariant (Routes.vipState u)) (Routes.users app).

(** Between two states of the modular application: each account of the
    later one satisfies the invariant or is, under the same id, an account
    of the earlier one with the VIP fields it had there. *)
Definition settled (before after : Routes.App) : Prop :=
  forall u', In u' (Routes.users after) ->
    vipInvariant (Routes.vipState u')
    \/ exists u, In u (Routes.users before)
                 /\ Routes._id u = Routes._id u'
                 /\ Routes.vipState u' = Routes.vipState u.

(** A request whose [hasPaid], when it is one to the VIP route, is a JSON
    boolean. *)
Definition isBoolean (v : JsValue) : bool :=
  match v with
  | JBool _ => true
  | _ => false
  end.

Definition booleanVip (req : Routes.Request) : bool :=
  match req with
  | Routes.PatchVip _ _ v => isBoolean v
  | _ => true
  end.

Definition booleanVips (reqs : list (Date * Routes.Request)) : bool :=
  forallb (fun r => booleanVip (snd r)) reqs.



Definition emptyStore : Server.Store :=
  {| Server.users := []; Server.games := []; Server.posts := [];
     Server.nextId := 0 |}.

(** [server.js]: [alice] registers, then calls the payment route. *)
Definition aliceRegistered : Server.Store :=
  snd (Server.register (crypto := sampleCrypto) "alice" "a@x.com" "pw1" 0%Z
         emptyStore).

Definition alicePaid : Server.Store :=
  snd (Server.payment (crypto := sampleCrypto) (header 0) 5%Z
         aliceRegistered).

Definition root : Server.User :=
  serverUser 0 "root" "rootpass" false true false.

Definition blockedBob : Server.User :=
  serverUser 1 "bob" "oldpass1" false false true.

Definition blockedStore : Server.Store :=
  serverStore [root; blockedBob]
    [serverGame 7 false 10%Z; serverGame 8 true 20%Z].

Definition chief : Routes.User := routesUser 1 "chief" "chiefpass" true true.

Definition dave : Routes.User := routesUser 3 "dave" "davepass" false false.

Definition sampleApp : Routes.App :=
  routesApp [chief; carol; dave] [freeTip; vipTip].

Definition noFields : Server.GameBody :=
  {| Server.b_homeTeam := None; Server.b_awayTeam := None;
     Server.b_league := None; Server.b_prediction := None;
     Server.b_odds := None; Server.b_gameTime := None;
     Server.b_status := None; Server.b_isVip := None |}.

Definition tokenOf (n : ObjectId) : JwtPayload :=
  {| userId := n; jwt_username := None; jwt_isAdmin := None |}.

(** ** The date routes of [routes/games] and further vocabulary *)

Section Ascending.
Variable A : Type.

(** [.sort({ key: 1 })]: smallest key first, ties in collection order. *)
Fixpoint insertAsc (key : A -> Z) (x : A) (l : list A) : list A :=
  match l with
  | [] => [x]
  | y :: r => if (key x <? key y)%Z then x :: y :: r
              else y :: insertAsc key x r
  end.

Definition sortAsc (key : A -> Z) (l : list A) : list A :=
  fold_right (insertAsc key) [] l.
End Ascending.

(** [GET /date/:date] of [routes/games], for a [date] that parses:
    [startDate] and [endDate] are the first and the last millisecond of
    that day in the server's time zone. *)
Definition getGamesByDate (reqUserId : ObjectId) (startDate endDate : Date)
    : Routes.Handler :=
  fun app =>
    Routes.send 200
      (Routes.Games
         (sortAsc Routes.matchTime
            (filter (fun g => (startDate <=? Routes.matchTime g)%Z
                              && (Routes.matchTime g <=? endDate)%Z)
               (Routes.games app)))) app.

(** [GET /today] of [routes/games]: [today] is the server's local midnight
    and [tomorrow] the same instant one calendar day later. *)
Definition getTodayGames (reqUserId : ObjectId) (today tomorrow : Date)
    : Routes.Handler :=
  fun app =>
    Routes.send 200
      (Routes.Games
         (sortAsc Routes.matchTime
            (filter (fun g => (today <=? Routes.matchTime g)%Z
                              && (Routes.matchTime g <? tomorrow)%Z)
               (Routes.games app)))) app.

(** The order of a list sorted on [key]: largest first, smallest first. *)
Definition descending (A : Type) (key : A -> Z) (x y : A) : Prop :=
  (key y <= key x)%Z.

Definition ascending (A : Type) (key : A -> Z) (x y : A) : Prop :=
  (key x <= key y)%Z.

(** Between two states of the modular application: each admin of the later
    one was an admin, with the same id, in the earlier one. *)
Definition adminsKept (before after : Routes.App) : Prop :=
  forall u', In u' (Routes.users after) -> Routes.isAdmin u' = true ->
    exists u, In u (Routes.users before) /\ Routes.isAdmin u = true
              /\ Routes._id u = Routes._id u'.

(** Further sample states. *)
Definition openStore : Server.Store :=
  serverStore [root; bob]
    [serverGame 7 false 10%Z; serverGame 8 true 20%Z].

Definition bobsPost : Server.Post :=
  {| Server.post_id := 50; Server.title := "Tip";
     Server.content := "Home win"; Server.author := 1;
     Server.post_createdAt := 30%Z; Server.likes := [];
     Server.comments := [] |}.

Definition postStore : Server.Store :=
  {| Server.users := [root; bob]; Server.games := [];
     Server.posts := [bobsPost]; Server.nextId := 100 |}.

(** Two bodies for [POST /] of [routes/games]: one with its three names
    as strings, one with a number for [homeTeam]. *)
Definition stringNames : Routes.GameBody :=
  {| Routes.b_homeTeam := JStr "Home"; Routes.b_awayTeam := JStr "Away";
     Routes.b_prediction := JStr "1"; Routes.b_odds := Some (3 # 2);
     Routes.b_category := Some "All Tips";
     Routes.b_matchTime := Some 50%Z |}.

Definition numberName : Routes.GameBody :=
  {| Routes.b_homeTeam := JNum 7; Routes.b_awayTeam := JStr "Away";
     Routes.b_prediction := JStr "1"; Routes.b_odds := Some (3 # 2);
     Routes.b_category := Some "All Tips";
     Routes.b_matchTime := Some 50%Z |}.

Definition tipBody : Server.GameBody :=
  {| Server.b_homeTeam := Some "Home"; Server.b_awayTeam := Some "Away";
     Server.b_league := Some "League"; Server.b_prediction := Some "1";
     Server.b_odds := Some "1.5"; Server.b_gameTime := Some 40%Z;
     Server.b_status := None; Server.b_isVip := None |}.


(** The request is a [GET /me]. *)
Definition isGetMe (req : Routes.Request) : bool :=
  match req with
  | Routes.GetMe _ => true
  | _ => false
  end.

(** A string without the space character. *)
Fixpoint noSpace (s : string) : bool :=
  match s with
  | EmptyString => true
  | String c r => negb (Ascii.eqb c " "%char) && noSpace r
  end.

(** A sequence of requests to [server.js], each with the clock reading and
    the random draw of its moment. *)
Fixpoint serverRun {crypto : Crypto} (reqs : list (Date * Q * Server.Request))
    (st : Server.Store) : Server.Store :=
  match reqs with
  | [] => st
  | (now, random, req) :: rest =>
      serverRun rest (snd (Server.handle now random req st))
  end.

(** The [result] of a game is absent, [win] or [loss]. *)
Definition resultValid (g : Routes.Game) : bool :=
  match Routes.result g with
  | None => true
  | Some r => Routes.includes ["win"; "loss"] r
  end.

(** An update of a [server.js] account that keeps who the account is. *)
Definition keepsIdentity (f : Server.User -> Server.User) : Prop :=
  forall u, Server._id (f u) = Server._id u
            /\ Server.username (f u) = Server.username u
            /\ Server.email (f u) = Server.email u
            /\ Server.isAdmin (f u) = Server.isAdmin u.

(** What one request can do to the user collection of [server.js]: nothing,
    one update in place that keeps identities, or one new non-admin account
    whose username and email were both free. *)
Definition usersStep (before after : list Server.User) : Prop :=
  after = before
  \/ (exists id f, keepsIdentity f
                   /\ after = updateFirst (fun u => Server._id u =? id) f
                                before)
  \/ (exists user,
         after = (before ++ [user])%list
         /\ Server.isAdmin user = false
         /\ find
              (fun u => (Server.email u =? Server.email user)%string
                        || (Server.username u =? Server.username user)%string)
              before = None).

(** ** The string helpers on small inputs *)

Example bearerToken_present : bearerToken (Some "Bearer abc") = Some "abc".
Proof. reflexivity. Qed.

Example bearerToken_no_space : bearerToken (Some "abc") = None.
Proof. reflexivity. Qed.

Example bearerToken_empty : bearerToken (Some "Bearer ") = None.
Proof. reflexivity. Qed.

Example toString_550000 : toString 550000 = "550000".
Proof. reflexivity. Qed.

Example toString_0 : toString 0 = "0".
Proof. reflexivity. Qed.

Example tempCode_lowest : tempCode 0 = 100000%Z.
Proof. reflexivity. Qed.

Example tempCode_highest : tempCode (999999 # 1000000) = 999999%Z.
Proof. reflexivity. Qed.

Example trim_spaces : trim "  a b " = "a b".
Proof. reflexivity. Qed.

Example header_1 : header 1 = Some "Bearer tx".
Proof. reflexivity. Qed.

(** ** Facts about collections *)

Section CollectionFacts.
Variable A : Type.
Implicit Types (p q : A -> bool) (f : A -> A) (l : list A).


Lemma find_updateFirst_same p f l x :
  find p l = Some x -> p (f x) = true ->
  find p (updateFirst p f l) = Some (f x).
Proof.
  intros Hfind Hfx. induction l as [|y r IH]; simpl in *; [discriminate|].
  destruct (p y) eqn:Hy.
  - inversion Hfind; subst. simpl. rewrite Hfx. reflexivity.
  - simpl. rewrite Hy. apply IH. exact Hfind.
Qed.

Lemma find_updateFirst_none p q f l :
  (forall x, p (f x) = p x) ->
  find p l = None -> find p (updateFirst q f l) = None.
Proof.
  intros Hp. induction l as [|y r IH]; simpl; [reflexivity|].
  destruct (p y) eqn:Hy; [discriminate|]. intros Hr.
  destruct (q y); simpl.
  - rewrite Hp, Hy. exact Hr.
  - rewrite Hy. apply IH. exact Hr.
Qed.

Lemma find_updateFirst_other p q f l :
  (forall x, p (f x) = p x) ->
  (forall x, q x = true -> p x = false) ->
  find p (updateFirst q f l) = find p l.
Proof.
  intros Hp Hq. induction l as [|y r IH]; simpl; [reflexivity|].
  destruct (q y) eqn:Hy; simpl.
  - rewrite Hp, (Hq _ Hy). reflexivity.
  - rewrite IH. reflexivity.
Qed.


Lemma find_app_right p l x :
  p x = true -> find p (l ++ [x]) <> None.
Proof.
  intros Hx. induction l as [|y r IH]; simpl.
  - rewrite Hx. discriminate.
  - destruct (p y); [discriminate|exact IH].
Qed.

Lemma In_updateFirst p f l y :
  In y (updateFirst p f l) -> In y l \/ exists x, In x l /\ y = f x.
Proof.
  induction l as [|x r IH]; simpl; [tauto|].
  destruct (p x); simpl.
  - intros [<-|Hy]; [right; exists x; auto|auto].
  - intros [<-|Hy]; [auto|].
    destruct (IH Hy) as [H|[z [Hz ->]]]; [auto|right; exists z; auto].
Qed.

Lemma In_insertDesc key x l y :
  In y (insertDesc key x l) <-> y = x \/ In y l.
Proof.
  induction l as [|z r IH]; simpl.
  - split; intros [H|H]; auto.
  - destruct (key z <? key x)%Z; simpl; [split; intros [H|H]; auto|].
    rewrite IH. tauto.
Qed.

Lemma In_sortDesc key l y : In y (sortDesc key l) <-> In y l.
Proof.
  induction l as [|x r IH]; simpl; [tauto|].
  rewrite In_insertDesc, IH. split; intros [H|H]; auto.
Qed.
End CollectionFacts.

(** ** The admin gate *)

Section AdminGate.
Context {crypto : Crypto}.

Lemma server_authenticated a t tok (next : JwtPayload -> Server.Handler) st :
  bearerToken a = Some t -> jwtVerify t = Some tok ->
  Server.authenticateToken a next st = next tok st.
Proof.
  intros Ht Hv. unfold Server.authenticateToken. rewrite Ht, Hv.
  reflexivity.
Qed.

Lemma routes_gate_closed uid u next app :
  Routes.findById uid app = Some u -> Routes.isAdmin u = false ->
  Routes.isAdminMw uid next app
  = (respond 403 (Routes.Msg "Access denied. Admin only."), app).
Proof.
  intros Hu Hadm. unfold Routes.isAdminMw. rewrite Hu, Hadm. reflexivity.
Qed.

Lemma routes_gate_open uid u next app :
  Routes.findById uid app = Some u -> Routes.isAdmin u = true ->
  Routes.isAdminMw uid next app = next app.
Proof.
  intros Hu Hadm. unfold Routes.isAdminMw. rewrite Hu, Hadm. reflexivity.
Qed.

(** C4.  An authenticated actor whose account has [isAdmin = false] gets
    403 from every admin-only route of either stack, whatever the rest of
    the request holds, and the store is left as it was. *)
Theorem non_admin_forbidden :
  (forall now random req a t tok u st,
      Server.adminOnly req = true ->
      Server.authorizationOf req = Some a ->
      bearerToken a = Some t -> jwtVerify t = Some tok ->
      Server.findById (userId tok) st = Some u ->
      Server.isAdmin u = false ->
      Server.handle now random req st
      = (respond 403 (Server.Msg "Admin access required"), st))
  /\
  (forall now req uid u app,
      Routes.adminOnly req = true ->
      Routes.actorOf req = Some uid ->
      Routes.findById uid app = Some u ->
      Routes.isAdmin u = false ->
      Routes.handle now req app
      = (respond 403 (Routes.Msg "Access denied. Admin only."), app)).
Proof.
  split.
  - intros now random req a t tok u st Hadm Ha Ht Hv Hu Hna.
    destruct req; simpl in Hadm; try discriminate;
      simpl in Ha; inversion Ha; subst; simpl;
      unfold Server.createGame, Server.deleteGame, Server.updateGameResult,
        Server.adminUsers, Server.block, Server.vip,
        Server.generateTempPassword;
      rewrite server_authenticated with (t := t) (tok := tok)
        by assumption;
      rewrite Hu, Hna; reflexivity.
  - intros now req uid u app Hadm Ha Hu Hna.
    destruct req; simpl in Hadm; try discriminate;
      simpl in Ha; inversion Ha; subst; simpl;
      unfold Routes.createGame, Routes.updateResult, Routes.deleteGame,
        Routes.statsSummary, Routes.getUsers, Routes.patchVip,
        Routes.getStats, Routes.deletePost;
      first [ eapply routes_gate_closed; eassumption
            | rewrite Hu, Hna; reflexivity ].
Qed.
End AdminGate.

(** ** The block flag *)

Section BlockFlag.
Context {crypto : Crypto}.






End BlockFlag.

Section RoutesBlockFlag.
Context {crypto : Crypto}.





End RoutesBlockFlag.

Section BlockedActor.
Context {crypto : Crypto}.

End BlockedActor.

(** ** Login *)

Section Login.
Context {crypto : Crypto}.

(** C3, as the code has it.  An unknown username and a known username
    with a wrong password that is sent as a string get the same answer,
    400 [Invalid credentials], from [server.js], and from [routes/auth]
    when the known account is active.  For a deactivated account
    [routes/auth] answers 403, account deactivated, whatever the password
    sent, which is not the answer it gives an unknown username. *)
Theorem login_failures_identical :
  (forall st name1 pass1 name2 pass2 user,
      Server.findOneByUsername name1 st = None ->
      Server.findOneByUsername name2 st = Some user ->
      bcryptCompare pass2 (Server.password user) = false ->
      Server.login name1 pass1 st = Server.login name2 (JStr pass2) st
      /\ Server.login name2 (JStr pass2) st
         = (respond 400 (Server.Msg "Invalid credentials"), st))
  /\
  (forall app name1 pass1 name2 pass2 user,
      Routes.findOneByUsername name1 app = None ->
      Routes.findOneByUsername name2 app = Some user ->
      Routes.isActive user = true ->
      bcryptCompare pass2 (Routes.password user) = false ->
      Routes.login name1 pass1 app = Routes.login name2 (JStr pass2) app
      /\ Routes.login name2 (JStr pass2) app
         = (respond 400 (Routes.Msg "Invalid credentials"), app))
  /\
  (forall app name1 pass1 name2 pass2 user,
      Routes.findOneByUsername name1 app = None ->
      Routes.findOneByUsername name2 app = Some user ->
      Routes.isActive user = false ->
      Routes.login name2 pass2 app
      = (respond 403
           (Routes.Msg "Account has been deactivated. Contact support."),
         app)
      /\ Routes.login name1 pass1 app
         = (respond 400 (Routes.Msg "Invalid credentials"), app)
      /\ Routes.login name1 pass1 app <> Routes.login name2 pass2 app).
Proof.
  split; [|split].
  - intros st name1 pass1 name2 pass2 user H1 H2 Hpw.
    unfold Server.login. rewrite H1, H2. simpl. rewrite Hpw.
    split; reflexivity.
  - intros app name1 pass1 name2 pass2 user H1 H2 Hact Hpw.
    unfold Routes.login. rewrite H1, H2, Hact. simpl. rewrite Hpw.
    split; reflexivity.
  - intros app name1 pass1 name2 pass2 user H1 H2 Hact.
    unfold Routes.login. rewrite H1, H2, Hact. simpl.
    split; [reflexivity|]. split; [reflexivity|]. discriminate.
Qed.

(** A known username whose password is not sent as a string is answered
    500 by [server.js], and by [routes/auth] when the account is active;
    an unknown username is answered 400 whatever is sent. *)
Lemma login_without_string_password :
  (forall st name pass user,
      Server.findOneByUsername name st = Some user ->
      asString pass = None ->
      Server.login name pass st
      = (respond 500 (Server.Msg "Server error during login"), st))
  /\
  (forall app name pass user,
      Routes.findOneByUsername name app = Some user ->
      Routes.isActive user = true ->
      asString pass = None ->
      Routes.login name pass app
      = (respond 500 (Routes.Msg "Server error"), app)).
Proof.
  split.
  - intros st name pass user Hu Hs. unfold Server.login.
    rewrite Hu, Hs. reflexivity.
  - intros app name pass user Hu Hact Hs. unfold Routes.login.
    rewrite Hu, Hact, Hs. reflexivity.
Qed.

(** C6.  A deactivated account that logs in through [routes/auth] with
    its username and its correct password is answered 403, account
    deactivated, and not 400 [Invalid credentials]. *)
Theorem deactivated_login_forbidden :
  forall app name pass user,
    Routes.findOneByUsername name app = Some user ->
    Routes.isActive user = false ->
    bcryptCompare pass (Routes.password user) = true ->
    Routes.login name (JStr pass) app
    = (respond 403
         (Routes.Msg "Account has been deactivated. Contact support."),
       app)
    /\ fst (Routes.login name (JStr pass) app)
       <> respond 400 (Routes.Msg "Invalid credentials").
Proof.
  intros app name pass user Hu Hact _.
  unfold Routes.login. rewrite Hu, Hact. simpl. split; [reflexivity|].
  discriminate.
Qed.

(** The login of [server.js] reads no activation flag (its schema has
    none): correct credentials always log in. *)
Lemma server_login_succeeds st name pass user :
  Server.findOneByUsername name st = Some user ->
  bcryptCompare pass (Server.password user) = true ->
  statusCode (fst (Server.login name (JStr pass) st)) = 200.
Proof.
  intros Hu Hpw. unfold Server.login. rewrite Hu. simpl. rewrite Hpw.
  reflexivity.
Qed.
End Login.

(** ** Changing the password *)

Section ChangePassword.
Context {crypto : Crypto}.

(** The handler of [routes/auth] turns down a new password shorter than
    six characters with 400 and writes nothing. *)
Lemma routes_short_password_rejected uid cur new app :
  String.length new < 6 ->
  statusCode (fst (Routes.changePasswordHandler uid cur (Some new) app))
  = 400
  /\ snd (Routes.changePasswordHandler uid cur (Some new) app) = app.
Proof.
  intros Hlen. unfold Routes.changePasswordHandler.
  destruct cur as [c|]; [|split; reflexivity].
  destruct (negb (truthy (Some c)) || negb (truthy (Some new)));
    [split; reflexivity|].
  apply Nat.ltb_lt in Hlen. rewrite Hlen. split; reflexivity.
Qed.

(** Until [GET /me] has succeeded once, the router has no
    [PATCH /change-password] layer and the request is not handled. *)
Lemma routes_change_password_unmounted uid cur new app :
  Routes.changePasswordMounted app = false ->
  Routes.changePassword uid cur new app
  = (respond 404 Routes.CannotRoute, app).
Proof.
  intros Hm. unfold Routes.changePassword. rewrite Hm. reflexivity.
Qed.

End ChangePassword.

(** C5 at a failing input.  [PATCH /api/auth/change-password] of
    [server.js], called by [bob] with his current password and the
    five-character new password [abcde], answers 200 and replaces the stored
    hash; the old password no longer logs in. *)
Theorem server_accepts_short_password :
  Server.changePassword (crypto := sampleCrypto) (header 1) "oldpass1" "abcde"
    (serverStore [bob] [])
  = (respond 200 (Server.Msg "Password changed successfully"),
     serverStore [serverUser 1 "bob" "abcde" false false false] [])
  /\ Server.login (crypto := sampleCrypto) "bob" (JStr "oldpass1")
       (serverStore [serverUser 1 "bob" "abcde" false false false] [])
     = (respond 400 (Server.Msg "Invalid credentials"),
        serverStore [serverUser 1 "bob" "abcde" false false false] []).
Proof. split; reflexivity. Qed.

(** ** Viewing games *)

Section ViewGames.
Context {crypto : Crypto}.

(** [GET /api/games] of [server.js]: always 200; every game for a paying
    or admin actor, exactly the games with [isVip = false] for the
    others. *)
Lemma server_games_by_vip a t tok u st :
  bearerToken a = Some t -> jwtVerify t = Some tok ->
  Server.findById (userId tok) st = Some u ->
  exists shown,
    Server.getGames a st = (respond 200 (Server.Games shown), st)
    /\ (Server.isAdmin u || Server.hasPaid u = true ->
        forall g, In g shown <-> In g (Server.games st))
    /\ (Server.isAdmin u || Server.hasPaid u = false ->
        forall g, In g shown
                  <-> In g (Server.games st) /\ Server.isVip g = false).
Proof.
  intros Ht Hv Hu. unfold Server.getGames.
  rewrite server_authenticated with (t := t) (tok := tok) by assumption.
  rewrite Hu. eexists. split; [reflexivity|].
  rewrite (orb_comm (Server.isAdmin u)).
  split; intros Hflag g; rewrite Hflag, In_sortDesc; [tauto|].
  rewrite filter_In. destruct (Server.isVip g); simpl; intuition congruence.
Qed.
End ViewGames.

(** C7 at a failing input.  [carol] is neither admin nor paying; [GET /all]
    of [routes/games] hands her every game, the [VIP Tips] one included. *)
Theorem all_games_route_unfiltered :
  Routes.isAdmin carol || Routes.hasPaid carol = false
  /\ Routes.getAllGames 2 (routesApp [carol] [freeTip; vipTip])
     = (respond 200 (Routes.Games [vipTip; freeTip]),
        routesApp [carol] [freeTip; vipTip]).
Proof. split; reflexivity. Qed.

(** ** The default admin *)

Section Bootstrap.
Context {crypto : Crypto}.

(** C9.  [createDefaultAdmin] adds exactly one account when none is named
    [admin] (an active, paying admin whose credential is the hash of the
    fixed password), changes nothing when one exists, and so does nothing
    when run again. *)
Theorem default_admin_reconciled :
  forall now app,
    (Routes.findOneByUsername "admin" app = None ->
     exists admin,
       Routes.users (Routes.createDefaultAdmin now app)
       = (Routes.users app ++ [admin])%list
       /\ Routes.username admin = "admin"
       /\ Routes.isAdmin admin = true
       /\ Routes.hasPaid admin = true
       /\ Routes.isActive admin = true
       /\ Routes.password admin = bcryptHash "admin123")
    /\ (forall existing,
           Routes.findOneByUsername "admin" app = Some existing ->
           Routes.createDefaultAdmin now app = app)
    /\ (forall later,
           Routes.createDefaultAdmin later
             (Routes.createDefaultAdmin now app)
           = Routes.createDefaultAdmin now app).
Proof.
  intros now app. unfold Routes.createDefaultAdmin.
  destruct (Routes.findOneByUsername "admin" app) as [u|] eqn:Hfind.
  - split; [discriminate|]. split; [reflexivity|].
    intros later. rewrite Hfind. reflexivity.
  - split.
    + intros _. eexists. split; [reflexivity|]. simpl. tauto.
    + split; [discriminate|]. intros later.
      destruct (Routes.findOneByUsername "admin" (Routes.bumpId _))
        as [u|] eqn:Hagain; [reflexivity|].
      exfalso. revert Hagain. unfold Routes.findOneByUsername. simpl.
      apply find_app_right. reflexivity.
Qed.

(** The hand-run script of [createAdmin.js] is a reset, not a
    reconciliation: an existing [admin] is replaced. *)
Lemma create_admin_script_replaces now app :
  exists admin,
    Routes.users (Routes.createAdmin now app)
    = ((match Routes.findOneByUsername "admin" app with
        | Some _ =>
            removeFirst (fun u => (Routes.username u =? "admin")%string)
              (Routes.users app)
        | None => Routes.users app
        end) ++ [admin])%list
    /\ Routes.email admin = "admin@example.com".
Proof.
  unfold Routes.createAdmin.
  destruct (Routes.findOneByUsername "admin" app);
    eexists; split; reflexivity.
Qed.
End Bootstrap.

(** ** The payment route *)

Section Payment.
Context {crypto : Crypto}.

Lemma server_find_id id st u :
  Server.findById id st = Some u -> Server._id u = id.
Proof.
  unfold Server.findById. intros H. apply find_some in H.
  destruct H as [_ H]. apply Nat.eqb_eq in H. exact H.
Qed.

Lemma server_update_found id f st u :
  (forall x, Server._id (f x) = Server._id x) ->
  Server.findById id st = Some u ->
  Server.findById id (Server.updateUser id f st) = Some (f u).
Proof.
  intros Hf Hu. unfold Server.findById, Server.updateUser. simpl.
  apply find_updateFirst_same; [exact Hu|].
  rewrite Hf. apply server_find_id in Hu. apply Nat.eqb_eq. exact Hu.
Qed.

Lemma server_update_others id other f st :
  (forall x, Server._id (f x) = Server._id x) ->
  other <> id ->
  Server.findById other (Server.updateUser id f st)
  = Server.findById other st.
Proof.
  intros Hf Hne. unfold Server.findById, Server.updateUser. simpl.
  apply find_updateFirst_other.
  - intros x. rewrite Hf. reflexivity.
  - intros x Hx. apply Nat.eqb_eq in Hx. apply Nat.eqb_neq. congruence.
Qed.

(** C10.  Any caller with a valid token and an account, admin or not,
    gets 200 from [PATCH /api/user/payment]; the route looks at nothing in
    the request but the token, sets the caller's own [hasPaid] and
    [paymentDate], sets no VIP date, touches no other account, and from
    then on [GET /api/games] shows the caller every game. *)
Theorem payment_self_service :
  forall a t tok u now st,
    bearerToken a = Some t -> jwtVerify t = Some tok ->
    Server.findById (userId tok) st = Some u ->
    exists st' u',
      Server.payment a now st
      = (respond 200 (Server.Msg "Payment status updated successfully"),
         st')
      /\ Server.findById (userId tok) st' = Some u'
      /\ Server.hasPaid u' = true
      /\ Server.paymentDate u' = Some now
      /\ Server.isAdmin u' = Server.isAdmin u
      /\ vs_vipExpiryDate (Server.vipState u') = None
      /\ (forall other, other <> userId tok ->
            Server.findById other st' = Server.findById other st)
      /\ Server.getGames a st'
         = (respond 200
              (Server.Games
                 (sortDesc Server.game_createdAt (Server.games st))), st').
Proof.
  intros a t tok u now st Ht Hv Hu.
  pose proof (server_find_id _ _ Hu) as Hid.
  exists (Server.updateUser (userId tok) (Server.markPaid now) st),
    (Server.markPaid now u).
  assert (Hfound :
            Server.findById (userId tok)
              (Server.updateUser (userId tok) (Server.markPaid now) st)
            = Some (Server.markPaid now u))
    by (apply server_update_found; [reflexivity|exact Hu]).
  split.
  { unfold Server.payment.
    rewrite server_authenticated with (t := t) (tok := tok) by assumption.
    rewrite Hu, Hid. reflexivity. }
  split; [exact Hfound|].
  repeat (split; [reflexivity|]).
  split.
  { intros other Hne. apply server_update_others; [reflexivity|exact Hne]. }
  unfold Server.getGames.
  rewrite server_authenticated with (t := t) (tok := tok) by assumption.
  rewrite Hfound. reflexivity.
Qed.
End Payment.

(** ** Temporary passwords *)

Lemma tempCode_range r :
  (0 <= r)%Q -> (r < 1)%Q -> (100000 <= tempCode r <= 999999)%Z.
Proof.
  intros H0 H1. unfold tempCode.
  set (x := (100000 + r * 900000)%Q).
  assert (Hlo : (inject_Z 100000 <= x)%Q) by (unfold x, inject_Z; lra).
  assert (Hhi : (x < inject_Z 1000000)%Q) by (unfold x, inject_Z; lra).
  split.
  - apply Qfloor_resp_le in Hlo. rewrite Qfloor_Z in Hlo. exact Hlo.
  - pose proof (Qfloor_le x) as Hf.
    assert (Hlt : (inject_Z (Qfloor x) < inject_Z 1000000)%Q)
      by (eapply Qle_lt_trans; eassumption).
    rewrite <- Zlt_Qlt in Hlt. lia.
Qed.

Lemma digitsOf_step fuel n acc :
  digitsOf (S fuel) n acc
  = if (n <? 10)%Z then String (digitChar n) acc
    else digitsOf fuel (n / 10)%Z (String (digitChar (n mod 10)%Z) acc).
Proof. reflexivity. Qed.

Lemma isDigit_digitChar d : (0 <= d < 10)%Z -> isDigit (digitChar d) = true.
Proof.
  intros Hd. unfold isDigit, digitChar.
  rewrite nat_ascii_embedding by lia.
  apply andb_true_iff. split; apply Nat.leb_le; lia.
Qed.

Lemma toString_six_digits n :
  (100000 <= n <= 999999)%Z ->
  String.length (toString n) = 6 /\ allDigits (toString n) = true.
Proof.
  intros Hn. unfold toString.
  assert (H1 : (n <? 10)%Z = false) by (apply Z.ltb_ge; lia).
  assert (H2 : (n / 10 <? 10)%Z = false)
    by (apply Z.ltb_ge; apply Z.div_le_lower_bound; lia).
  assert (H3 : (n / 10 / 10 <? 10)%Z = false)
    by (apply Z.ltb_ge; rewrite Z.div_div by lia;
        apply Z.div_le_lower_bound; lia).
  assert (H4 : (n / 10 / 10 / 10 <? 10)%Z = false)
    by (apply Z.ltb_ge; rewrite !Z.div_div by lia;
        apply Z.div_le_lower_bound; lia).
  assert (H5 : (n / 10 / 10 / 10 / 10 <? 10)%Z = false)
    by (apply Z.ltb_ge; rewrite !Z.div_div by lia;
        apply Z.div_le_lower_bound; lia).
  assert (H6 : (n / 10 / 10 / 10 / 10 / 10 <? 10)%Z = true)
    by (apply Z.ltb_lt; rewrite !Z.div_div by lia;
        apply Z.div_lt_upper_bound; lia).
  assert (H6' : (0 <= n / 10 / 10 / 10 / 10 / 10)%Z)
    by (rewrite !Z.div_div by lia; apply Z.div_pos; lia).
  rewrite digitsOf_step, H1, digitsOf_step, H2, digitsOf_step, H3,
    digitsOf_step, H4, digitsOf_step, H5, digitsOf_step, H6.
  split; [cbn [String.length]; reflexivity|].
  apply Z.ltb_lt in H6.
  cbn [allDigits].
  rewrite !isDigit_digitChar; [reflexivity| | | | | |];
    try (apply Z.mod_pos_bound; lia).
  lia.
Qed.

Section TempPassword.
Context {crypto : Crypto}.

Ltac split_answer :=
  repeat match goal with
         | |- context [match ?x with _ => _ end] => destruct x
         end;
  simpl; intros; try discriminate.

(** Only the temporary-password route answers with a [tempPassword]. *)
Lemma temp_password_only_from_its_route now random req st m p u :
  json (fst (Server.handle now random req st)) = Server.TempPassword m p u ->
  exists a i, req = Server.GenerateTempPassword a i.
Proof.
  destruct req;
    try (simpl;
         unfold Server.register, Server.login, Server.me,
           Server.changePassword, Server.getGames, Server.createGame,
           Server.getPosts, Server.createPost, Server.payment,
           Server.deleteGame, Server.updateGameResult, Server.addComment,
           Server.deletePost, Server.adminUsers, Server.block, Server.vip,
           Server.authenticateToken, Server.send;
         split_answer; fail).
  intros _. eauto.
Qed.

(** C8.  When an admin's call to the temporary-password route finds its
    target, the code is an integer from 100000 to 999999 printed as six
    decimal digits; the target's stored credential becomes the hash of
    that code and its [needsPasswordChange] becomes true; no other account
    changes; the answer carries the code itself beside a user document
    without credential; and no other route answers with a
    [tempPassword]. *)
Theorem temp_password_issued :
  forall a t tok admin id target random st,
    bearerToken a = Some t -> jwtVerify t = Some tok ->
    Server.findById (userId tok) st = Some admin ->
    Server.isAdmin admin = true ->
    Server.findById id st = Some target ->
    (0 <= random)%Q -> (random < 1)%Q ->
    exists code st' target',
      code = toString (tempCode random)
      /\ (100000 <= tempCode random <= 999999)%Z
      /\ String.length code = 6
      /\ allDigits code = true
      /\ Server.generateTempPassword a id random st
         = (respond 200
              (Server.TempPassword
                 "Temporary password generated successfully" code
                 (Server.selectNoPassword target')), st')
      /\ Server.findById id st' = Some target'
      /\ Server.password target' = bcryptHash code
      /\ Server.needsPasswordChange target' = true
      /\ (forall other, other <> id ->
            Server.findById other st' = Server.findById other st)
      /\ (forall now r req s m p u,
            json (fst (Server.handle now r req s))
            = Server.TempPassword m p u ->
            exists a' i', req = Server.GenerateTempPassword a' i').
Proof.
  intros a t tok admin id target random st Ht Hv Hadm Hflag Htgt H0 H1.
  pose proof (tempCode_range H0 H1) as Hrange.
  destruct (toString_six_digits Hrange) as [Hlen Hdig].
  set (code := toString (tempCode random)) in *.
  set (f := Server.setTempPassword (bcryptHash code)).
  assert (Hfound : Server.findById id (Server.updateUser id f st)
                   = Some (f target))
    by (apply server_update_found; [reflexivity|exact Htgt]).
  exists code, (Server.updateUser id f st), (f target).
  repeat split; try assumption; try tauto.
  - unfold Server.generateTempPassword.
    rewrite server_authenticated with (t := t) (tok := tok) by assumption.
    rewrite Hadm, Hflag. simpl. fold code. fold f. rewrite Hfound.
    reflexivity.
  - intros other Hne. apply server_update_others; [reflexivity|exact Hne].
  - intros now r req s m p u. apply temp_password_only_from_its_route.
Qed.
End TempPassword.

(** ** The VIP invariant *)

Lemma vipInvariantb_spec v : vipInvariantb v = true <-> vipInvariant v.
Proof.
  unfold vipInvariantb, vipInvariant.
  destruct (vs_hasPaid v), (vs_vipStartDate v), (vs_vipExpiryDate v);
    split; intros H; try reflexivity; try discriminate;
    try (split; intros; try discriminate; try split; congruence);
    destruct H as [H1 H2];
    try (exfalso; apply H1; reflexivity);
    destruct (H2 eq_refl); discriminate.
Qed.

Lemma Forall_updateFirst A (P : A -> Prop) p f (l : list A) :
  (forall x, P x -> P (f x)) -> Forall P l -> Forall P (updateFirst p f l).
Proof.
  intros Hf. induction 1 as [|x r Hx Hr IH]; simpl; [constructor|].
  destruct (p x); constructor; auto.
Qed.

Section VipInvariant.
Context {crypto : Crypto}.

Lemma applyVip_ok b now u :
  vipInvariant (Routes.vipState (Routes.applyVip (JBool b) now u)).
Proof.
  apply vipInvariantb_spec. destruct b; reflexivity.
Qed.

Lemma newUser_ok id name mail pass admin now :
  vipInvariant
    (Routes.vipState (Routes.newUser id name mail pass admin false now)).
Proof. apply vipInvariantb_spec. reflexivity. Qed.

Lemma settled_same_users app app' :
  Routes.users app' = Routes.users app -> settled app app'.
Proof. intros Heq u Hu. rewrite Heq in Hu. right. exists u. auto. Qed.

Lemma settled_refl app : settled app app.
Proof. apply settled_same_users. reflexivity. Qed.

Lemma settled_trans app1 app2 app3 :
  settled app1 app2 -> settled app2 app3 -> settled app1 app3.
Proof.
  intros H12 H23 u3 Hu3.
  destruct (H23 u3 Hu3) as [Hok|[u2 [Hu2 [Hid Heq]]]]; [left; exact Hok|].
  rewrite Heq.
  destruct (H12 u2 Hu2) as [Hok|[u1 [Hu1 [Hid1 Heq1]]]];
    [left; exact Hok|].
  right. exists u1. repeat split; [exact Hu1|congruence|exact Heq1].
Qed.

Ltac unchanged :=
  repeat match goal with
         | |- context [match ?x with _ => _ end] => destruct x
         end;
  simpl; apply settled_same_users; reflexivity.

Lemma gate_settled uid next app :
  settled app (snd (next app)) ->
  settled app (snd (Routes.isAdminMw uid next app)).
Proof.
  intros Hnext. unfold Routes.isAdminMw.
  destruct (Routes.findById uid app) as [u|]; [|apply settled_refl].
  destruct (negb (Routes.isAdmin u)); [apply settled_refl|exact Hnext].
Qed.

(** One request to the modular application, its [hasPaid] a boolean when
    it is one to the VIP route: an account either comes out with the
    invariant or is the account it was, with the VIP fields it came in
    with. *)
Lemma handle_settled now req app :
  booleanVip req = true ->
  settled app (snd (Routes.handle now req app)).
Proof.
  intros Hbool. destruct req; simpl.
  - (* register *)
    unfold Routes.register.
    destruct (find _ (Routes.users app)); [apply settled_refl|].
    destruct (truthy (Some uname) && truthy (Some mail)
              && truthy (Some pass)); [|apply settled_refl].
    intros u Hu. simpl in Hu. apply in_app_or in Hu.
    destruct Hu as [Hu|[<-|[]]].
    + right. exists u. auto.
    + left. apply newUser_ok.
  - unfold Routes.login. unchanged.
  - unfold Routes.getMe. unchanged.
  - (* change-password *)
    unfold Routes.changePassword, Routes.changePasswordHandler.
    destruct (Routes.changePasswordMounted app); [|apply settled_refl].
    destruct currentPassword as [cur|], newPassword as [new|];
      try apply settled_refl.
    destruct (negb (truthy (Some cur)) || negb (truthy (Some new)));
      [apply settled_refl|].
    destruct (String.length new <? 6); [apply settled_refl|].
    destruct (Routes.findById reqUserId app) as [u|];
      [|apply settled_refl].
    destruct (negb (bcryptCompare cur (Routes.password u)));
      [apply settled_refl|].
    intros u' Hu'. simpl in Hu'. right.
    destruct (In_updateFirst _ _ _ _ Hu') as [Hold|[x [Hx ->]]].
    + exists u'. auto.
    + exists x. auto.
  - apply settled_refl.
  - unfold Routes.createGame. apply gate_settled. unchanged.
  - unfold Routes.updateResult. apply gate_settled. unchanged.
  - unfold Routes.deleteGame. apply gate_settled. unchanged.
  - unfold Routes.statsSummary. apply gate_settled. apply settled_refl.
  - unfold Routes.getUsers. apply gate_settled. apply settled_refl.
  - (* the admin VIP route *)
    destruct bhasPaid as [| |b| | |]; try discriminate Hbool.
    unfold Routes.patchVip. apply gate_settled. simpl.
    assert (Hupd : settled app
                     (Routes.updateUser target
                        (Routes.applyVip (JBool b) now) app)).
    { intros u' Hu'. simpl in Hu'.
      destruct (In_updateFirst _ _ _ _ Hu') as [Hold|[x [Hx ->]]].
      - right. exists u'. auto.
      - left. apply applyVip_ok. }
    destruct (Routes.findById target _); exact Hupd.
  - unfold Routes.getStats. apply gate_settled. apply settled_refl.
  - apply settled_refl.
  - unfold Routes.createPost. unchanged.
  - unfold Routes.addReply. unchanged.
  - unfold Routes.deletePost. unchanged.
Qed.

Lemma run_settled reqs app :
  booleanVips reqs = true -> settled app (Routes.run reqs app).
Proof.
  revert app. induction reqs as [|[now req] rest IH]; intros app Hb; simpl.
  - apply settled_refl.
  - unfold booleanVips in Hb. simpl in Hb.
    apply andb_true_iff in Hb. destruct Hb as [Hreq Hrest].
    eapply settled_trans; [apply handle_settled; exact Hreq|].
    apply IH. exact Hrest.
Qed.

Lemma settled_keeps_accounts app app' :
  settled app app' -> accountsOk app -> accountsOk app'.
Proof.
  intros Hs Hok. unfold accountsOk in *. rewrite Forall_forall in *.
  intros u' Hu'. destruct (Hs u' Hu') as [H|[u [Hu [_ Heq]]]]; [exact H|].
  rewrite Heq. apply Hok. exact Hu.
Qed.

(** What the admin VIP route writes for a boolean: on a grant both
    dates, thirty days apart; on a revoke neither. *)
Lemma applyVip_dates now u :
  Routes.vipState (Routes.applyVip (JBool true) now u)
  = {| vs_hasPaid := true; vs_vipStartDate := Some now;
       vs_vipExpiryDate := Some (now + 2592000000)%Z |}
  /\ Routes.vipState (Routes.applyVip (JBool false) now u)
     = {| vs_hasPaid := false; vs_vipStartDate := None;
          vs_vipExpiryDate := None |}.
Proof. split; reflexivity. Qed.

(** C1, as the code has it.  Through any requests to the modular
    application (register, login, change-password, the admin VIP route
    that grants and revokes, and the rest) in which each [hasPaid] sent to
    the VIP route is a JSON boolean, every account satisfies the invariant
    (a paying account has an expiry date, a non-paying one has neither VIP
    date) or is, under the same id, an account of the collection the
    requests started from, with the [hasPaid] and the VIP dates it had
    there.  The payment route of [server.js], and its admin VIP route
    when it grants, set [hasPaid] and [paymentDate] and no VIP date: the
    account they mark is paying and has no expiry date, which the
    invariant forbids. *)
Theorem vip_invariant_kept :
  (forall reqs app u',
      booleanVips reqs = true ->
      In u' (Routes.users (Routes.run reqs app)) ->
      vipInvariant (Routes.vipState u')
      \/ exists u, In u (Routes.users app)
                   /\ Routes._id u = Routes._id u'
                   /\ Routes.vipState u' = Routes.vipState u)
  /\
  (forall a t tok u now st,
      bearerToken a = Some t -> jwtVerify t = Some tok ->
      Server.findById (userId tok) st = Some u ->
      exists u',
        Server.findById (userId tok) (snd (Server.payment a now st))
        = Some u'
        /\ Server.hasPaid u' = true
        /\ Server.paymentDate u' = Some now
        /\ Server.vipState u'
           = {| vs_hasPaid := true; vs_vipStartDate := None;
                vs_vipExpiryDate := None |}
        /\ ~ vipInvariant (Server.vipState u'))
  /\
  (forall a t tok admin id target now st,
      bearerToken a = Some t -> jwtVerify t = Some tok ->
      Server.findById (userId tok) st = Some admin ->
      Server.isAdmin admin = true ->
      Server.findById id st = Some target ->
      exists target',
        Server.findById id (snd (Server.vip a id true now st))
        = Some target'
        /\ Server.hasPaid target' = true
        /\ Server.paymentDate target' = Some now
        /\ Server.vipState target'
           = {| vs_hasPaid := true; vs_vipStartDate := None;
                vs_vipExpiryDate := None |}
        /\ ~ vipInvariant (Server.vipState target')).
Proof.
  split; [|split].
  - intros reqs app u' Hb Hu'. exact (run_settled reqs app Hb u' Hu').
  - intros a t tok u now st Ht Hv Hu.
    pose proof (server_find_id _ _ Hu) as Hid.
    exists (Server.markPaid now u).
    split.
    { unfold Server.payment.
      rewrite server_authenticated with (t := t) (tok := tok)
        by assumption.
      rewrite Hu, Hid. simpl.
      apply server_update_found; [reflexivity|exact Hu]. }
    repeat (split; [reflexivity|]).
    intros [H _]. simpl in H. specialize (H eq_refl). congruence.
  - intros a t tok admin id target now st Ht Hv Hadmin Hadm Htarget.
    exists (Server.setVip true now target).
    assert (Hfound :
              Server.findById id
                (Server.updateUser id (Server.setVip true now) st)
              = Some (Server.setVip true now target))
      by (apply server_update_found; [reflexivity|exact Htarget]).
    split.
    { unfold Server.vip.
      rewrite server_authenticated with (t := t) (tok := tok)
        by assumption.
      rewrite Hadmin, Hadm. simpl. rewrite Hfound. exact Hfound. }
    repeat (split; [reflexivity|]).
    intros [H _]. simpl in H. specialize (H eq_refl). congruence.
Qed.

(** A [hasPaid] that is truthy and that Mongoose casts to [false], the
    string [false] for one, takes the granting branch and stores a
    non-paying account with both VIP dates. *)
Lemma vip_route_truthy_false v now u :
  jsTruthy v = true -> castBoolean v = Some (Some false) ->
  Routes.vipState (Routes.applyVip v now u)
  = {| vs_hasPaid := false; vs_vipStartDate := Some now;
       vs_vipExpiryDate := Some (now + 2592000000)%Z |}
  /\ ~ vipInvariant (Routes.vipState (Routes.applyVip v now u)).
Proof.
  intros Ht Hc.
  assert (Hstate : Routes.vipState (Routes.applyVip v now u)
                   = {| vs_hasPaid := false; vs_vipStartDate := Some now;
                        vs_vipExpiryDate := Some (now + 2592000000)%Z |}).
  { unfold Routes.vipState, Routes.applyVip, Routes.writtenFlag. simpl.
    rewrite Ht, Hc. destruct v; try discriminate; reflexivity. }
  split; [exact Hstate|].
  rewrite Hstate. intros [_ H]. simpl in H.
  destruct (H eq_refl) as [H1 _]. discriminate.
Qed.

(** The account the entry file creates at startup does not satisfy it:
    [hasPaid] is true and no date is set. *)
Lemma default_admin_has_no_expiry id now :
  ~ vipInvariant
      (Routes.vipState
         (Routes.newUser id "admin" "admin@betatips.com.ng" "admin123"
            true true now)).
Proof. intros [H _]. apply H; reflexivity. Qed.
End VipInvariant.

(** The VIP route at the string [false], sent by the admin [chief] for
    [carol]: the answer is 200 and [carol] is stored as not paying with
    both VIP dates. *)
Lemma vip_route_string_false :
  exists carol',
    statusCode (fst (Routes.patchVip 1 2 (JStr "false") 6%Z sampleApp)) = 200
    /\ Routes.findById 2
         (snd (Routes.patchVip 1 2 (JStr "false") 6%Z sampleApp))
       = Some carol'
    /\ Routes.vipState carol'
       = {| vs_hasPaid := false; vs_vipStartDate := Some 6%Z;
            vs_vipExpiryDate := Some 2592000006%Z |}
    /\ ~ vipInvariant (Routes.vipState carol').
Proof.
  eexists. split; [reflexivity|]. split; [reflexivity|].
  split; [reflexivity|]. intros [_ H].
  destruct (H eq_refl) as [H1 _]. discriminate H1.
Qed.

(** C1 as stated fails.  After [register] and the payment-status update of
    [server.js], [alice] has [hasPaid = true] and no expiry date. *)
Lemma payment_leaves_no_expiry :
  exists alice,
    Server.findById 0 alicePaid = Some alice
    /\ vs_hasPaid (Server.vipState alice) = true
    /\ vs_vipExpiryDate (Server.vipState alice) = None
    /\ ~ vipInvariant (Server.vipState alice).
Proof.
  eexists. split; [reflexivity|]. split; [reflexivity|].
  split; [reflexivity|]. intros [H _]. apply H; reflexivity.
Qed.


(** C3 as stated fails.  In [routes/auth], [dave] is deactivated: a wrong
    password for [dave] is answered 403 while an unknown username is
    answered 400, so the two answers tell whether [dave] exists. *)
Lemma deactivated_account_revealed :
  Routes.findOneByUsername "ghost" sampleApp = None
  /\ Routes.findOneByUsername "dave" sampleApp = Some dave
  /\ bcryptCompare (Crypto := sampleCrypto) "wrong" (Routes.password dave)
     = false
  /\ Routes.login (crypto := sampleCrypto) "ghost" (JStr "wrong") sampleApp
     = (respond 400 (Routes.Msg "Invalid credentials"), sampleApp)
  /\ Routes.login (crypto := sampleCrypto) "dave" (JStr "wrong") sampleApp
     = (respond 403
          (Routes.Msg "Account has been deactivated. Contact support."),
        sampleApp)
  /\ Routes.login (crypto := sampleCrypto) "ghost" (JStr "wrong") sampleApp
     <> Routes.login (crypto := sampleCrypto) "dave" (JStr "wrong") sampleApp.
Proof.
  repeat split; try reflexivity.
  intros H. apply (f_equal (fun r => statusCode (fst r))) in H.
  discriminate H.
Qed.

Lemma vip_invariant_kept_witness :
  booleanVips
    [(5%Z, Routes.Register "erin" "erin@x.com" "erinpass");
     (6%Z, Routes.PatchVip 1 2 (JBool true))] = true
  /\ In (Routes.applyVip (JBool true) 6%Z carol)
       (Routes.users
          (Routes.run (crypto := sampleCrypto)
             [(5%Z, Routes.Register "erin" "erin@x.com" "erinpass");
              (6%Z, Routes.PatchVip 1 2 (JBool true))] sampleApp))
  /\ (vipInvariant (Routes.vipState (Routes.applyVip (JBool true) 6%Z carol))
      \/ exists u,
           In u (Routes.users sampleApp)
           /\ Routes._id u = Routes._id (Routes.applyVip (JBool true) 6%Z carol)
           /\ Routes.vipState (Routes.applyVip (JBool true) 6%Z carol)
              = Routes.vipState u)
  /\ (exists u',
         Server.findById 1
           (snd (Server.payment (crypto := sampleCrypto) (header 1) 9%Z
                   openStore))
         = Some u'
         /\ ~ vipInvariant (Server.vipState u'))
  /\ (exists target',
         Server.findById 1
           (snd (Server.vip (crypto := sampleCrypto) (header 0) 1 true 9%Z
                   openStore))
         = Some target'
         /\ ~ vipInvariant (Server.vipState target')).
Proof.
  assert (Hin : In (Routes.applyVip (JBool true) 6%Z carol)
                  (Routes.users
                     (Routes.run (crypto := sampleCrypto)
                        [(5%Z, Routes.Register "erin" "erin@x.com"
                                 "erinpass");
                         (6%Z, Routes.PatchVip 1 2 (JBool true))]
                        sampleApp))).
  { right. left. reflexivity. }
  destruct (@vip_invariant_kept sampleCrypto) as (Hroutes & Hpay & Hvip).
  split; [reflexivity|]. split; [exact Hin|]. split; [|split].
  - refine (Hroutes _ sampleApp _ _ Hin). reflexivity.
  - destruct (Hpay (header 1) "tx" (tokenOf 1) bob 9%Z openStore
                eq_refl eq_refl eq_refl)
      as (u' & Hfind & _ & _ & _ & Hbad).
    exists u'. split; [exact Hfind|exact Hbad].
  - destruct (Hvip (header 0) "t" (tokenOf 0) root 1 bob 9%Z openStore
                eq_refl eq_refl eq_refl eq_refl eq_refl)
      as (target' & Hfind & _ & _ & _ & Hbad).
    exists target'. split; [exact Hfind|exact Hbad].
Defined.


Lemma login_failures_identical_witness :
  Server.login (crypto := sampleCrypto) "ghost" (JStr "wrong") blockedStore
  = Server.login (crypto := sampleCrypto) "bob" (JStr "wrong") blockedStore
  /\ Routes.login (crypto := sampleCrypto) "ghost" (JStr "wrong") sampleApp
     = Routes.login (crypto := sampleCrypto) "carol" (JStr "wrong") sampleApp
  /\ Routes.login (crypto := sampleCrypto) "dave" JNull sampleApp
     = (respond 403
          (Routes.Msg "Account has been deactivated. Contact support."),
        sampleApp).
Proof.
  destruct (login_failures_identical (crypto := sampleCrypto))
    as (HS & HR & HD).
  split; [|split].
  - apply (HS blockedStore "ghost" (JStr "wrong") "bob" "wrong" blockedBob);
      reflexivity.
  - apply (HR sampleApp "ghost" (JStr "wrong") "carol" "wrong" carol);
      reflexivity.
  - apply (HD sampleApp "ghost" (JStr "wrong") "dave" JNull dave);
      reflexivity.
Defined.

Lemma non_admin_forbidden_witness :
  Server.handle (crypto := sampleCrypto) 5%Z (1 # 2)
    (Server.CreateGame (header 1) noFields) blockedStore
  = (respond 403 (Server.Msg "Admin access required"), blockedStore)
  /\ Routes.handle (crypto := sampleCrypto) 5%Z
       (Routes.UpdateResult 2 10 (Some "draw")) sampleApp
     = (respond 403 (Routes.Msg "Access denied. Admin only."), sampleApp).
Proof.
  destruct (non_admin_forbidden (crypto := sampleCrypto)) as [HS HR].
  split.
  - apply (HS 5%Z (1 # 2) (Server.CreateGame (header 1) noFields)
             (header 1) "tx" (tokenOf 1) blockedBob); reflexivity.
  - apply (HR 5%Z (Routes.UpdateResult 2 10 (Some "draw")) 2 carol);
      reflexivity.
Defined.

Lemma deactivated_login_forbidden_witness :
  Routes.isActive dave = false
  /\ bcryptCompare (Crypto := sampleCrypto) "davepass" (Routes.password dave)
     = true
  /\ Routes.login (crypto := sampleCrypto) "dave" (JStr "davepass") sampleApp
     = (respond 403
          (Routes.Msg "Account has been deactivated. Contact support."),
        sampleApp).
Proof.
  split; [reflexivity|]. split; [reflexivity|].
  apply (@deactivated_login_forbidden sampleCrypto
           sampleApp "dave" "davepass" dave); reflexivity.
Defined.

Lemma temp_password_issued_witness :
  exists st' target',
    Server.generateTempPassword (crypto := sampleCrypto) (header 0) 1 (1 # 2)
      blockedStore
    = (respond 200
         (Server.TempPassword "Temporary password generated successfully"
            "550000" (Server.selectNoPassword target')), st')
    /\ Server.password target' = sampleHash "550000"
    /\ Server.needsPasswordChange target' = true.
Proof.
  destruct (@temp_password_issued sampleCrypto
              (header 0) "t" (tokenOf 0) root 1 blockedBob (1 # 2)
              blockedStore)
    as (code & st' & target' & Hcode & _ & _ & _ & Hans & _ & Hpw & Hflag & _);
    try reflexivity; try (unfold Qle, Qlt; simpl; lia).
  exists st', target'. subst code. split; [exact Hans|].
  split; [exact Hpw|exact Hflag].
Defined.

Lemma default_admin_reconciled_witness :
  Routes.findOneByUsername "admin" (routesApp [] []) = None
  /\ (exists admin,
         Routes.users
           (Routes.createDefaultAdmin (crypto := sampleCrypto) 1%Z
              (routesApp [] []))
         = [admin]
         /\ Routes.isAdmin admin = true)
  /\ Routes.createDefaultAdmin (crypto := sampleCrypto) 2%Z
       (Routes.createDefaultAdmin (crypto := sampleCrypto) 1%Z
          (routesApp [] []))
     = Routes.createDefaultAdmin (crypto := sampleCrypto) 1%Z
         (routesApp [] []).
Proof.
  destruct (default_admin_reconciled (crypto := sampleCrypto) 1%Z
              (routesApp [] [])) as (Hnew & _ & Hagain).
  split; [reflexivity|]. split.
  - destruct (Hnew eq_refl) as (admin & Husers & _ & Hadm & _).
    exists admin. split; [exact Husers|exact Hadm].
  - apply Hagain.
Defined.

Lemma payment_self_service_witness :
  Server.isAdmin blockedBob = false
  /\ exists st' u',
       Server.payment (crypto := sampleCrypto) (header 1) 9%Z blockedStore
       = (respond 200 (Server.Msg "Payment status updated successfully"),
          st')
       /\ Server.findById 1 st' = Some u'
       /\ Server.hasPaid u' = true.
Proof.
  split; [reflexivity|].
  destruct (@payment_self_service sampleCrypto
              (header 1) "tx" (tokenOf 1) blockedBob 9%Z blockedStore)
    as (st' & u' & Hans & Hfind & Hpaid & _); try reflexivity.
  exists st', u'. split; [exact Hans|]. split; [exact Hfind|exact Hpaid].
Defined.

(** ** More facts about collections *)

Section MoreCollectionFacts.
Variable A : Type.
Implicit Types (p q : A -> bool) (f g : A -> A) (l : list A).

Lemma find_app_new p l x :
  find p l = None -> p x = true -> find p (l ++ [x]) = Some x.
Proof.
  intros Hl Hx. induction l as [|y r IH]; simpl in *.
  - rewrite Hx. reflexivity.
  - destruct (p y); [discriminate|auto].
Qed.

Lemma find_none_weaken p q l :
  (forall x, q x = true -> p x = true) ->
  find p l = None -> find q l = None.
Proof.
  intros Hqp. induction l as [|y r IH]; simpl; [reflexivity|].
  destruct (p y) eqn:Hp; [discriminate|]. intros Hr.
  destruct (q y) eqn:Hq; [|auto].
  rewrite (Hqp _ Hq) in Hp. discriminate.
Qed.

Lemma find_updateFirst_both p q f l u :
  (forall x, p (f x) = p x) ->
  find p l = Some u -> find q l = Some u ->
  find p (updateFirst q f l) = Some (f u).
Proof.
  intros Hp. induction l as [|y r IH]; simpl; [discriminate|].
  destruct (q y) eqn:Hq, (p y) eqn:Hpy; intros H1 H2; simpl.
  - inversion H2; subst. rewrite Hp, Hpy. reflexivity.
  - inversion H2; subst. apply find_some in H1. destruct H1 as [_ H1].
    congruence.
  - inversion H1; subst. apply find_some in H2. destruct H2 as [_ H2].
    congruence.
  - rewrite Hpy. auto.
Qed.

Lemma find_updateFirst_either p q f l u :
  (forall x, p (f x) = p x) ->
  find p l = Some u ->
  find p (updateFirst q f l) = Some u
  \/ find p (updateFirst q f l) = Some (f u).
Proof.
  intros Hp. induction l as [|y r IH]; simpl; [discriminate|].
  destruct (q y) eqn:Hq; simpl.
  - rewrite Hp. destruct (p y); intros H; [inversion H; subst|]; auto.
  - destruct (p y); intros H; auto.
Qed.

Lemma updateFirst_twice p f g l :
  (forall x, p (f x) = p x) ->
  updateFirst p g (updateFirst p f l)
  = updateFirst p (fun x => g (f x)) l.
Proof.
  intros Hp. induction l as [|y r IH]; simpl; [reflexivity|].
  destruct (p y) eqn:Hy; simpl.
  - rewrite Hp, Hy. reflexivity.
  - rewrite Hy, IH. reflexivity.
Qed.

Lemma updateFirst_ext p f g l :
  (forall x, f x = g x) -> updateFirst p f l = updateFirst p g l.
Proof.
  intros Hfg. induction l as [|y r IH]; simpl; [reflexivity|].
  rewrite Hfg, IH. reflexivity.
Qed.

Lemma updateFirst_fixed p f l u :
  find p l = Some u -> f u = u -> updateFirst p f l = l.
Proof.
  intros Hu Hf. induction l as [|y r IH]; simpl in *; [reflexivity|].
  destruct (p y).
  - inversion Hu; subst. rewrite Hf. reflexivity.
  - rewrite IH by exact Hu. reflexivity.
Qed.

Lemma updateFirst_absent p f l :
  find p l = None -> updateFirst p f l = l.
Proof.
  induction l as [|y r IH]; simpl; [reflexivity|].
  destruct (p y); [discriminate|]. intros H. rewrite IH by exact H.
  reflexivity.
Qed.

Lemma removeFirst_absent p l :
  find p l = None -> removeFirst p l = l.
Proof.
  induction l as [|y r IH]; simpl; [reflexivity|].
  destruct (p y); [discriminate|]. intros H. rewrite IH by exact H.
  reflexivity.
Qed.

Lemma map_updateFirst B (h : A -> B) p f l :
  (forall x, h (f x) = h x) -> map h (updateFirst p f l) = map h l.
Proof.
  intros Hh. induction l as [|y r IH]; simpl; [reflexivity|].
  destruct (p y); simpl; [rewrite Hh|rewrite IH]; reflexivity.
Qed.
End MoreCollectionFacts.

(** ** Tokens at the door of [server.js] *)

Section TokenGate.
Context {crypto : Crypto}.

(** X1.  Every route of [server.js] behind [authenticateToken] answers 401
    when the header yields no token and 403 when the token does not verify,
    and in both cases leaves the store as it was. *)
Theorem protected_routes_need_token :
  forall now random req a st,
    Server.authorizationOf req = Some a ->
    (bearerToken a = None ->
     Server.handle now random req st
     = (respond 401 (Server.Msg "Access token required"), st))
    /\ (forall t, bearerToken a = Some t -> jwtVerify t = None ->
        Server.handle now random req st
        = (respond 403 (Server.Msg "Invalid or expired token"), st)).
Proof.
  intros now random req a st Ha.
  destruct req; simpl in Ha; try discriminate; inversion Ha; subst;
    simpl;
    unfold Server.me, Server.changePassword, Server.getGames,
      Server.createGame, Server.getPosts, Server.createPost, Server.payment,
      Server.deleteGame, Server.updateGameResult, Server.addComment,
      Server.deletePost, Server.adminUsers, Server.block, Server.vip,
      Server.generateTempPassword, Server.authenticateToken;
    (split; [intros Hb; rewrite Hb; reflexivity
            |intros t Hb Hv; rewrite Hb, Hv; reflexivity]).
Qed.
End TokenGate.

(** ** Registration *)

Section Registration.
Context {crypto : Crypto}.

Lemma server_register_created uname mail pass now st r st' :
  Server.register uname mail pass now st = (r, st') ->
  statusCode r = 201 ->
  exists user,
    Server.users st' = (Server.users st ++ [user])%list
    /\ Server.username user = uname /\ Server.email user = mail
    /\ Server.password user = bcryptHash pass
    /\ Server._id user = Server.nextId st
    /\ Server.isAdmin user = false /\ Server.hasPaid user = false
    /\ find (fun u => (Server.email u =? mail)%string
                      || (Server.username u =? uname)%string)
         (Server.users st) = None
    /\ r = respond 201
             (Server.AuthOk "User created successfully"
                (jwtSign {| userId := Server._id user;
                            jwt_username := Some uname;
                            jwt_isAdmin := None |} "7d")
                (Server.summary user)).
Proof.
  unfold Server.register.
  destruct (find _ (Server.users st)) eqn:Hfind.
  - intros H; inversion H; subst. discriminate.
  - destruct (truthy (Some uname) && truthy (Some mail)).
    + intros H _. inversion H; subst. eexists. simpl.
      repeat split; reflexivity.
    + intros H; inversion H; subst. discriminate.
Qed.

(** X2.  Once [POST /api/auth/register] has created an account, a second
    registration with the same username, or with the same email, is
    answered 400 [User already exists] and writes nothing, whatever its
    other fields are. *)
Theorem server_register_conflict :
  forall uname mail pass now st r st',
    Server.register uname mail pass now st = (r, st') ->
    statusCode r = 201 ->
    forall otherName otherMail pass2 now2,
      Server.register uname otherMail pass2 now2 st'
      = (respond 400 (Server.Msg "User already exists"), st')
      /\ Server.register otherName mail pass2 now2 st'
         = (respond 400 (Server.Msg "User already exists"), st').
Proof.
  intros uname mail pass now st r st' Hreg Hok otherName otherMail pass2 now2.
  destruct (server_register_created _ _ _ _ _ Hreg Hok)
    as (user & Husers & Hname & Hmail & _).
  unfold Server.register. rewrite Husers. split.
  - destruct (find _ (Server.users st ++ [user])) eqn:Hf; [reflexivity|].
    exfalso. revert Hf. apply find_app_right.
    rewrite Hname, String.eqb_refl. apply orb_true_r.
  - destruct (find _ (Server.users st ++ [user])) eqn:Hf; [reflexivity|].
    exfalso. revert Hf. apply find_app_right.
    rewrite Hmail, String.eqb_refl. reflexivity.
Qed.

(** X3.  An account created by [POST /api/auth/register] logs in through
    [POST /api/auth/login] with the username and password it registered
    with, provided [bcrypt.compare] accepts a password against its own
    hash; the answer names the new account. *)
Theorem server_register_then_login :
  forall uname mail pass now st r st',
    bcryptCompare pass (bcryptHash pass) = true ->
    Server.register uname mail pass now st = (r, st') ->
    statusCode r = 201 ->
    exists token user,
      Server.login uname (JStr pass) st'
      = (respond 200 (Server.AuthOk "Login successful" token user), st')
      /\ Server.sum_username user = uname
      /\ Server.sum_email user = mail
      /\ Server.sum_id user = Server.nextId st.
Proof.
  intros uname mail pass now st r st' Hlaw Hreg Hok.
  destruct (server_register_created _ _ _ _ _ Hreg Hok)
    as (user & Husers & Hname & Hmail & Hpw & Hid & _ & _ & Hfree & _).
  assert (Hfound : Server.findOneByUsername uname st' = Some user).
  { unfold Server.findOneByUsername. rewrite Husers.
    apply find_app_new.
    - apply find_none_weaken with (2 := Hfree).
      intros x Hx. rewrite Hx. apply orb_true_r.
    - rewrite Hname. apply String.eqb_refl. }
  unfold Server.login. rewrite Hfound. simpl. rewrite Hpw, Hlaw. simpl.
  eexists _, _. split; [reflexivity|]. simpl. auto.
Qed.

Lemma routes_register_created uname mail pass now app r app' :
  Routes.register uname mail pass now app = (r, app') ->
  statusCode r = 201 ->
  Routes.users app'
  = (Routes.users app
       ++ [Routes.newUser (Routes.nextId app) uname mail pass false false
             now])%list
  /\ find (fun u => (Routes.email u =? mail)%string
                    || (Routes.username u =? uname)%string)
       (Routes.users app) = None.
Proof.
  unfold Routes.register.
  destruct (find _ (Routes.users app)) eqn:Hfind.
  - intros H; inversion H; subst. discriminate.
  - destruct (truthy (Some uname) && truthy (Some mail)
              && truthy (Some pass)).
    + intros H _. inversion H; subst. split; reflexivity.
    + intros H; inversion H; subst. discriminate.
Qed.

(** X4.  In [routes/auth], an account created by [POST /register] is
    active, not admin and not paying; registering its username or its
    email again is answered 400; and it logs in with the password it
    registered with (given that the stored hash accepts it), the token
    being signed for its id with [isAdmin] false. *)
Theorem routes_register_then_login :
  forall uname mail pass now app r app',
    bcryptCompare pass (bcryptHash pass) = true ->
    Routes.register uname mail pass now app = (r, app') ->
    statusCode r = 201 ->
    (forall otherMail pass2 now2,
        Routes.register uname otherMail pass2 now2 app'
        = (respond 400 (Routes.Msg "User already exists"), app'))
    /\ (forall otherName pass2 now2,
        Routes.register otherName mail pass2 now2 app'
        = (respond 400 (Routes.Msg "User already exists"), app'))
    /\ exists user,
        Routes.login uname (JStr pass) app'
        = (respond 200
             (Routes.AuthOk
                (jwtSign {| userId := Routes.nextId app;
                            jwt_username := None;
                            jwt_isAdmin := Some false |} "24h")
                user), app')
        /\ Routes.sum_username user = uname
        /\ Routes.sum_isAdmin user = false
        /\ Routes.sum_hasPaid user = false
        /\ Routes.sum_isActive user = true.
Proof.
  intros uname mail pass now app r app' Hlaw Hreg Hok.
  destruct (routes_register_created _ _ _ _ _ Hreg Hok) as [Husers Hfree].
  set (user := Routes.newUser (Routes.nextId app) uname mail pass false
                 false now) in *.
  split; [|split].
  - intros otherMail pass2 now2. unfold Routes.register. rewrite Husers.
    destruct (find _ (Routes.users app ++ [user])) eqn:Hf; [reflexivity|].
    exfalso. revert Hf. apply find_app_right. simpl.
    rewrite String.eqb_refl. apply orb_true_r.
  - intros otherName pass2 now2. unfold Routes.register. rewrite Husers.
    destruct (find _ (Routes.users app ++ [user])) eqn:Hf; [reflexivity|].
    exfalso. revert Hf. apply find_app_right. simpl.
    rewrite String.eqb_refl. reflexivity.
  - assert (Hfound : Routes.findOneByUsername uname app' = Some user).
    { unfold Routes.findOneByUsername. rewrite Husers.
      apply find_app_new.
      - apply find_none_weaken with (2 := Hfree).
        intros x Hx. rewrite Hx. apply orb_true_r.
      - simpl. apply String.eqb_refl. }
    unfold Routes.login. rewrite Hfound. simpl. rewrite Hlaw. simpl.
    eexists. split; [reflexivity|]. simpl. auto.
Qed.
End Registration.

(** ** From login to the account *)

Lemma split_noSpace t : noSpace t = true -> split " "%char t = [t].
Proof.
  induction t as [|c r IH]; simpl; [reflexivity|].
  intros H. apply andb_true_iff in H. destruct H as [Hc Hr].
  apply negb_true_iff in Hc. rewrite Hc, (IH Hr). reflexivity.
Qed.

Lemma bearerToken_bearer t :
  t <> EmptyString -> noSpace t = true ->
  bearerToken (Some ("Bearer " ++ t)) = Some t.
Proof.
  intros Hne Hns. unfold bearerToken. simpl.
  rewrite (split_noSpace _ Hns). simpl.
  destruct t; [contradiction|reflexivity].
Qed.

Section LoginThenMe.
Context {crypto : Crypto}.

(** X5.  The token that [POST /api/auth/login] hands out opens
    [GET /api/auth/me] for the same account when sent as
    [Bearer <token>]: given that [jwt.verify] recovers the signed account
    id and that tokens are non-empty and hold no space, the answer is 200
    with that account's document, without the password. *)
Theorem server_login_then_me :
  forall st uname pass user,
    (forall p e, exists tok,
        jwtVerify (jwtSign p e) = Some tok /\ userId tok = userId p) ->
    (forall p e, jwtSign p e <> EmptyString
                 /\ noSpace (jwtSign p e) = true) ->
    Server.findOneByUsername uname st = Some user ->
    Server.findById (Server._id user) st = Some user ->
    bcryptCompare pass (Server.password user) = true ->
    exists token,
      Server.login uname (JStr pass) st
      = (respond 200
           (Server.AuthOk "Login successful" token (Server.summary user)),
         st)
      /\ Server.me (Some ("Bearer " ++ token)) st
         = (respond 200 (Server.OneUser (Server.selectNoPassword user)), st).
Proof.
  intros st uname pass user Hverify Hshape Hname Hid Hpw.
  eexists. split.
  - unfold Server.login. rewrite Hname. simpl. rewrite Hpw. reflexivity.
  - match goal with
    | |- context [jwtSign ?p ?e] =>
        destruct (Hverify p e) as (tok & Hv & Htok);
        destruct (Hshape p e) as [Hne Hns]
    end.
    unfold Server.me.
    erewrite server_authenticated;
      [|apply bearerToken_bearer; eassumption|eassumption].
    rewrite Htok. simpl. rewrite Hid. reflexivity.
Qed.
End LoginThenMe.

(** ** Blocking *)

Section Blocking.
Context {crypto : Crypto}.

Lemma server_admin_after_update j id f st u :
  (forall x, Server._id (f x) = Server._id x) ->
  (forall x, Server.isAdmin (f x) = Server.isAdmin x) ->
  Server.findById j st = Some u ->
  exists u', Server.findById j (Server.updateUser id f st) = Some u'
             /\ Server.isAdmin u' = Server.isAdmin u.
Proof.
  intros Hid Hadm Hu. unfold Server.findById, Server.updateUser in *. simpl.
  assert (Hkeep : forall x, (Server._id (f x) =? j) = (Server._id x =? j))
    by (intros x; rewrite Hid; reflexivity).
  destruct (find_updateFirst_either (fun u => Server._id u =? j)
              (fun u => Server._id u =? id) f (Server.users st) Hkeep Hu)
    as [H|H].
  - exists u. auto.
  - exists (f u). auto.
Qed.

Lemma server_update_twice id f g st :
  (forall x, Server._id (f x) = Server._id x) ->
  Server.updateUser id g (Server.updateUser id f st)
  = Server.updateUser id (fun x => g (f x)) st.
Proof.
  intros Hid. unfold Server.updateUser, Server.withUsers. simpl.
  rewrite updateFirst_twice; [reflexivity|].
  intros x. rewrite Hid. reflexivity.
Qed.

Lemma server_block_store a t tok admin id blocked st :
  bearerToken a = Some t -> jwtVerify t = Some tok ->
  Server.findById (userId tok) st = Some admin ->
  Server.isAdmin admin = true ->
  Server.block a id blocked st
  = (match Server.findById id
             (Server.updateUser id (Server.setBlocked blocked) st) with
     | None => respond 404 (Server.Msg "User not found")
     | Some user =>
         respond 200
           (Server.MsgUser
              ("User " ++ (if blocked then "blocked" else "unblocked")
                       ++ " successfully")
              (Server.selectNoPassword user))
     end,
     Server.updateUser id (Server.setBlocked blocked) st).
Proof.
  intros Ht Hv Hu Hadm. unfold Server.block.
  rewrite server_authenticated with (t := t) (tok := tok) by assumption.
  rewrite Hu, Hadm. simpl.
  destruct (Server.findById id _); reflexivity.
Qed.

(** X6.  Blocking is idempotent: an admin who repeats
    [PATCH /api/admin/users/:id/block] with the same [blocked] value gets
    the same answer again and the store is as the first call left it; when
    the target exists both answers are 200, the stored target's
    [isBlocked] is the value sent, and its id, name, email, password,
    [hasPaid] and [isAdmin] are what they were. *)
Theorem server_block_idempotent :
  forall a t tok admin id blocked st,
    bearerToken a = Some t -> jwtVerify t = Some tok ->
    Server.findById (userId tok) st = Some admin ->
    Server.isAdmin admin = true ->
    Server.block a id blocked (snd (Server.block a id blocked st))
    = Server.block a id blocked st
    /\ (forall target, Server.findById id st = Some target ->
        statusCode (fst (Server.block a id blocked st)) = 200
        /\ Server.findById id (snd (Server.block a id blocked st))
           = Some (Server.setBlocked blocked target)
        /\ exists target',
             Server.findById id (snd (Server.block a id blocked st))
             = Some target'
             /\ Server.isBlocked target' = blocked
             /\ Server._id target' = Server._id target
             /\ Server.username target' = Server.username target
             /\ Server.email target' = Server.email target
             /\ Server.password target' = Server.password target
             /\ Server.hasPaid target' = Server.hasPaid target
             /\ Server.isAdmin target' = Server.isAdmin target).
Proof.
  intros a t tok admin id blocked st Ht Hv Hu Hadm.
  rewrite (@server_block_store a t tok admin id blocked st Ht Hv Hu Hadm).
  simpl.
  destruct (@server_admin_after_update (userId tok) id
              (Server.setBlocked blocked) st admin
              (fun _ => eq_refl) (fun _ => eq_refl) Hu)
    as (admin' & Hu' & Hadm').
  rewrite Hadm in Hadm'. split.
  - rewrite (@server_block_store a t tok admin' id blocked _ Ht Hv Hu' Hadm').
    rewrite server_update_twice by reflexivity.
    unfold Server.updateUser at 1 3.
    rewrite updateFirst_ext
      with (g := Server.setBlocked blocked) by reflexivity.
    reflexivity.
  - intros target Htgt.
    rewrite (@server_update_found id (Server.setBlocked blocked) st target
               (fun _ => eq_refl) Htgt).
    split; [reflexivity|]. split; [reflexivity|].
    exists (Server.setBlocked blocked target).
    repeat split; reflexivity.
Qed.

(** X7.  Blocking and then unblocking an account that was not blocked
    gives back the store the admin started from. *)
Theorem server_block_then_unblock :
  forall a t tok admin id target st,
    bearerToken a = Some t -> jwtVerify t = Some tok ->
    Server.findById (userId tok) st = Some admin ->
    Server.isAdmin admin = true ->
    Server.findById id st = Some target ->
    Server.isBlocked target = false ->
    snd (Server.block a id false (snd (Server.block a id true st))) = st.
Proof.
  intros a t tok admin id target st Ht Hv Hu Hadm Htgt Hfree.
  rewrite (@server_block_store a t tok admin id true st Ht Hv Hu Hadm). simpl.
  destruct (@server_admin_after_update (userId tok) id
              (Server.setBlocked true) st admin
              (fun _ => eq_refl) (fun _ => eq_refl) Hu)
    as (admin' & Hu' & Hadm').
  rewrite Hadm in Hadm'.
  rewrite (@server_block_store a t tok admin' id false _ Ht Hv Hu' Hadm').
  simpl.
  rewrite server_update_twice by reflexivity.
  unfold Server.updateUser, Server.withUsers.
  rewrite updateFirst_fixed with (u := target).
  - destruct st; reflexivity.
  - exact Htgt.
  - destruct target; simpl in *. subst. reflexivity.
Qed.
End Blocking.

(** ** Granting and revoking VIP in [routes/admin] *)

Section VipRoundTrip.
Context {crypto : Crypto}.






End VipRoundTrip.

(** ** New passwords log in *)

Section NewPasswords.
Context {crypto : Crypto}.

Lemma server_login_after_update id f st u pass :
  (forall x, Server.username (f x) = Server.username x) ->
  Server.findOneByUsername (Server.username u) st = Some u ->
  Server.findById id st = Some u ->
  bcryptCompare pass (Server.password (f u)) = true ->
  Server.login (Server.username u) (JStr pass) (Server.updateUser id f st)
  = (respond 200
       (Server.AuthOk "Login successful"
          (jwtSign {| userId := Server._id (f u);
                      jwt_username := Some (Server.username (f u));
                      jwt_isAdmin := None |} "7d")
          (Server.summary (f u))),
     Server.updateUser id f st).
Proof.
  intros Hname Hfirst Hid Hpw. unfold Server.login.
  assert (Hfound : Server.findOneByUsername (Server.username u)
                     (Server.updateUser id f st) = Some (f u)).
  { unfold Server.findOneByUsername, Server.updateUser. simpl.
    apply find_updateFirst_both; [|exact Hfirst|exact Hid].
    intros x. rewrite Hname. reflexivity. }
  rewrite Hfound. simpl. rewrite Hpw. reflexivity.
Qed.


(** X10.  After an admin has issued a temporary password, the target logs
    in with the six-digit code of the answer (given that a hash accepts its
    own password, and that the target is the account its username finds),
    and its document then carries [needsPasswordChange] true. *)
Theorem server_temp_password_then_login :
  forall a t tok admin id target random st,
    bearerToken a = Some t -> jwtVerify t = Some tok ->
    Server.findById (userId tok) st = Some admin ->
    Server.isAdmin admin = true ->
    Server.findById id st = Some target ->
    Server.findOneByUsername (Server.username target) st = Some target ->
    (forall p, bcryptCompare p (bcryptHash p) = true) ->
    let issued := Server.generateTempPassword a id random st in
    exists code doc,
      json (fst issued)
      = Server.TempPassword "Temporary password generated successfully"
          code doc
      /\ Server.doc_needsPasswordChange doc = true
      /\ statusCode
           (fst (Server.login (Server.username target) (JStr code)
              (snd issued)))
         = 200.
Proof.
  intros a t tok admin id target random st Ht Hv Hadm Hflag Htgt Hfirst Hlaw
    issued. subst issued.
  set (code := toString (tempCode random)).
  set (f := Server.setTempPassword (bcryptHash code)).
  assert (Hfound : Server.findById id (Server.updateUser id f st)
                   = Some (f target))
    by (apply server_update_found; [reflexivity|exact Htgt]).
  assert (Hrun : Server.generateTempPassword a id random st
                 = (respond 200
                      (Server.TempPassword
                         "Temporary password generated successfully" code
                         (Server.selectNoPassword (f target))),
                    Server.updateUser id f st)).
  { unfold Server.generateTempPassword.
    rewrite server_authenticated with (t := t) (tok := tok) by assumption.
    rewrite Hadm, Hflag. simpl. fold code. fold f. rewrite Hfound.
    reflexivity. }
  rewrite Hrun. simpl. exists code, (Server.selectNoPassword (f target)).
  split; [reflexivity|]. split; [reflexivity|].
  rewrite (@server_login_after_update id f st target code); auto.
Qed.
End NewPasswords.

(** ** Deleting posts and games *)

Section Deleting.
Context {crypto : Crypto}.

(** X11.  [DELETE /api/posts/:id] of [server.js] changes the store only
    for a request with a valid token whose post exists and whose actor is
    the post's author or an admin; the answer is then 200 and exactly the
    first post with that id is gone. *)
Theorem server_delete_post_authorised :
  forall a id st,
    snd (Server.deletePost a id st) <> st ->
    exists t tok post,
      bearerToken a = Some t /\ jwtVerify t = Some tok
      /\ find (fun p => Server.post_id p =? id) (Server.posts st) = Some post
      /\ (Server.author post = userId tok
          \/ exists u, Server.findById (userId tok) st = Some u
                       /\ Server.isAdmin u = true)
      /\ statusCode (fst (Server.deletePost a id st)) = 200
      /\ snd (Server.deletePost a id st)
         = Server.withPosts st
             (removeFirst (fun p => Server.post_id p =? id)
                (Server.posts st)).
Proof.
  intros a id st. unfold Server.deletePost, Server.authenticateToken.
  destruct (bearerToken a) as [t|] eqn:Ht;
    [|intros H; exfalso; apply H; reflexivity].
  destruct (jwtVerify t) as [tok|] eqn:Hv;
    [|intros H; exfalso; apply H; reflexivity].
  destruct (find _ (Server.posts st)) as [post|] eqn:Hpost;
    [|intros H; exfalso; apply H; reflexivity].
  destruct (Server.author post =? userId tok) eqn:Hauthor.
  - intros _. exists t, tok, post. apply Nat.eqb_eq in Hauthor.
    repeat split; auto.
  - destruct (Server.findById (userId tok) st) as [u|] eqn:Hu;
      [|intros H; exfalso; apply H; reflexivity].
    destruct (Server.isAdmin u) eqn:Hadm; simpl;
      [|intros H; exfalso; apply H; reflexivity].
    intros _. exists t, tok, post.
    repeat split; auto. right. exists u. auto.
Qed.

(** X12.  [DELETE /api/games/:id] of [server.js] answers an admin 200
    [Game deleted successfully] even when no game has that id, and then
    changes nothing; [DELETE /:id] of [routes/games] answers 404 in that
    case.  When the game exists both remove it. *)
Theorem delete_game_missing_or_present :
  (forall a t tok admin id st,
      bearerToken a = Some t -> jwtVerify t = Some tok ->
      Server.findById (userId tok) st = Some admin ->
      Server.isAdmin admin = true ->
      fst (Server.deleteGame a id st)
      = respond 200 (Server.Msg "Game deleted successfully")
      /\ (find (fun g => Server.game_id g =? id) (Server.games st) = None ->
          snd (Server.deleteGame a id st) = st)
      /\ Server.games (snd (Server.deleteGame a id st))
         = removeFirst (fun g => Server.game_id g =? id) (Server.games st))
  /\ (forall uid admin id app,
      Routes.findById uid app = Some admin ->
      Routes.isAdmin admin = true ->
      (find (fun g => Routes.game_id g =? id) (Routes.games app) = None ->
       Routes.deleteGame uid id app
       = (respond 404 (Routes.Msg "Game not found"), app))
      /\ (forall game,
          find (fun g => Routes.game_id g =? id) (Routes.games app)
          = Some game ->
          statusCode (fst (Routes.deleteGame uid id app)) = 200
          /\ Routes.games (snd (Routes.deleteGame uid id app))
             = removeFirst (fun g => Routes.game_id g =? id)
                 (Routes.games app))).
Proof.
  split.
  - intros a t tok admin id st Ht Hv Hu Hadm. unfold Server.deleteGame.
    rewrite server_authenticated with (t := t) (tok := tok) by assumption.
    rewrite Hu, Hadm. simpl. split; [reflexivity|]. split; [|reflexivity].
    intros Hnone. rewrite removeFirst_absent by exact Hnone.
    destruct st; reflexivity.
  - intros uid admin id app Hu Hadm. unfold Routes.deleteGame.
    rewrite (@routes_gate_open uid admin _ app Hu Hadm). split.
    + intros Hnone. rewrite Hnone. reflexivity.
    + intros game Hgame. rewrite Hgame. split; reflexivity.
Qed.
End Deleting.

(** ** Routes that cannot succeed *)

Section CannotSucceed.
Context {crypto : Crypto}.

(** X13.  [PATCH /api/games/:id/result] of [server.js] never records a
    result: for every request the store is unchanged and the status is
    401, 403 or 500; an admin with a valid token always gets 500 (the
    handler reads [result] above its declaration). *)
Theorem server_result_route_never_succeeds :
  forall a id result st,
    snd (Server.updateGameResult a id result st) = st
    /\ (statusCode (fst (Server.updateGameResult a id result st)) = 401
        \/ statusCode (fst (Server.updateGameResult a id result st)) = 403
        \/ statusCode (fst (Server.updateGameResult a id result st)) = 500)
    /\ (forall t tok admin,
          bearerToken a = Some t -> jwtVerify t = Some tok ->
          Server.findById (userId tok) st = Some admin ->
          Server.isAdmin admin = true ->
          Server.updateGameResult a id result st
          = (respond 500 (Server.Msg "Server error"), st)).
Proof.
  intros a id result st.
  assert (Hadmin : forall t tok admin,
             bearerToken a = Some t -> jwtVerify t = Some tok ->
             Server.findById (userId tok) st = Some admin ->
             Server.isAdmin admin = true ->
             Server.updateGameResult a id result st
             = (respond 500 (Server.Msg "Server error"), st)).
  { intros t tok admin Ht Hv Hu Hadm. unfold Server.updateGameResult.
    rewrite server_authenticated with (t := t) (tok := tok) by assumption.
    rewrite Hu, Hadm. reflexivity. }
  split; [|split; [|exact Hadmin]]; clear Hadmin;
    unfold Server.updateGameResult, Server.authenticateToken;
    destruct (bearerToken a) as [t|]; simpl; auto;
    destruct (jwtVerify t) as [tok|]; simpl; auto;
    destruct (Server.findById (userId tok) st) as [u|]; simpl; auto;
    destruct (Server.isAdmin u); simpl; auto.
Qed.

(** X14.  [POST /] of [routes/games] never stores a game: for every
    request the application state is unchanged and the status is 403 (not
    an admin), 400 (a failed check, or the schema's required [postedBy],
    which the handler never sets) or 500 (the [trim] call on a name that
    is not a string).  It is 500 only when [homeTeam], [awayTeam] or
    [prediction] is not a string, and an admin who sends the three as
    strings is answered 400. *)
Theorem routes_create_game_never_saves :
  forall uid body app,
    snd (Routes.createGame uid body app) = app
    /\ (statusCode (fst (Routes.createGame uid body app)) = 403
        \/ statusCode (fst (Routes.createGame uid body app)) = 400
        \/ statusCode (fst (Routes.createGame uid body app)) = 500)
    /\ (statusCode (fst (Routes.createGame uid body app)) = 500 ->
        asString (Routes.b_homeTeam body) = None
        \/ asString (Routes.b_awayTeam body) = None
        \/ asString (Routes.b_prediction body) = None)
    /\ (forall admin h a p,
          Routes.findById uid app = Some admin ->
          Routes.isAdmin admin = true ->
          Routes.b_homeTeam body = JStr h ->
          Routes.b_awayTeam body = JStr a ->
          Routes.b_prediction body = JStr p ->
          statusCode (fst (Routes.createGame uid body app)) = 400).
Proof.
  intros uid body app.
  assert (Hstrings : forall admin h a p,
             Routes.findById uid app = Some admin ->
             Routes.isAdmin admin = true ->
             Routes.b_homeTeam body = JStr h ->
             Routes.b_awayTeam body = JStr a ->
             Routes.b_prediction body = JStr p ->
             statusCode (fst (Routes.createGame uid body app)) = 400).
  { intros admin h a p Hu Hadm Hh Ha Hp.
    unfold Routes.createGame, Routes.isAdminMw.
    rewrite Hu, Hadm, Hh, Ha, Hp. cbn [negb asString].
    destruct (Routes.b_odds body) as [o|]; [|reflexivity].
    destruct (Routes.b_category body) as [c|]; [|reflexivity].
    destruct (Routes.b_matchTime body) as [m|]; [|reflexivity].
    repeat match goal with
           | |- context [if ?c then _ else _] => destruct c
           end; reflexivity. }
  split; [|split; [|split; [|exact Hstrings]]]; clear Hstrings;
    unfold Routes.createGame, Routes.isAdminMw;
    (destruct (Routes.findById uid app) as [u|];
       [|simpl; auto; discriminate]);
    (destruct (negb (Routes.isAdmin u)); [simpl; auto; discriminate|]);
    (destruct (Routes.b_odds body) as [o|];
       [|simpl; auto; discriminate]);
    (destruct (Routes.b_category body) as [c|];
       [|simpl; auto; discriminate]);
    (destruct (Routes.b_matchTime body) as [m|];
       [|simpl; auto; discriminate]);
    repeat match goal with
           | |- context [if ?c then _ else _] =>
               destruct c; [simpl; auto; discriminate|]
           end;
    (destruct (asString (Routes.b_homeTeam body)) as [h|] eqn:Hh;
       [|simpl; auto]);
    (destruct (asString (Routes.b_awayTeam body)) as [a|] eqn:Ha;
       [|simpl; auto]);
    (destruct (asString (Routes.b_prediction body)) as [p|] eqn:Hp;
       [|simpl; auto]);
    simpl; auto; discriminate.
Qed.
End CannotSucceed.

(** ** The change-password layer of [routes/auth] *)

Section Mounting.
Context {crypto : Crypto}.

Ltac flag_unchanged :=
  repeat match goal with
         | |- context [match ?x with _ => _ end] => destruct x eqn:?
         end;
  simpl; rewrite ?orb_false_r; first [reflexivity|assumption].

(** One request: the layer is there afterwards exactly when it was there
    before or the request was a [GET /me] answered 200. *)
Lemma routes_layer_step now req app :
  Routes.changePasswordMounted (snd (Routes.handle now req app))
  = Routes.changePasswordMounted app
    || (isGetMe req
        && (statusCode (fst (Routes.handle now req app)) =? 200)).
Proof.
  destruct req; simpl.
  - unfold Routes.register. flag_unchanged.
  - unfold Routes.login. flag_unchanged.
  - unfold Routes.getMe.
    destruct (Routes.findById reqUserId app) as [u|]; simpl;
      [|rewrite orb_false_r; reflexivity].
    destruct (negb (Routes.isActive u)); simpl;
      [rewrite orb_false_r|rewrite orb_true_r]; reflexivity.
  - unfold Routes.changePassword, Routes.changePasswordHandler.
    flag_unchanged.
  - rewrite orb_false_r. reflexivity.
  - unfold Routes.createGame, Routes.isAdminMw. flag_unchanged.
  - unfold Routes.updateResult, Routes.isAdminMw. flag_unchanged.
  - unfold Routes.deleteGame, Routes.isAdminMw. flag_unchanged.
  - unfold Routes.statsSummary, Routes.isAdminMw. flag_unchanged.
  - unfold Routes.getUsers, Routes.isAdminMw. flag_unchanged.
  - unfold Routes.patchVip, Routes.isAdminMw. flag_unchanged.
  - unfold Routes.getStats, Routes.isAdminMw. flag_unchanged.
  - rewrite orb_false_r. reflexivity.
  - unfold Routes.createPost. flag_unchanged.
  - unfold Routes.addReply. flag_unchanged.
  - unfold Routes.deletePost. flag_unchanged.
Qed.

(** X15.  [routes/auth] registers [PATCH /change-password] from inside the
    [GET /me] handler.  While the layer is missing, a change-password
    request is answered 404 and writes nothing; a [GET /me] by an existing
    active account is answered 200 and adds the layer; no other request
    adds it; and once there it stays through any further requests. *)
Theorem routes_change_password_layer :
  forall app,
    (Routes.changePasswordMounted app = false ->
     forall uid cur new,
       Routes.changePassword uid cur new app
       = (respond 404 Routes.CannotRoute, app))
    /\ (forall uid u,
          Routes.findById uid app = Some u -> Routes.isActive u = true ->
          statusCode (fst (Routes.getMe uid app)) = 200
          /\ Routes.changePasswordMounted (snd (Routes.getMe uid app))
             = true)
    /\ (forall now req,
          Routes.changePasswordMounted app = false ->
          isGetMe req = false ->
          Routes.changePasswordMounted (snd (Routes.handle now req app))
          = false)
    /\ (forall reqs,
          Routes.changePasswordMounted app = true ->
          Routes.changePasswordMounted (Routes.run reqs app) = true).
Proof.
  intros app. split; [|split; [|split]].
  - intros Hm uid cur new. unfold Routes.changePassword. rewrite Hm.
    reflexivity.
  - intros uid u Hu Hact. unfold Routes.getMe. rewrite Hu, Hact.
    split; reflexivity.
  - intros now req Hm Hreq. rewrite routes_layer_step, Hm, Hreq.
    reflexivity.
  - intros reqs. revert app.
    induction reqs as [|[now req] rest IH]; intros app Hm; simpl.
    + exact Hm.
    + apply IH. rewrite routes_layer_step, Hm. reflexivity.
Qed.
End Mounting.

(** ** Sorting *)

Section SortingFacts.
Variable A : Type.
Variable key : A -> Z.

Lemma insertDesc_perm x l : Permutation (insertDesc key x l) (x :: l).
Proof.
  induction l as [|y r IH]; simpl; [apply Permutation_refl|].
  destruct (key y <? key x)%Z; [apply Permutation_refl|].
  eapply Permutation_trans; [apply perm_skip; exact IH|apply perm_swap].
Qed.

Lemma sortDesc_perm l : Permutation (sortDesc key l) l.
Proof.
  induction l as [|x r IH]; simpl; [constructor|].
  eapply Permutation_trans; [apply insertDesc_perm|].
  apply perm_skip. exact IH.
Qed.

Lemma insertDesc_sorted x l :
  StronglySorted (descending key) l ->
  StronglySorted (descending key) (insertDesc key x l).
Proof.
  induction 1 as [|y r Hr IH Hy]; simpl.
  - constructor; constructor.
  - destruct (key y <? key x)%Z eqn:Hlt.
    + apply Z.ltb_lt in Hlt. constructor.
      * constructor; assumption.
      * constructor; [unfold descending; lia|].
        rewrite Forall_forall in *. intros z Hz.
        specialize (Hy z Hz). unfold descending in *. lia.
    + apply Z.ltb_ge in Hlt. constructor; [exact IH|].
      rewrite Forall_forall in *. intros z Hz.
      apply (Permutation_in _ (insertDesc_perm x r)) in Hz.
      destruct Hz as [<-|Hz]; [unfold descending; lia|auto].
Qed.

Lemma sortDesc_sorted l : StronglySorted (descending key) (sortDesc key l).
Proof.
  induction l as [|x r IH]; simpl; [constructor|].
  apply insertDesc_sorted. exact IH.
Qed.

Lemma insertAsc_perm x l : Permutation (insertAsc key x l) (x :: l).
Proof.
  induction l as [|y r IH]; simpl; [apply Permutation_refl|].
  destruct (key x <? key y)%Z; [apply Permutation_refl|].
  eapply Permutation_trans; [apply perm_skip; exact IH|apply perm_swap].
Qed.

Lemma sortAsc_perm l : Permutation (sortAsc key l) l.
Proof.
  induction l as [|x r IH]; simpl; [constructor|].
  eapply Permutation_trans; [apply insertAsc_perm|].
  apply perm_skip. exact IH.
Qed.

Lemma insertAsc_sorted x l :
  StronglySorted (ascending key) l ->
  StronglySorted (ascending key) (insertAsc key x l).
Proof.
  induction 1 as [|y r Hr IH Hy]; simpl.
  - constructor; constructor.
  - destruct (key x <? key y)%Z eqn:Hlt.
    + apply Z.ltb_lt in Hlt. constructor.
      * constructor; assumption.
      * constructor; [unfold ascending; lia|].
        rewrite Forall_forall in *. intros z Hz.
        specialize (Hy z Hz). unfold ascending in *. lia.
    + apply Z.ltb_ge in Hlt. constructor; [exact IH|].
      rewrite Forall_forall in *. intros z Hz.
      apply (Permutation_in _ (insertAsc_perm x r)) in Hz.
      destruct Hz as [<-|Hz]; [unfold ascending; lia|auto].
Qed.

Lemma sortAsc_sorted l : StronglySorted (ascending key) (sortAsc key l).
Proof.
  induction l as [|x r IH]; simpl; [constructor|].
  apply insertAsc_sorted. exact IH.
Qed.
Lemma In_sortAsc l y : In y (sortAsc key l) <-> In y l.
Proof.
  split; apply Permutation_in;
    [apply sortAsc_perm|apply Permutation_sym, sortAsc_perm].
Qed.
End SortingFacts.

(** ** Game lists *)

Section GameLists.
Context {crypto : Crypto}.

(** X16.  [GET /api/games] of [server.js] lists each game the actor may
    see exactly once (all games for a paying or admin actor, the ones with
    [isVip] false otherwise), newest [createdAt] first. *)
Theorem server_games_newest_first :
  forall a t tok u st,
    bearerToken a = Some t -> jwtVerify t = Some tok ->
    Server.findById (userId tok) st = Some u ->
    exists shown,
      Server.getGames a st = (respond 200 (Server.Games shown), st)
      /\ Permutation shown
           (if Server.hasPaid u || Server.isAdmin u then Server.games st
            else filter (fun g => negb (Server.isVip g)) (Server.games st))
      /\ StronglySorted (descending Server.game_createdAt) shown.
Proof.
  intros a t tok u st Ht Hv Hu. unfold Server.getGames.
  rewrite server_authenticated with (t := t) (tok := tok) by assumption.
  rewrite Hu. eexists. split; [reflexivity|]. split.
  - eapply Permutation_trans; [apply sortDesc_perm|].
    destruct (Server.hasPaid u || Server.isAdmin u);
      [apply Permutation_refl|].
    rewrite (filter_ext (fun g => Bool.eqb (Server.isVip g) false)
               (fun g => negb (Server.isVip g)));
      [apply Permutation_refl|].
    intros g. destruct (Server.isVip g); reflexivity.
  - apply sortDesc_sorted.
Qed.

(** X17.  A game an admin creates through [POST /api/games] of
    [server.js] with a body the schema accepts is answered 201 with the
    stored game, whose [isVip] is false unless the body says otherwise;
    afterwards [GET /api/games] shows it to every paying or admin actor,
    and to the other actors exactly when it is not VIP. *)
Theorem server_created_game_listed :
  forall a t tok admin body now game st,
    bearerToken a = Some t -> jwtVerify t = Some tok ->
    Server.findById (userId tok) st = Some admin ->
    Server.isAdmin admin = true ->
    Server.newGame body (Server.nextId st) now = Some game ->
    let created := Server.createGame a body now st in
    fst created = respond 201 (Server.OneGame game)
    /\ (Server.b_isVip body = None -> Server.isVip game = false)
    /\ (forall a2 t2 tok2 reader,
          bearerToken a2 = Some t2 -> jwtVerify t2 = Some tok2 ->
          Server.findById (userId tok2) st = Some reader ->
          exists shown,
            Server.getGames a2 (snd created)
            = (respond 200 (Server.Games shown), snd created)
            /\ (In game shown
                <-> Server.hasPaid reader || Server.isAdmin reader = true
                    \/ Server.isVip game = false)).
Proof.
  intros a t tok admin body now game st Ht Hv Hu Hadm Hnew created.
  assert (Hrun : created
                 = (respond 201 (Server.OneGame game),
                    Server.bumpId
                      (Server.withGames st (Server.games st ++ [game])))).
  { subst created. unfold Server.createGame.
    rewrite server_authenticated with (t := t) (tok := tok) by assumption.
    rewrite Hu, Hadm, Hnew. reflexivity. }
  rewrite Hrun. simpl. split; [reflexivity|]. split.
  - intros Hvip. unfold Server.newGame in Hnew.
    destruct (Server.b_homeTeam body), (Server.b_awayTeam body),
      (Server.b_league body), (Server.b_prediction body),
      (Server.b_odds body), (Server.b_gameTime body); try discriminate.
    destruct (_ && _) in Hnew; [|discriminate].
    inversion Hnew; subst. simpl. rewrite Hvip. reflexivity.
  - intros a2 t2 tok2 reader Ht2 Hv2 Hreader. unfold Server.getGames.
    rewrite server_authenticated with (t := t2) (tok := tok2)
      by assumption.
    unfold Server.findById in *. simpl. rewrite Hreader.
    eexists. split; [reflexivity|].
    rewrite In_sortDesc.
    destruct (Server.hasPaid reader || Server.isAdmin reader).
    + rewrite in_app_iff. simpl. tauto.
    + rewrite filter_In, in_app_iff. simpl.
      destruct (Server.isVip game); simpl; intuition congruence.
Qed.

(** X18.  The date routes of [routes/games] answer any authenticated actor
    200 with exactly the stored games whose [matchTime] lies in the window
    ([startDate] to [endDate] inclusive for [GET /date/:date], [today]
    inclusive to [tomorrow] exclusive for [GET /today]), earliest first;
    the category plays no part, so [VIP Tips] games are listed for
    everyone. *)
Theorem routes_games_by_date :
  forall uid lo hi app,
    (exists shown,
        getGamesByDate uid lo hi app
        = (respond 200 (Routes.Games shown), app)
        /\ (forall g, In g shown
                      <-> In g (Routes.games app)
                          /\ (lo <= Routes.matchTime g <= hi)%Z)
        /\ StronglySorted (ascending Routes.matchTime) shown)
    /\ (exists shown,
        getTodayGames uid lo hi app
        = (respond 200 (Routes.Games shown), app)
        /\ (forall g, In g shown
                      <-> In g (Routes.games app)
                          /\ (lo <= Routes.matchTime g < hi)%Z)
        /\ StronglySorted (ascending Routes.matchTime) shown).
Proof.
  intros uid lo hi app. split; eexists; (split; [reflexivity|]);
    (split; [|apply sortAsc_sorted]); intros g;
    rewrite In_sortAsc, filter_In, andb_true_iff.
  - rewrite !Z.leb_le. tauto.
  - rewrite Z.leb_le, Z.ltb_lt. tauto.
Qed.
End GameLists.

(** ** Statistics *)

Section Statistics.
Context {crypto : Crypto}.

Lemma count_le A (p : A -> bool) (l : list A) :
  Routes.count p l <= List.length l.
Proof. unfold Routes.count. apply filter_length_le. Qed.

Lemma won_lost_completed l :
  Routes.count (Routes.resultIs "win") l
  + Routes.count (Routes.resultIs "loss") l
  <= Routes.count Routes.hasResult l.
Proof.
  unfold Routes.count, Routes.resultIs, Routes.hasResult.
  induction l as [|g r IH]; simpl; [lia|].
  destruct (Routes.result g) as [s|]; [|exact IH].
  destruct (s =? "win")%string eqn:Hw, (s =? "loss")%string eqn:Hl;
    simpl; try lia.
  apply String.eqb_eq in Hw, Hl. subst. discriminate.
Qed.

Lemma won_lost_all_completed l :
  Forall (fun g => resultValid g = true) l ->
  Routes.count (Routes.resultIs "win") l
  + Routes.count (Routes.resultIs "loss") l
  = Routes.count Routes.hasResult l.
Proof.
  unfold Routes.count, Routes.resultIs, Routes.hasResult, resultValid.
  induction 1 as [|g r Hg Hr IH]; simpl; [reflexivity|].
  destruct (Routes.result g) as [s|]; [|exact IH].
  simpl in Hg. rewrite orb_false_r in Hg.
  destruct (s =? "win")%string eqn:Hw, (s =? "loss")%string eqn:Hl;
    simpl in *; try lia; try discriminate.
  apply String.eqb_eq in Hw, Hl. subst. discriminate.
Qed.

Lemma one_category cats c :
  NoDup cats -> In c cats ->
  list_sum (map (fun c' => if (c =? c')%string then 1 else 0) cats) = 1.
Proof.
  induction 1 as [|c0 r Hnot Hr IH]; simpl; [tauto|].
  intros [->|Hin].
  - rewrite String.eqb_refl.
    assert (Hzero : list_sum
                      (map (fun c' => if (c =? c')%string then 1 else 0) r)
                    = 0).
    { clear IH Hr. induction r as [|d r IHr]; simpl; [reflexivity|].
      destruct (c =? d)%string eqn:Hcd.
      - apply String.eqb_eq in Hcd. subst. exfalso. apply Hnot. left.
        reflexivity.
      - apply IHr. intros Hd. apply Hnot. right. exact Hd. }
    rewrite Hzero. reflexivity.
  - destruct (c =? c0)%string eqn:Hc.
    + apply String.eqb_eq in Hc. subst. contradiction.
    + apply IH. exact Hin.
Qed.

Lemma category_counts_cons cats g r :
  list_sum
    (map (fun c => Routes.cs_count (Routes.categoryStats (g :: r) c)) cats)
  = list_sum
      (map (fun c => if (Routes.category g =? c)%string then 1 else 0) cats)
    + list_sum
        (map (fun c => Routes.cs_count (Routes.categoryStats r c)) cats).
Proof.
  induction cats as [|c cs IH]; [reflexivity|].
  cbn [map list_sum fold_right]. cbn [map list_sum fold_right] in IH.
  unfold list_sum in *. cbn [fold_right]. rewrite IH.
  unfold Routes.categoryStats. cbn [Routes.cs_count filter].
  destruct (Routes.category g =? c)%string; cbn [List.length]; lia.
Qed.

Lemma category_counts_total cats l :
  NoDup cats ->
  (forall g, In g l -> In (Routes.category g) cats) ->
  list_sum (map (fun c => Routes.cs_count (Routes.categoryStats l c)) cats)
  = List.length l.
Proof.
  intros Hnd. induction l as [|g r IH]; intros Hin.
  - clear Hnd Hin. induction cats as [|c cs IHc]; [reflexivity|].
    simpl in *. exact IHc.
  - rewrite category_counts_cons.
    rewrite (@one_category cats _ Hnd (Hin g (or_introl eq_refl))).
    rewrite IH by (intros g' Hg'; apply Hin; right; exact Hg').
    reflexivity.
Qed.

(** X19.  The statistics an admin reads add up.  [GET /stats] of
    [routes/admin]: VIP users plus free users is the number of accounts.
    [GET /stats/summary] of [routes/games]: completed plus pending games is
    the number of games, won plus lost is at most the completed ones (all
    of them when every stored result is [win] or [loss]), and the counts
    of the categories sum to the number of games. *)
Theorem routes_stats_add_up :
  forall uid admin app,
    Routes.findById uid app = Some admin ->
    Routes.isAdmin admin = true ->
    (exists vipUsers freeUsers rate,
        Routes.getStats uid app
        = (respond 200
             (Routes.Stats (List.length (Routes.users app)) vipUsers
                freeUsers rate), app)
        /\ vipUsers + freeUsers = List.length (Routes.users app))
    /\ (exists completed pending won lost rate cats,
        Routes.statsSummary uid app
        = (respond 200
             (Routes.GameStats (List.length (Routes.games app)) completed
                pending won lost rate cats), app)
        /\ completed + pending = List.length (Routes.games app)
        /\ won + lost <= completed
        /\ (Forall (fun g => resultValid g = true) (Routes.games app) ->
            won + lost = completed)
        /\ list_sum (map Routes.cs_count cats)
           = List.length (Routes.games app)).
Proof.
  intros uid admin app Hu Hadm. split.
  - unfold Routes.getStats.
    rewrite (@routes_gate_open uid admin _ app Hu Hadm).
    eexists _, _, _. split; [reflexivity|].
    pose proof (count_le Routes.hasPaid (Routes.users app)). lia.
  - unfold Routes.statsSummary.
    rewrite (@routes_gate_open uid admin _ app Hu Hadm).
    eexists _, _, _, _, _, _. split; [reflexivity|].
    pose proof (count_le Routes.hasResult (Routes.games app)).
    split; [lia|]. split; [apply won_lost_completed|].
    split; [apply won_lost_all_completed|].
    rewrite map_map. apply category_counts_total.
    + apply NoDup_nodup.
    + intros g Hg. apply nodup_In. apply in_map. exact Hg.
Qed.
End Statistics.

(** ** Results of games in [routes/games] *)

Section Results.
Context {crypto : Crypto}.

Lemma Forall_removeFirst A (P : A -> Prop) p (l : list A) :
  Forall P l -> Forall P (removeFirst p l).
Proof.
  induction 1 as [|x r Hx Hr IH]; simpl; [constructor|].
  destruct (p x); [exact Hr|constructor; assumption].
Qed.

Ltac games_unchanged :=
  repeat match goal with
         | |- context [match ?x with _ => _ end] => destruct x
         end;
  simpl; assumption.

Lemma routes_results_step now req app :
  Forall (fun g => resultValid g = true) (Routes.games app) ->
  Forall (fun g => resultValid g = true)
    (Routes.games (snd (Routes.handle now req app))).
Proof.
  intros Hok. destruct req; simpl.
  - unfold Routes.register. games_unchanged.
  - unfold Routes.login. games_unchanged.
  - unfold Routes.getMe. games_unchanged.
  - unfold Routes.changePassword, Routes.changePasswordHandler.
    games_unchanged.
  - exact Hok.
  - unfold Routes.createGame, Routes.isAdminMw. games_unchanged.
  - unfold Routes.updateResult, Routes.isAdminMw.
    destruct (Routes.findById reqUserId app) as [u|]; [|exact Hok].
    destruct (negb (Routes.isAdmin u)); [exact Hok|].
    destruct bresult as [r|]; [|exact Hok].
    destruct (Routes.includes ["win"; "loss"] r) eqn:Hr; simpl;
      [|exact Hok].
    assert (Hupd : Forall (fun g => resultValid g = true)
                     (updateFirst (fun g => Routes.game_id g =? id)
                        (Routes.setResult r) (Routes.games app))).
    { apply Forall_updateFirst; [|exact Hok].
      intros g _. unfold resultValid. simpl. exact Hr. }
    destruct (find _ _); exact Hupd.
  - unfold Routes.deleteGame, Routes.isAdminMw.
    destruct (Routes.findById reqUserId app) as [u|]; [|exact Hok].
    destruct (negb (Routes.isAdmin u)); [exact Hok|].
    destruct (find _ (Routes.games app)); [|exact Hok].
    simpl. apply Forall_removeFirst. exact Hok.
  - unfold Routes.statsSummary, Routes.isAdminMw. games_unchanged.
  - unfold Routes.getUsers, Routes.isAdminMw. games_unchanged.
  - unfold Routes.patchVip, Routes.isAdminMw. games_unchanged.
  - unfold Routes.getStats, Routes.isAdminMw. games_unchanged.
  - exact Hok.
  - unfold Routes.createPost. games_unchanged.
  - unfold Routes.addReply. games_unchanged.
  - unfold Routes.deletePost. games_unchanged.
Qed.

(** X20.  [PATCH /:id/result] of [routes/games] answers an admin 400 and
    writes nothing for any [result] other than [win] or [loss] (a missing
    one included); for [win] or [loss] on an existing game it answers 200
    and the stored game's [result] is the one sent, its id, teams,
    prediction, odds, category and match time being what they were; so
    through any sequence of requests to the modular application, games
    whose result is absent, [win] or [loss] stay so. *)
Theorem routes_results_stay_valid :
  forall uid admin app,
    Routes.findById uid app = Some admin ->
    Routes.isAdmin admin = true ->
    (forall id bresult,
        match bresult with
        | Some r => Routes.includes ["win"; "loss"] r = false
        | None => True
        end ->
        Routes.updateResult uid id bresult app
        = (respond 400 (Routes.Msg Routes.invalidResult), app))
    /\ (forall id r game,
        Routes.includes ["win"; "loss"] r = true ->
        find (fun g => Routes.game_id g =? id) (Routes.games app)
        = Some game ->
        exists game',
          Routes.updateResult uid id (Some r) app
          = (respond 200
               (Routes.MsgGame ("Game result updated to " ++ r) game'),
             snd (Routes.updateResult uid id (Some r) app))
          /\ game' = Routes.setResult r game
          /\ find (fun g => Routes.game_id g =? id)
               (Routes.games (snd (Routes.updateResult uid id (Some r) app)))
             = Some game'
          /\ Routes.result game' = Some r
          /\ Routes.game_id game' = Routes.game_id game
          /\ Routes.homeTeam game' = Routes.homeTeam game
          /\ Routes.awayTeam game' = Routes.awayTeam game
          /\ Routes.prediction game' = Routes.prediction game
          /\ Routes.odds game' = Routes.odds game
          /\ Routes.category game' = Routes.category game
          /\ Routes.matchTime game' = Routes.matchTime game)
    /\ (forall reqs,
        Forall (fun g => resultValid g = true) (Routes.games app) ->
        Forall (fun g => resultValid g = true)
          (Routes.games (Routes.run reqs app))).
Proof.
  intros uid admin app Hu Hadm. split; [|split].
  - intros id bresult Hbad. unfold Routes.updateResult.
    rewrite (@routes_gate_open uid admin _ app Hu Hadm).
    destruct bresult as [r|]; [|reflexivity]. rewrite Hbad. reflexivity.
  - intros id r game Hr Hgame. unfold Routes.updateResult.
    rewrite (@routes_gate_open uid admin _ app Hu Hadm). rewrite Hr.
    simpl.
    assert (Hfound : find (fun g => Routes.game_id g =? id)
                       (updateFirst (fun g => Routes.game_id g =? id)
                          (Routes.setResult r) (Routes.games app))
                     = Some (Routes.setResult r game)).
    { apply find_updateFirst_same; [exact Hgame|]. simpl.
      apply find_some in Hgame. tauto. }
    rewrite Hfound. simpl. eexists. split; [reflexivity|].
    split; [reflexivity|]. split; [exact Hfound|].
    repeat split; reflexivity.
  - intros reqs. clear Hu Hadm. revert app.
    induction reqs as [|[now req] rest IH]; intros app Hok; simpl.
    + exact Hok.
    + apply IH. apply routes_results_step. exact Hok.
Qed.
End Results.

(** ** Who the accounts of [server.js] are *)

Section Identity.
Context {crypto : Crypto}.

Ltac users_case :=
  repeat match goal with
         | |- context [match ?x with _ => _ end] => destruct x
         end;
  simpl;
  first [ left; reflexivity
        | right; left; eexists _, _; (split; [|reflexivity]);
          intros ?; repeat split; reflexivity ].

(** One request does to the user collection one of the three things
    [usersStep] lists. *)
Lemma server_users_step now random req st :
  usersStep (Server.users st)
    (Server.users (snd (Server.handle now random req st))).
Proof.
  destruct req; simpl.
  - unfold Server.register.
    destruct (find _ (Server.users st)) eqn:Hfree; [left; reflexivity|].
    destruct (truthy (Some uname) && truthy (Some mail));
      [|left; reflexivity].
    right. right. eexists. split; [reflexivity|]. split; [reflexivity|].
    exact Hfree.
  - unfold Server.login. users_case.
  - unfold Server.me, Server.authenticateToken. users_case.
  - unfold Server.changePassword, Server.authenticateToken. users_case.
  - unfold Server.getGames, Server.authenticateToken. users_case.
  - unfold Server.createGame, Server.authenticateToken. users_case.
  - unfold Server.getPosts, Server.authenticateToken. users_case.
  - unfold Server.createPost, Server.authenticateToken. users_case.
  - unfold Server.payment, Server.authenticateToken. users_case.
  - unfold Server.deleteGame, Server.authenticateToken. users_case.
  - unfold Server.updateGameResult, Server.authenticateToken. users_case.
  - unfold Server.addComment, Server.authenticateToken. users_case.
  - unfold Server.deletePost, Server.authenticateToken. users_case.
  - unfold Server.adminUsers, Server.authenticateToken. users_case.
  - unfold Server.block, Server.authenticateToken. users_case.
  - unfold Server.vip, Server.authenticateToken. users_case.
  - unfold Server.generateTempPassword, Server.authenticateToken.
    users_case.
Qed.

Lemma usersStep_unique before after :
  usersStep before after ->
  NoDup (map Server.username before) /\ NoDup (map Server.email before) ->
  NoDup (map Server.username after) /\ NoDup (map Server.email after).
Proof.
  intros [->|[(id & f & Hf & ->)|(user & -> & _ & Hfree)]] [Hn He].
  - auto.
  - rewrite !map_updateFirst; [auto| |]; intros x; apply Hf.
  - rewrite !map_app. simpl.
    pose proof (find_none _ _ Hfree) as Hnone.
    split; apply NoDup_app; auto; try (constructor; [tauto|constructor]);
      intros s Hs [<-|[]]; apply in_map_iff in Hs;
      destruct Hs as (x & Hx & Hin); specialize (Hnone x Hin);
      apply orb_false_iff in Hnone; destruct Hnone as [Hm Hu];
      rewrite Hx, String.eqb_refl in *; discriminate.
Qed.

Lemma usersStep_admins before after u' :
  usersStep before after ->
  In u' after -> Server.isAdmin u' = true ->
  exists u, In u before /\ Server.isAdmin u = true
            /\ Server._id u = Server._id u'
            /\ Server.username u = Server.username u'.
Proof.
  intros [->|[(id & f & Hf & ->)|(user & -> & Hna & _)]] Hin Hadm.
  - exists u'. auto.
  - destruct (In_updateFirst _ _ _ _ Hin) as [Hold|(x & Hx & ->)].
    + exists u'. auto.
    + destruct (Hf x) as (Hid & Hname & _ & Hsame). exists x.
      rewrite Hsame in Hadm. auto.
  - apply in_app_or in Hin. destruct Hin as [Hold|[<-|[]]].
    + exists u'. auto.
    + congruence.
Qed.

(** X21.  [server.js] keeps usernames and emails unique: if no two
    accounts share a username and no two share an email, the same holds
    after any sequence of requests (register turns a taken name or address
    down, and no route renames an account). *)
Theorem server_names_stay_unique :
  forall reqs st,
    NoDup (map Server.username (Server.users st)) ->
    NoDup (map Server.email (Server.users st)) ->
    NoDup (map Server.username (Server.users (serverRun reqs st)))
    /\ NoDup (map Server.email (Server.users (serverRun reqs st))).
Proof.
  induction reqs as [|[[now random] req] rest IH]; intros st Hn He; simpl.
  - auto.
  - destruct (usersStep_unique (server_users_step now random req st)
                (conj Hn He)) as [Hn' He'].
    apply IH; assumption.
Qed.

(** X22.  No request to [server.js] makes an admin: after any sequence of
    requests, every account with [isAdmin] true was already an admin, with
    the same id and username, before the first of them. *)
Theorem server_no_new_admin :
  forall reqs st u',
    In u' (Server.users (serverRun reqs st)) ->
    Server.isAdmin u' = true ->
    exists u, In u (Server.users st) /\ Server.isAdmin u = true
              /\ Server._id u = Server._id u'
              /\ Server.username u = Server.username u'.
Proof.
  induction reqs as [|[[now random] req] rest IH]; intros st u' Hin Hadm;
    simpl in Hin.
  - exists u'. auto.
  - destruct (IH _ _ Hin Hadm) as (u1 & Hin1 & Hadm1 & Hid1 & Hname1).
    destruct (@usersStep_admins _ _ u1 (server_users_step now random req st)
                Hin1 Hadm1) as (u & Hu & Hadmu & Hid & Hname).
    exists u. repeat split; auto; congruence.
Qed.
End Identity.

(** ** Admins and passwords in the modular application *)

Section RoutesIdentity.
Context {crypto : Crypto}.

Lemma kept_same_users app app' :
  Routes.users app' = Routes.users app -> adminsKept app app'.
Proof. intros Heq u Hu Hflag. rewrite Heq in Hu. exists u. auto. Qed.

Ltac admins_unchanged :=
  repeat match goal with
         | |- context [match ?x with _ => _ end] => destruct x
         end;
  simpl; apply kept_same_users; reflexivity.

Lemma kept_update id f app :
  (forall x, Routes._id (f x) = Routes._id x) ->
  (forall x, Routes.isAdmin (f x) = Routes.isAdmin x) ->
  adminsKept app (Routes.updateUser id f app).
Proof.
  intros Hid Hadm u' Hin Hflag. simpl in Hin.
  destruct (In_updateFirst _ _ _ _ Hin) as [Hold|(x & Hx & ->)].
  - exists u'. auto.
  - exists x. rewrite Hadm in Hflag. rewrite Hid. auto.
Qed.

Lemma gate_kept uid next app :
  adminsKept app (snd (next app)) ->
  adminsKept app (snd (Routes.isAdminMw uid next app)).
Proof.
  intros Hnext. unfold Routes.isAdminMw.
  destruct (Routes.findById uid app) as [u|];
    [|apply kept_same_users; reflexivity].
  destruct (negb (Routes.isAdmin u));
    [apply kept_same_users; reflexivity|exact Hnext].
Qed.

Lemma routes_admins_step now req app :
  adminsKept app (snd (Routes.handle now req app)).
Proof.
  destruct req; simpl.
  - unfold Routes.register.
    destruct (find _ (Routes.users app));
      [apply kept_same_users; reflexivity|].
    destruct (truthy (Some uname) && truthy (Some mail)
              && truthy (Some pass));
      [|apply kept_same_users; reflexivity].
    intros u Hu Hflag. simpl in Hu. apply in_app_or in Hu.
    destruct Hu as [Hu|[<-|[]]]; [exists u; auto|discriminate].
  - unfold Routes.login. admins_unchanged.
  - unfold Routes.getMe. admins_unchanged.
  - unfold Routes.changePassword, Routes.changePasswordHandler.
    repeat match goal with
           | |- context [match ?x with _ => _ end] => destruct x
           end; simpl;
      first [apply kept_same_users; reflexivity
            |apply kept_update; reflexivity].
  - apply kept_same_users; reflexivity.
  - unfold Routes.createGame. apply gate_kept. admins_unchanged.
  - unfold Routes.updateResult. apply gate_kept. admins_unchanged.
  - unfold Routes.deleteGame. apply gate_kept. admins_unchanged.
  - unfold Routes.statsSummary. apply gate_kept.
    apply kept_same_users; reflexivity.
  - unfold Routes.getUsers. apply gate_kept.
    apply kept_same_users; reflexivity.
  - unfold Routes.patchVip. apply gate_kept.
    destruct (castBoolean bhasPaid);
      [|apply kept_same_users; reflexivity].
    destruct (Routes.findById target _); simpl;
      apply kept_update; reflexivity.
  - unfold Routes.getStats. apply gate_kept.
    apply kept_same_users; reflexivity.
  - apply kept_same_users; reflexivity.
  - unfold Routes.createPost. admins_unchanged.
  - unfold Routes.addReply. admins_unchanged.
  - unfold Routes.deletePost. admins_unchanged.
Qed.

(** X23.  No request to the modular application makes an admin: after any
    sequence of requests every account with [isAdmin] true was an admin
    with the same id before the first of them.  Admins come from the
    startup step and the hand-run script alone. *)
Theorem routes_no_new_admin :
  forall reqs app u',
    In u' (Routes.users (Routes.run reqs app)) ->
    Routes.isAdmin u' = true ->
    exists u, In u (Routes.users app) /\ Routes.isAdmin u = true
              /\ Routes._id u = Routes._id u'.
Proof.
  induction reqs as [|[now req] rest IH]; intros app u' Hin Hadm;
    simpl in Hin.
  - exists u'. auto.
  - destruct (IH _ _ Hin Hadm) as (u1 & Hin1 & Hadm1 & Hid1).
    destruct (routes_admins_step now req app u1 Hin1 Hadm1)
      as (u & Hu & Hadmu & Hid).
    exists u. repeat split; auto; congruence.
Qed.

End RoutesIdentity.

(** ** The admin script *)

Section AdminScript.
Context {crypto : Crypto}.

Lemma find_after_removeFirst (l : list Routes.User) name :
  NoDup (map Routes.username l) ->
  find (fun u => (Routes.username u =? name)%string)
    (removeFirst (fun u => (Routes.username u =? name)%string) l) = None.
Proof.
  induction l as [|y r IH]; simpl; [reflexivity|].
  intros Hnd. inversion Hnd as [|? ? Hnot Hr]; subst.
  destruct (Routes.username y =? name)%string eqn:Hy.
  - apply String.eqb_eq in Hy. subst.
    destruct (find _ r) as [z|] eqn:Hz; [|reflexivity].
    apply find_some in Hz. destruct Hz as [Hin Hname].
    apply String.eqb_eq in Hname. exfalso. apply Hnot.
    rewrite <- Hname. apply in_map. exact Hin.
  - simpl. rewrite Hy. apply IH. exact Hr.
Qed.

Lemma In_removeFirst_other A (p : A -> bool) (l : list A) x :
  p x = false -> (In x (removeFirst p l) <-> In x l).
Proof.
  intros Hx. induction l as [|y r IH]; simpl; [tauto|].
  destruct (p y) eqn:Hy; simpl.
  - split; [auto|]. intros [->|H]; [congruence|exact H].
  - rewrite IH. tauto.
Qed.

(** X25.  Run on a collection with unique usernames, the script of
    [createAdmin.js] leaves exactly one account named [admin], a new one
    with [isAdmin] and [hasPaid] true whose credential is the hash of the
    fixed password, whatever the old [admin] held; every account with
    another name is kept as it was. *)
Theorem create_admin_script_resets :
  forall now app,
    NoDup (map Routes.username (Routes.users app)) ->
    let admin := Routes.newUser (Routes.nextId app) "admin"
                   "admin@example.com" "admin123" true true now in
    Routes.findOneByUsername "admin" (Routes.createAdmin now app)
    = Some admin
    /\ Routes.password admin = bcryptHash "admin123"
    /\ (forall u, Routes.username u <> "admin" ->
          (In u (Routes.users (Routes.createAdmin now app))
           <-> In u (Routes.users app)))
    /\ (forall u, In u (Routes.users (Routes.createAdmin now app)) ->
          Routes.username u = "admin" -> u = admin).
Proof.
  intros now app Hnd admin.
  set (p := fun u => (Routes.username u =? "admin")%string).
  assert (Husers : Routes.users (Routes.createAdmin now app)
                   = (removeFirst p (Routes.users app) ++ [admin])%list).
  { unfold Routes.createAdmin, Routes.findOneByUsername. fold p.
    destruct (find p (Routes.users app)) eqn:Hf; simpl; [reflexivity|].
    rewrite removeFirst_absent by exact Hf. reflexivity. }
  assert (Hgone : find p (removeFirst p (Routes.users app)) = None)
    by (apply find_after_removeFirst; exact Hnd).
  split; [|split; [reflexivity|split]].
  - unfold Routes.findOneByUsername. fold p. rewrite Husers.
    apply find_app_new; [exact Hgone|reflexivity].
  - intros u Hname. rewrite Husers, in_app_iff.
    assert (Hp : p u = false) by (apply String.eqb_neq; exact Hname).
    rewrite (In_removeFirst_other p _ _ Hp). simpl.
    split; [intros [H|[<-|[]]]; [exact H|]|auto].
    exfalso. apply Hname. reflexivity.
  - intros u Hin Hname. rewrite Husers in Hin. apply in_app_or in Hin.
    destruct Hin as [Hold|[<-|[]]]; [|reflexivity].
    pose proof (find_none _ _ Hgone u Hold) as Hp. unfold p in Hp.
    rewrite Hname in Hp. discriminate.
Qed.
End AdminScript.

(** ** The post list of [routes/community] *)

Lemma StronglySorted_firstn A (R : A -> A -> Prop) n (l : list A) :
  StronglySorted R l -> StronglySorted R (firstn n l).
Proof.
  intros Hs. revert n. induction Hs as [|x r Hr IH Hx]; intros n.
  - rewrite firstn_nil. constructor.
  - destruct n as [|n]; simpl; [constructor|].
    constructor; [apply IH|].
    rewrite Forall_forall in *. intros y Hy. apply Hx.
    rewrite <- (firstn_skipn n r). apply in_or_app. left. exact Hy.
Qed.

Lemma StronglySorted_across A (R : A -> A -> Prop) (l1 l2 : list A) :
  StronglySorted R (l1 ++ l2)%list ->
  forall x y, In x l1 -> In y l2 -> R x y.
Proof.
  induction l1 as [|z r IH]; simpl; intros Hs x y Hx Hy; [contradiction|].
  inversion Hs as [|? ? Hr Hz]; subst.
  destruct Hx as [<-|Hx].
  - rewrite Forall_forall in Hz. apply Hz. apply in_or_app. right. exact Hy.
  - apply IH; assumption.
Qed.

(** X26.  [GET /posts] of [routes/community] answers 200 with the twenty
    newest posts, or all of them when there are fewer, newest first: the
    posts listed and the posts left out are together the stored posts, and
    no post left out is newer than a listed one.  Each listed post is
    shown with the username and VIP flag of its author when that account
    still exists. *)
Theorem routes_posts_page :
  forall uid app,
    exists shown,
      Routes.getPosts uid app = (respond 200 (Routes.Posts shown), app)
      /\ List.length shown = Nat.min 20 (List.length (Routes.posts app))
      /\ StronglySorted (descending Routes.post_createdAt)
           (map Routes.out_post shown)
      /\ (forall o, In o shown ->
            In (Routes.out_post o) (Routes.posts app)
            /\ Routes.out_author o
               = option_map (fun u => (Routes.username u, Routes.hasPaid u))
                   (Routes.findById (Routes.author (Routes.out_post o))
                      app))
      /\ exists rest,
           Permutation (map Routes.out_post shown ++ rest)%list
             (Routes.posts app)
           /\ (forall p q, In p (map Routes.out_post shown) -> In q rest ->
                 (Routes.post_createdAt q <= Routes.post_createdAt p)%Z).
Proof.
  intros uid app. unfold Routes.getPosts. eexists.
  assert (Hshown :
            map Routes.out_post
              (map (Routes.populatePost app)
                 (firstn 20
                    (sortDesc Routes.post_createdAt (Routes.posts app))))
            = firstn 20
                (sortDesc Routes.post_createdAt (Routes.posts app))).
  { rewrite map_map.
    rewrite map_ext with (g := fun p => p) by reflexivity.
    apply map_id. }
  split; [reflexivity|]. split; [|split; [|split]].
  - rewrite length_map, length_firstn.
    rewrite (Permutation_length
               (sortDesc_perm Routes.post_createdAt (Routes.posts app))).
    reflexivity.
  - rewrite Hshown. apply StronglySorted_firstn. apply sortDesc_sorted.
  - intros o Ho. apply in_map_iff in Ho. destruct Ho as (p & <- & Hp).
    simpl. split; [|reflexivity].
    apply In_sortDesc with (key := Routes.post_createdAt).
    rewrite <- (firstn_skipn 20). apply in_or_app. left. exact Hp.
  - exists (skipn 20 (sortDesc Routes.post_createdAt (Routes.posts app))).
    rewrite Hshown. split.
    + rewrite firstn_skipn. apply sortDesc_perm.
    + intros p q Hp Hq.
      apply (@StronglySorted_across _ (descending Routes.post_createdAt)
               (firstn 20
                  (sortDesc Routes.post_createdAt (Routes.posts app)))
               (skipn 20
                  (sortDesc Routes.post_createdAt (Routes.posts app))));
        [|exact Hp|exact Hq].
      rewrite firstn_skipn. apply sortDesc_sorted.
Qed.

(** ** The sample [Crypto] obeys the laws the theorems ask for *)

Lemma length_replicate n c : String.length (replicate n c) = n.
Proof.
  induction n as [|n IH]; simpl; [reflexivity|]. rewrite IH. reflexivity.
Qed.

Lemma noSpace_replicate n : noSpace (replicate n "x"%char) = true.
Proof. induction n as [|n IH]; simpl; [reflexivity|exact IH]. Qed.

Lemma sample_compare_own p :
  bcryptCompare (Crypto := sampleCrypto) p
    (bcryptHash (Crypto := sampleCrypto) p) = true.
Proof. simpl. apply String.eqb_refl. Qed.

Lemma sample_verify_sign p e :
  exists tok,
    jwtVerify (Crypto := sampleCrypto) (jwtSign (Crypto := sampleCrypto) p e)
    = Some tok
    /\ userId tok = userId p.
Proof.
  simpl. eexists. split; [reflexivity|]. simpl. apply length_replicate.
Qed.

Lemma sample_token_shape p e :
  jwtSign (Crypto := sampleCrypto) p e <> EmptyString
  /\ noSpace (jwtSign (Crypto := sampleCrypto) p e) = true.
Proof. simpl. split; [discriminate|apply noSpace_replicate]. Qed.

(** ** Closed instances of the further theorems *)

Lemma protected_routes_need_token_witness :
  Server.handle (crypto := sampleCrypto) 0%Z 0%Q (Server.Payment None)
    openStore
  = (respond 401 (Server.Msg "Access token required"), openStore)
  /\ Server.handle (crypto := sampleCrypto) 0%Z 0%Q
       (Server.Payment (Some "Bearer ")) openStore
     = (respond 401 (Server.Msg "Access token required"), openStore).
Proof.
  split.
  - apply (@protected_routes_need_token sampleCrypto 0%Z 0%Q
             (Server.Payment None) None openStore); reflexivity.
  - apply (@protected_routes_need_token sampleCrypto 0%Z 0%Q
             (Server.Payment (Some "Bearer ")) (Some "Bearer ") openStore);
      reflexivity.
Defined.

Lemma server_register_conflict_witness :
  Server.register (crypto := sampleCrypto) "alice" "other@x.com" "pw2" 1%Z
    aliceRegistered
  = (respond 400 (Server.Msg "User already exists"), aliceRegistered)
  /\ Server.register (crypto := sampleCrypto) "alicia" "a@x.com" "pw2" 1%Z
       aliceRegistered
     = (respond 400 (Server.Msg "User already exists"), aliceRegistered).
Proof.
  apply (@server_register_conflict sampleCrypto "alice" "a@x.com" "pw1" 0%Z
           emptyStore
           (fst (Server.register (crypto := sampleCrypto) "alice" "a@x.com"
                   "pw1" 0%Z emptyStore))
           aliceRegistered); reflexivity.
Defined.

Lemma server_register_then_login_witness :
  exists token user,
    Server.login (crypto := sampleCrypto) "alice" (JStr "pw1") aliceRegistered
    = (respond 200 (Server.AuthOk "Login successful" token user),
       aliceRegistered)
    /\ Server.sum_username user = "alice".
Proof.
  destruct (@server_register_then_login sampleCrypto "alice" "a@x.com" "pw1"
              0%Z emptyStore
              (fst (Server.register (crypto := sampleCrypto) "alice"
                      "a@x.com" "pw1" 0%Z emptyStore))
              aliceRegistered eq_refl eq_refl eq_refl)
    as (token & user & Hlogin & Hname & _).
  exists token, user. split; [exact Hlogin|exact Hname].
Defined.

Lemma routes_register_then_login_witness :
  exists user,
    Routes.login (crypto := sampleCrypto) "erin" (JStr "erinpass")
      (snd (Routes.register (crypto := sampleCrypto) "erin" "erin@x.com"
              "erinpass" 5%Z sampleApp))
    = (respond 200
         (Routes.AuthOk
            (jwtSign (Crypto := sampleCrypto)
               {| userId := 100; jwt_username := None;
                  jwt_isAdmin := Some false |} "24h") user),
       snd (Routes.register (crypto := sampleCrypto) "erin" "erin@x.com"
              "erinpass" 5%Z sampleApp))
    /\ Routes.sum_isActive user = true.
Proof.
  destruct (@routes_register_then_login sampleCrypto "erin" "erin@x.com"
              "erinpass" 5%Z sampleApp
              (fst (Routes.register (crypto := sampleCrypto) "erin"
                      "erin@x.com" "erinpass" 5%Z sampleApp))
              (snd (Routes.register (crypto := sampleCrypto) "erin"
                      "erin@x.com" "erinpass" 5%Z sampleApp))
              eq_refl eq_refl eq_refl)
    as (_ & _ & user & Hlogin & _ & _ & _ & Hactive).
  exists user. split; [exact Hlogin|exact Hactive].
Defined.

Lemma server_login_then_me_witness :
  exists token,
    Server.login (crypto := sampleCrypto) "bob" (JStr "oldpass1") openStore
    = (respond 200
         (Server.AuthOk "Login successful" token (Server.summary bob)),
       openStore)
    /\ Server.me (crypto := sampleCrypto) (Some ("Bearer " ++ token))
         openStore
       = (respond 200 (Server.OneUser (Server.selectNoPassword bob)),
          openStore).
Proof.
  apply (@server_login_then_me sampleCrypto openStore "bob" "oldpass1" bob
           sample_verify_sign sample_token_shape); reflexivity.
Defined.

Lemma server_block_idempotent_witness :
  Server.block (crypto := sampleCrypto) (header 0) 1 true
    (snd (Server.block (crypto := sampleCrypto) (header 0) 1 true openStore))
  = Server.block (crypto := sampleCrypto) (header 0) 1 true openStore
  /\ exists target',
       Server.findById 1
         (snd (Server.block (crypto := sampleCrypto) (header 0) 1 true
                 openStore))
       = Some target'
       /\ Server.isBlocked target' = true.
Proof.
  destruct (@server_block_idempotent sampleCrypto (header 0) "t" (tokenOf 0)
              root 1 true openStore eq_refl eq_refl eq_refl eq_refl)
    as [Hsame Htarget].
  split; [exact Hsame|].
  destruct (Htarget bob eq_refl) as (_ & _ & target' & Hfind & Hflag & _).
  exists target'. split; [exact Hfind|exact Hflag].
Defined.

Lemma server_block_then_unblock_witness :
  snd (Server.block (crypto := sampleCrypto) (header 0) 1 false
         (snd (Server.block (crypto := sampleCrypto) (header 0) 1 true
                 openStore)))
  = openStore.
Proof.
  apply (@server_block_then_unblock sampleCrypto (header 0) "t" (tokenOf 0)
           root 1 bob openStore); reflexivity.
Defined.



Lemma server_temp_password_then_login_witness :
  exists code doc,
    json (fst (Server.generateTempPassword (crypto := sampleCrypto)
                 (header 0) 1 (1 # 2) openStore))
    = Server.TempPassword "Temporary password generated successfully" code
        doc
    /\ Server.doc_needsPasswordChange doc = true
    /\ statusCode
         (fst (Server.login (crypto := sampleCrypto) "bob" (JStr code)
                 (snd (Server.generateTempPassword (crypto := sampleCrypto)
                         (header 0) 1 (1 # 2) openStore)))) = 200.
Proof.
  apply (@server_temp_password_then_login sampleCrypto (header 0) "t"
           (tokenOf 0) root 1 bob (1 # 2) openStore); try reflexivity.
  exact sample_compare_own.
Defined.

Lemma server_delete_post_authorised_witness :
  exists t tok post,
    bearerToken (header 1) = Some t
    /\ jwtVerify (Crypto := sampleCrypto) t = Some tok
    /\ Server.author post = userId tok
    /\ statusCode
         (fst (Server.deletePost (crypto := sampleCrypto) (header 1) 50
                 postStore)) = 200.
Proof.
  destruct (@server_delete_post_authorised sampleCrypto (header 1) 50
              postStore)
    as (t & tok & post & Ht & Hv & Hpost & Hwho & Hok & _).
  - vm_compute. discriminate.
  - exists t, tok, post. repeat split; try assumption.
    destruct Hwho as [Hauthor|(u & Hu & Hadm)]; [exact Hauthor|].
    vm_compute in Ht. inversion Ht; subst. vm_compute in Hv.
    inversion Hv; subst. vm_compute in Hu. inversion Hu; subst.
    discriminate Hadm.
Defined.

Lemma delete_game_missing_or_present_witness :
  Server.deleteGame (crypto := sampleCrypto) (header 0) 99 openStore
  = (respond 200 (Server.Msg "Game deleted successfully"), openStore)
  /\ Routes.deleteGame 1 99 sampleApp
     = (respond 404 (Routes.Msg "Game not found"), sampleApp).
Proof.
  destruct (@delete_game_missing_or_present sampleCrypto) as [HS HR].
  split.
  - destruct (HS (header 0) "t" (tokenOf 0) root 99 openStore
                eq_refl eq_refl eq_refl eq_refl) as (Hfst & Hsnd & _).
    rewrite (surjective_pairing (Server.deleteGame _ _ _)).
    rewrite Hfst, (Hsnd eq_refl). reflexivity.
  - destruct (HR 1 chief 99 sampleApp eq_refl eq_refl) as [Hnone _].
    apply Hnone. reflexivity.
Defined.

Lemma server_result_route_never_succeeds_witness :
  Server.updateGameResult (crypto := sampleCrypto) (header 0) 7 (Some "win")
    openStore
  = (respond 500 (Server.Msg "Server error"), openStore).
Proof.
  destruct (@server_result_route_never_succeeds sampleCrypto (header 0) 7
              (Some "win") openStore) as (_ & _ & Hadmin).
  apply (Hadmin "t" (tokenOf 0) root); reflexivity.
Defined.

Lemma routes_create_game_never_saves_witness :
  statusCode (fst (Routes.createGame 1 stringNames sampleApp)) = 400
  /\ statusCode (fst (Routes.createGame 1 numberName sampleApp)) = 500
  /\ (asString (Routes.b_homeTeam numberName) = None
      \/ asString (Routes.b_awayTeam numberName) = None
      \/ asString (Routes.b_prediction numberName) = None).
Proof.
  split; [|split; [reflexivity|]].
  - destruct (routes_create_game_never_saves 1 stringNames sampleApp)
      as (_ & _ & _ & H).
    apply (H chief "Home" "Away" "1"); reflexivity.
  - destruct (routes_create_game_never_saves 1 numberName sampleApp)
      as (_ & _ & H & _).
    apply H. reflexivity.
Defined.

Lemma routes_change_password_layer_witness :
  Routes.changePassword (crypto := sampleCrypto) 2 (Some "secret12")
    (Some "newsecret") sampleApp
  = (respond 404 Routes.CannotRoute, sampleApp)
  /\ Routes.changePasswordMounted
       (snd (Routes.getMe 2 sampleApp)) = true.
Proof.
  destruct (@routes_change_password_layer sampleCrypto sampleApp)
    as (Hmissing & Hme & _).
  split.
  - apply Hmissing. reflexivity.
  - apply (Hme 2 carol); reflexivity.
Defined.

Lemma server_games_newest_first_witness :
  exists shown,
    Server.getGames (crypto := sampleCrypto) (header 0) openStore
    = (respond 200 (Server.Games shown), openStore)
    /\ StronglySorted (descending Server.game_createdAt) shown.
Proof.
  destruct (@server_games_newest_first sampleCrypto (header 0) "t"
              (tokenOf 0) root openStore eq_refl eq_refl eq_refl)
    as (shown & Hans & _ & Hsorted).
  exists shown. split; [exact Hans|exact Hsorted].
Defined.

Lemma server_created_game_listed_witness :
  exists game,
    fst (Server.createGame (crypto := sampleCrypto) (header 0) tipBody 40%Z
           openStore)
    = respond 201 (Server.OneGame game)
    /\ Server.isVip game = false.
Proof.
  destruct (@server_created_game_listed sampleCrypto (header 0) "t"
              (tokenOf 0) root tipBody 40%Z
              (serverGame 100 false 40%Z) openStore
              eq_refl eq_refl eq_refl eq_refl eq_refl)
    as (Hans & Hvip & _).
  exists (serverGame 100 false 40%Z). split; [exact Hans|].
  apply Hvip. reflexivity.
Defined.

Lemma routes_stats_add_up_witness :
  exists vipUsers freeUsers rate,
    Routes.getStats 1 sampleApp
    = (respond 200 (Routes.Stats 3 vipUsers freeUsers rate), sampleApp)
    /\ vipUsers + freeUsers = 3.
Proof.
  destruct (@routes_stats_add_up 1 chief sampleApp eq_refl eq_refl)
    as [Husers _].
  exact Husers.
Defined.

Lemma routes_results_stay_valid_witness :
  Routes.updateResult 1 10 (Some "draw") sampleApp
  = (respond 400 (Routes.Msg Routes.invalidResult), sampleApp)
  /\ (exists game',
         find (fun g => Routes.game_id g =? 10)
           (Routes.games (snd (Routes.updateResult 1 10 (Some "win")
                                 sampleApp)))
         = Some game'
         /\ Routes.result game' = Some "win")
  /\ Forall (fun g => resultValid g = true)
       (Routes.games
          (Routes.run (crypto := sampleCrypto)
             [(5%Z, Routes.UpdateResult 1 10 (Some "win"));
              (6%Z, Routes.UpdateResult 1 11 (Some "draw"))] sampleApp)).
Proof.
  destruct (@routes_results_stay_valid sampleCrypto 1 chief sampleApp
              eq_refl eq_refl) as (Hbad & Hgood & Hkeep).
  split; [|split].
  - apply (Hbad 10 (Some "draw")). reflexivity.
  - destruct (Hgood 10 "win" freeTip eq_refl eq_refl)
      as (game' & _ & _ & Hfind & Hres & _).
    exists game'. split; [exact Hfind|exact Hres].
  - apply Hkeep. repeat constructor.
Defined.

Lemma server_names_stay_unique_witness :
  NoDup
    (map Server.username
       (Server.users
          (serverRun (crypto := sampleCrypto)
             [(5%Z, 0%Q, Server.Register "erin" "erin@x.com" "erinpass");
              (6%Z, 0%Q, Server.Register "erin" "e2@x.com" "erinpass")]
             openStore))).
Proof.
  apply (@server_names_stay_unique sampleCrypto
           [(5%Z, 0%Q, Server.Register "erin" "erin@x.com" "erinpass");
            (6%Z, 0%Q, Server.Register "erin" "e2@x.com" "erinpass")]
           openStore);
    repeat constructor; simpl; intuition discriminate.
Defined.

Lemma server_no_new_admin_witness :
  exists u, In u (Server.users openStore) /\ Server.isAdmin u = true
            /\ Server._id u = 0.
Proof.
  destruct (@server_no_new_admin sampleCrypto
              [(5%Z, 0%Q, Server.Payment (header 0));
               (6%Z, 0%Q, Server.Block (header 0) 0 true)]
              openStore
              (Server.setBlocked true (Server.markPaid 5%Z root)))
    as (u & Hin & Hadm & Hid & _).
  - vm_compute. left. reflexivity.
  - reflexivity.
  - exists u. split; [exact Hin|]. split; [exact Hadm|exact Hid].
Defined.

Lemma routes_no_new_admin_witness :
  exists u, In u (Routes.users sampleApp) /\ Routes.isAdmin u = true
            /\ Routes._id u = 1.
Proof.
  destruct (@routes_no_new_admin sampleCrypto
              [(5%Z, Routes.PatchVip 1 1 (JBool true))] sampleApp
              (Routes.applyVip (JBool true) 5%Z chief))
    as (u & Hin & Hadm & Hid).
  - vm_compute. left. reflexivity.
  - reflexivity.
  - exists u. split; [exact Hin|]. split; [exact Hadm|exact Hid].
Defined.


Lemma create_admin_script_resets_witness :
  Routes.findOneByUsername "admin"
    (Routes.createAdmin (crypto := sampleCrypto) 9%Z sampleApp)
  = Some (Routes.newUser (crypto := sampleCrypto) 100 "admin"
            "admin@example.com" "admin123" true true 9%Z).
Proof.
  apply (@create_admin_script_resets sampleCrypto 9%Z sampleApp).
  repeat constructor; simpl; intuition discriminate.
Defined.
